(** * LOFT reseller tracker: inventory status, sale hooks and the dashboard

    A shallow embedding of
      - [backend/src/models/Product.js]  (status hook run before [save]),
      - [backend/src/models/Sale.js]     (inventory hooks run after a write),
      - [backend/src/routes/dashboard.js] (period, aggregations, alerts),
      - [backend/src/routes/sales.js]     (list, create, update, delete),
      - [backend/src/routes/inventory.js] (summary, delete),
      - [backend/src/middleware/auth.js]  (inventory limit).

    Conventions.
      - A MongoDB collection is the list of its documents in natural order.
      - Integer-validated numbers (quantities, counters) are [Z].
      - A monetary number is a double, given by its exact value, a
        rational [Q].  A document is written with the literals of its
        numbers, and holds the doubles nearest to them (the literal
        2.47 stands for its double).  Every operation of JavaScript is
        rounded as IEEE 754 binary64 rounds it (module [Double]); the
        exponent range is taken unbounded, so that no result overflows
        to Infinity or underflows.  The sums of [$sum] are exact.
        [toFixed(2)] rounds the exact value of its double to two
        decimals, as the language defines it.
      - A [Date] is its time value, the milliseconds since the epoch, as [Z];
        the process runs in UTC, so local and UTC fields coincide. *)

From Stdlib Require Import ZArith QArith Qround Qabs Qpower List Bool Lia Lqa.
From Stdlib Require Import String DecimalString Permutation Sorted.
Import ListNotations.

Local Open Scope Z_scope.

(* ================================================================== *)
(** ** Calendar arithmetic of the built-in [Date]                      *)
(* ================================================================== *)

Module JsDate.

Definition msPerDay : Z := 86400000.

(** Days in one 400-year Gregorian cycle. *)
Definition daysPerEra : Z := 146097.

(** Day number (days since 1970-01-01) of the civil date
    [y]-[m]-[d], with [m] in 1..12.  Years start in March inside the
    computation, so that the leap day is the last day of a year. *)
Definition days_from_civil (y m d : Z) : Z :=
  let y'  := if m <=? 2 then y - 1 else y in
  let era := y' / 400 in
  let yoe := y' - era * 400 in
  let mp  := if 2 <? m then m - 3 else m + 9 in
  let doy := (153 * mp + 2) / 5 + d - 1 in
  let doe := yoe * 365 + yoe / 4 - yoe / 100 + doy in
  era * daysPerEra + doe - 719468.

(** Civil date (year, month 1..12, day of month) of a day number. *)
Definition civil_from_days (z : Z) : Z * Z * Z :=
  let z'  := z + 719468 in
  let era := z' / daysPerEra in
  let doe := z' - era * daysPerEra in
  let yoe := (doe - doe / 1460 + doe / 36524 - doe / 146096) / 365 in
  let y   := yoe + era * 400 in
  let doy := doe - (365 * yoe + yoe / 4 - yoe / 100) in
  let mp  := (5 * doy + 2) / 153 in
  let d   := doy - (153 * mp + 2) / 5 + 1 in
  let m   := if mp <? 10 then mp + 3 else mp - 9 in
  (if m <=? 2 then y + 1 else y, m, d).

(** [Day(t)] of ECMAScript: the day number of a time value. *)
Definition Day (t : Z) : Z := t / msPerDay.

Definition getTime (t : Z) : Z := t.

Definition getFullYear (t : Z) : Z :=
  let '(y, _, _) := civil_from_days (Day t) in y.

(** Month index, 0 for January. *)
Definition getMonth (t : Z) : Z :=
  let '(_, m, _) := civil_from_days (Day t) in m - 1.

Definition getDate (t : Z) : Z :=
  let '(_, _, d) := civil_from_days (Day t) in d.

(** [new Date(year, monthIndex, day)]: midnight of that day.  A year in
    0..99 is read as 1900 + year; a month index outside 0..11 carries
    into the year. *)
Definition newDate (year monthIndex day : Z) : Z :=
  let yr := if (0 <=? year) && (year <=? 99) then 1900 + year else year in
  let ym := yr + monthIndex / 12 in
  let mn := monthIndex mod 12 in
  (days_from_civil ym (mn + 1) 1 + day - 1) * msPerDay.

(** [new Date(y, m-1, d, hh, mm, ss)] for a full date with a time of
    day; used to write down concrete instants. *)
Definition at_time (y m d hh mm ss : Z) : Z :=
  newDate y (m - 1) d + ((hh * 60 + mm) * 60 + ss) * 1000.

End JsDate.

(* ================================================================== *)
(** ** Arithmetic of the type Number                                   *)
(* ================================================================== *)

Local Open Scope Q_scope.

Definition Qlt_bool (x y : Q) : bool := negb (Qle_bool y x).

Module Double.

Definition pow2 (k : Z) : Q := 2 ^ k.

(** The integer part of the binary logarithm of a positive number. *)
Definition ilog2 (x : Q) : Z :=
  let k := (Z.log2 (Qnum x) - Z.log2 (Zpos (Qden x)))%Z in
  if Qle_bool (pow2 k) x then k else (k - 1)%Z.

(** The integer nearest to [y], a tie going to the even one. *)
Definition nearest_even (y : Q) : Z :=
  let f := Qfloor y in
  match Qcompare (y - inject_Z f) (1 # 2) with
  | Lt => f
  | Gt => (f + 1)%Z
  | Eq => if Z.even f then f else (f + 1)%Z
  end.

(** A double other than 0 is [m * 2^e] with an integer [m] of 53
    bits, [2^52 <= |m| < 2^53]. *)
Definition exponent (x : Q) : Z := (ilog2 (Qabs x) - 52)%Z.

Definition mantissa (x : Q) : Z := nearest_even (x / pow2 (exponent x)).

(** The double nearest to [x], a tie going to the even mantissa: the
    rounding of every operation, and of reading a decimal. *)
Definition round (x : Q) : Q :=
  if Qeq_bool x 0 then 0
  else Qred (inject_Z (mantissa x) * pow2 (exponent x)).

(** The numbers that are doubles. *)
Definition representable (x : Q) : Prop :=
  exists m u : Z, (Z.abs m < 2 ^ 53)%Z /\ x == inject_Z m * pow2 u.

(** [x + y], [x - y], [x * y], and [x / y] for a divisor other than
    zero. *)
Definition add (x y : Q) : Q := round (round x + round y).
Definition sub (x y : Q) : Q := round (round x - round y).
Definition mul (x y : Q) : Q := round (round x * round y).
Definition div (x y : Q) : Q := round (round x / round y).



End Double.

Local Open Scope Z_scope.

(* ================================================================== *)
(** ** Product model: [models/Product.js]                              *)
(* ================================================================== *)

Definition ObjectId := nat.

Inductive ProductStatus : Type :=
  | active | low_stock | out_of_stock | archived.

Definition ProductStatus_eqb (a b : ProductStatus) : bool :=
  match a, b with
  | active, active | low_stock, low_stock
  | out_of_stock, out_of_stock | archived, archived => true
  | _, _ => false
  end.

Record Inventory : Type := mkInventory {
  inv_quantity         : Z;
  inv_restockThreshold : Z
}.

Record Analytics : Type := mkAnalytics {
  an_totalSales : Z
}.

(** A number of type Number is written as a rational, its literal;
    the document holds the double nearest to it, which the accessor
    gives by its exact value. *)
Record Product : Type := mkProduct {
  p_id                    : ObjectId;
  p_user                  : ObjectId;
  p_name                  : string;
  p_purchasePrice_literal : Q;
  p_inventory             : Inventory;
  p_status                : ProductStatus;
  p_analytics             : Analytics;
  p_isArchived            : bool
}.

Definition p_purchasePrice (p : Product) : Q :=
  Double.round (p_purchasePrice_literal p).

(** The status computed by the first [pre('save')] hook from the two
    inventory numbers. *)
Definition deriveStatus (quantity restockThreshold : Z) : ProductStatus :=
  if quantity =? 0 then out_of_stock
  else if quantity <=? restockThreshold then low_stock
  else active.

Definition set_status (p : Product) (s : ProductStatus) : Product :=
  mkProduct (p_id p) (p_user p) (p_name p) (p_purchasePrice_literal p)
            (p_inventory p) s (p_analytics p) (p_isArchived p).

(** [productSchema.pre('save', ...)]: overwrite [status] on the document
    that is about to be written. *)
Definition Product_pre_save (p : Product) : Product :=
  set_status p (deriveStatus (inv_quantity (p_inventory p))
                             (inv_restockThreshold (p_inventory p))).

(* ================================================================== *)
(** ** Sale, Expense and User models                                   *)
(* ================================================================== *)

Inductive Currency : Type := GBP | USD | EUR.

Definition Currency_eqb (a b : Currency) : bool :=
  match a, b with
  | GBP, GBP | USD, USD | EUR, EUR => true
  | _, _ => false
  end.

Inductive Platform : Type :=
  | vinted | depop | ebay | facebook | instagram | in_person | other_platform.

Definition Platform_eqb (a b : Platform) : bool :=
  match a, b with
  | vinted, vinted | depop, depop | ebay, ebay | facebook, facebook
  | instagram, instagram | in_person, in_person
  | other_platform, other_platform => true
  | _, _ => false
  end.

Inductive SaleStatus : Type :=
  | pending | paid | shipped | delivered | completed | cancelled | refunded.

Definition SaleStatus_eqb (a b : SaleStatus) : bool :=
  match a, b with
  | pending, pending | paid, paid | shipped, shipped
  | delivered, delivered | completed, completed
  | cancelled, cancelled | refunded, refunded => true
  | _, _ => false
  end.

Record Fees : Type := mkFees {
  platformFee_literal       : Q;
  paymentFee_literal        : Q;
  shippingFee_literal       : Q;
  promotionDiscount_literal : Q;
  other_literal             : Q
}.

Definition platformFee (f : Fees) : Q := Double.round (platformFee_literal f).
Definition paymentFee (f : Fees) : Q := Double.round (paymentFee_literal f).
Definition shippingFee (f : Fees) : Q := Double.round (shippingFee_literal f).
Definition promotionDiscount (f : Fees) : Q :=
  Double.round (promotionDiscount_literal f).
Definition other (f : Fees) : Q := Double.round (other_literal f).

Record Sale : Type := mkSale {
  s_id                : ObjectId;
  s_user              : ObjectId;
  s_product           : ObjectId;
  s_quantity          : Z;
  s_salePrice_literal : Q;
  s_currency          : Currency;
  s_platform          : Platform;
  s_fees              : Fees;
  s_saleDate          : Z;
  s_status            : SaleStatus;
  s_isReturned        : bool;
  s_isArchived        : bool
}.

Definition s_salePrice (s : Sale) : Q := Double.round (s_salePrice_literal s).

Inductive ExpenseCategory : Type :=
  | Product_Cost | Packaging | Shipping | Platform_Fees | Marketing_Ads
  | Equipment | Office_Supplies | Travel | Storage | Professional_Services
  | Other_Category.

Definition ExpenseCategory_eqb (a b : ExpenseCategory) : bool :=
  match a, b with
  | Product_Cost, Product_Cost | Packaging, Packaging | Shipping, Shipping
  | Platform_Fees, Platform_Fees | Marketing_Ads, Marketing_Ads
  | Equipment, Equipment | Office_Supplies, Office_Supplies
  | Travel, Travel | Storage, Storage
  | Professional_Services, Professional_Services
  | Other_Category, Other_Category => true
  | _, _ => false
  end.

Record Expense : Type := mkExpense {
  e_id             : ObjectId;
  e_user           : ObjectId;
  e_amount_literal : Q;
  e_currency       : Currency;
  e_category       : ExpenseCategory;
  e_date           : Z;
  e_isArchived     : bool
}.

Definition e_amount (e : Expense) : Q := Double.round (e_amount_literal e).

Inductive SubscriptionType : Type := free | pro.

Record User : Type := mkUser {
  u_id           : ObjectId;
  u_currency     : Currency;
  u_subscription : SubscriptionType
}.

(** The three collections the dashboard reads and the hooks write. *)
Record Db : Type := mkDb {
  products : list Product;
  sales    : list Sale;
  expenses : list Expense
}.

(* ================================================================== *)
(** ** Writes and their middleware                                     *)
(* ================================================================== *)

Definition findProductById (id : ObjectId) (ps : list Product)
  : option Product :=
  find (fun p => Nat.eqb (p_id p) id) ps.

(** The update document [{ $inc: { 'inventory.quantity': dq,
    'analytics.totalSales': ds } }] applied to one product.  No other
    field is touched. *)
Definition inc_product (dq ds : Z) (p : Product) : Product :=
  mkProduct (p_id p) (p_user p) (p_name p) (p_purchasePrice_literal p)
            (mkInventory (inv_quantity (p_inventory p) + dq)
                         (inv_restockThreshold (p_inventory p)))
            (p_status p)
            (mkAnalytics (an_totalSales (p_analytics p) + ds))
            (p_isArchived p).

(** [Product.findByIdAndUpdate(id, { $inc: ... })]: the first document
    with that [_id] is updated in place.  This is a query, not a
    document [save]: the product schema registers [pre('save')] hooks
    only, and none of them runs here. *)
Fixpoint Product_findByIdAndUpdate_inc (id : ObjectId) (dq ds : Z)
    (ps : list Product) : list Product :=
  match ps with
  | [] => []
  | p :: ps' =>
      if Nat.eqb (p_id p) id then inc_product dq ds p :: ps'
      else p :: Product_findByIdAndUpdate_inc id dq ds ps'
  end.

(** Writing a document through [save]: replace the stored document with
    the same [_id], or append a new one. *)
Fixpoint upsert {D : Type} (id_of : D -> ObjectId) (d : D) (ds : list D)
  : list D :=
  match ds with
  | [] => [d]
  | x :: ds' =>
      if Nat.eqb (id_of x) (id_of d) then d :: ds'
      else x :: upsert id_of d ds'
  end.

(** The validators [min: 0] of [inventory.quantity] and
    [inventory.restockThreshold]; the other paths of the document are
    taken to be valid. *)
Definition Product_validate (p : Product) : bool :=
  (0 <=? inv_quantity (p_inventory p))%Z
  && (0 <=? inv_restockThreshold (p_inventory p))%Z.

(** [product.save()]: the document is validated; then the status hook
    runs and the document is written.  When validation fails, [save]
    rejects with a ValidationError before any hook runs and nothing is
    written. *)
Definition Product_save (p : Product) (db : Db) : Db :=
  if Product_validate p then
    mkDb (upsert p_id (Product_pre_save p) (products db))
         (sales db) (expenses db)
  else db.

(** [saleSchema.post('save', ...)]. *)
Definition Sale_post_save (this : Sale) (db : Db) : Db :=
  if SaleStatus_eqb (s_status this) completed
     && negb (s_isReturned this)
  then mkDb (Product_findByIdAndUpdate_inc (s_product this)
               (- s_quantity this) (s_quantity this) (products db))
            (sales db) (expenses db)
  else db.

(** [saleSchema.post('findOneAndUpdate', ...)]; [doc] is the document the
    query returned, if any. *)
Definition Sale_post_findOneAndUpdate (doc : option Sale) (db : Db) : Db :=
  match doc with
  | Some doc =>
      if SaleStatus_eqb (s_status doc) cancelled
         || SaleStatus_eqb (s_status doc) refunded
      then mkDb (Product_findByIdAndUpdate_inc (s_product doc)
                   (s_quantity doc) (- s_quantity doc) (products db))
                (sales db) (expenses db)
      else db
  | None => db
  end.

(** [sale.save()]: the document is written, then the post hook runs. *)
Definition Sale_save (s : Sale) (db : Db) : Db :=
  Sale_post_save s
    (mkDb (products db) (upsert s_id s (sales db)) (expenses db)).

(* ================================================================== *)
(** ** Aggregation pipeline stages                                     *)
(* ================================================================== *)

Section Pipeline.

Context {D K A : Type}.

(** One document enters the group with key [k]: the group's
    accumulator is stepped, or a new group is opened at the end. *)
Fixpoint group_add (eqb : K -> K -> bool) (k : K) (f : A -> A) (init : A)
    (gs : list (K * A)) : list (K * A) :=
  match gs with
  | [] => [(k, f init)]
  | (k', a) :: gs' =>
      if eqb k' k then (k', f a) :: gs'
      else (k', a) :: group_add eqb k f init gs'
  end.

(** [$group] with a key expression: one accumulator per distinct key,
    the groups in order of first appearance. *)
Definition group_by (eqb : K -> K -> bool) (key : D -> K) (init : A)
    (step : A -> D -> A) (docs : list D) : list (K * A) :=
  fold_left (fun gs d => group_add eqb (key d) (fun a => step a d) init gs)
            docs [].

(** [$group] with [_id: null]: a single output document, and none at
    all when no document reaches the stage. *)
Definition group_all (init : A) (step : A -> D -> A) (docs : list D)
  : list A :=
  match docs with
  | [] => []
  | _ :: _ => [fold_left step docs init]
  end.

Fixpoint insert_by (le : D -> D -> bool) (x : D) (l : list D) : list D :=
  match l with
  | [] => [x]
  | y :: l' => if le x y then x :: l else y :: insert_by le x l'
  end.

(** [$sort]: a stable sort for the order [le]. *)
Definition sort_by (le : D -> D -> bool) (l : list D) : list D :=
  fold_right (insert_by le) [] l.

End Pipeline.

Local Open Scope Q_scope.

(* ================================================================== *)
(** ** Number formatting                                               *)
(* ================================================================== *)

(** A value that is either a number or a string of digits; a string is
    represented by the number its digits denote. *)
Inductive JsValue : Type :=
  | JNumber (n : Q)
  | JString (denotes : Q).

(** [x.toFixed(2)] of a double [x]: the decimal with two fraction digits
    nearest to the exact value of [x], a tie going away from zero; from
    10^21 on, the number is printed as it is. *)
Definition toFixed2 (x : Q) : Q :=
  if Qle_bool (inject_Z (10 ^ 21)) (Qabs x) then x
  else
    let n := Qfloor (Qabs x * 100 + (1 # 2)) in
    if Qlt_bool x 0 then (- n # 100) else (n # 100).

(** [parseFloat(v)]: the number itself, or the double nearest to the
    decimal of the string, which is the double that JSON prints with
    those digits again; it is represented by that decimal. *)
Definition parseFloat (v : JsValue) : Q :=
  match v with
  | JNumber n => n
  | JString n => n
  end.

(* ================================================================== *)
(** ** [GET /api/dashboard]: period                                    *)
(* ================================================================== *)

(** The [switch (period)] computing [startDate]; [month] is the default
    branch. *)
Definition startDate (period : string) (now : Z) : Z :=
  if String.eqb period "week" then
    (JsDate.getTime now - 7 * 24 * 60 * 60 * 1000)%Z
  else if String.eqb period "quarter" then
    JsDate.newDate (JsDate.getFullYear now)
                   (JsDate.getMonth now / 3 * 3)%Z 1
  else if String.eqb period "year" then
    JsDate.newDate (JsDate.getFullYear now) 0 1
  else
    JsDate.newDate (JsDate.getFullYear now) (JsDate.getMonth now) 1.

Definition periodLength (start now : Z) : Z :=
  (JsDate.getTime now - JsDate.getTime start)%Z.

Definition previousPeriodStart (start now : Z) : Z :=
  (JsDate.getTime start - periodLength start now)%Z.

(* ================================================================== *)
(** ** [GET /api/dashboard]: headline metrics                          *)
(* ================================================================== *)

Record InventoryOverview : Type := mkInventoryOverview {
  io_totalProducts   : Z;
  io_totalValue      : Q;
  io_lowStockItems   : Z;
  io_outOfStockItems : Z
}.

Definition inventoryOverview (user : User) (db : Db)
  : list InventoryOverview :=
  group_all
    (mkInventoryOverview 0 0 0 0)
    (fun acc p =>
       mkInventoryOverview
         (io_totalProducts acc + 1)
         (io_totalValue acc + p_purchasePrice p)
         (io_lowStockItems acc
          + (if ProductStatus_eqb (p_status p) low_stock then 1 else 0))
         (io_outOfStockItems acc
          + (if ProductStatus_eqb (p_status p) out_of_stock then 1 else 0)))
    (filter (fun p => Nat.eqb (p_user p) (u_id user)
                      && Bool.eqb (p_isArchived p) false)
            (products db)).

Record SalesMetrics : Type := mkSalesMetrics {
  sm_totalSales        : Z;
  sm_totalRevenue      : Q;
  sm_totalFees         : Q;
  sm_averageOrderValue : Q
}.

(** The [$add] expression under [totalFees]. *)
Definition fees_expr (s : Sale) : Q :=
  platformFee (s_fees s) + paymentFee (s_fees s) + shippingFee (s_fees s)
  + other (s_fees s) + promotionDiscount (s_fees s) * (-1 # 1).

(** Running state of the four accumulators of [salesMetrics]: a count,
    two sums, and the sum and count behind [$avg]. *)
Record SalesAcc : Type := mkSalesAcc {
  sa_count   : Z;
  sa_revenue : Q;
  sa_fees    : Q;
  sa_avg_sum : Q;
  sa_avg_n   : Z
}.

Definition sales_step (acc : SalesAcc) (s : Sale) : SalesAcc :=
  mkSalesAcc (sa_count acc + 1)
             (sa_revenue acc + s_salePrice s)
             (sa_fees acc + fees_expr s)
             (sa_avg_sum acc + s_salePrice s)
             (sa_avg_n acc + 1).

Definition sales_finish (acc : SalesAcc) : SalesMetrics :=
  mkSalesMetrics (sa_count acc) (sa_revenue acc) (sa_fees acc)
                 (sa_avg_sum acc / inject_Z (sa_avg_n acc)).

(** The [$match] stage of [salesMetrics]. *)
Definition salesMetrics_match (user : User) (start : Z) (currency : Currency)
    (s : Sale) : bool :=
  Nat.eqb (s_user s) (u_id user)
  && Bool.eqb (s_isArchived s) false
  && (start <=? s_saleDate s)%Z
  && Currency_eqb (s_currency s) currency.

Definition salesMetrics (user : User) (start : Z) (currency : Currency)
    (db : Db) : list SalesMetrics :=
  map sales_finish
      (group_all (mkSalesAcc 0 0 0 0 0) sales_step
         (filter (salesMetrics_match user start currency) (sales db))).

Record ExpenseMetrics : Type := mkExpenseMetrics {
  em_totalExpenses : Q;
  em_expenseCount  : Z
}.

Definition expenseMetrics_match (user : User) (start : Z)
    (currency : Currency) (e : Expense) : bool :=
  Nat.eqb (e_user e) (u_id user)
  && Bool.eqb (e_isArchived e) false
  && (start <=? e_date e)%Z
  && Currency_eqb (e_currency e) currency.

Definition expenseMetrics (user : User) (start : Z) (currency : Currency)
    (db : Db) : list ExpenseMetrics :=
  group_all
    (mkExpenseMetrics 0 0)
    (fun acc e => mkExpenseMetrics (em_totalExpenses acc + e_amount e)
                                   (em_expenseCount acc + 1))
    (filter (expenseMetrics_match user start currency) (expenses db)).

(** [xs[0] || dflt]. *)
Definition first_or {A : Type} (xs : list A) (dflt : A) : A :=
  match xs with
  | x :: _ => x
  | [] => dflt
  end.

Definition salesData (user : User) (start : Z) (currency : Currency)
    (db : Db) : SalesMetrics :=
  first_or (salesMetrics user start currency db) (mkSalesMetrics 0 0 0 0).

Definition expenseData (user : User) (start : Z) (currency : Currency)
    (db : Db) : ExpenseMetrics :=
  first_or (expenseMetrics user start currency db) (mkExpenseMetrics 0 0).

Definition inventoryData (user : User) (db : Db) : InventoryOverview :=
  first_or (inventoryOverview user db) (mkInventoryOverview 0 0 0 0).

Definition netRevenue (sd : SalesMetrics) : Q :=
  Double.sub (sm_totalRevenue sd) (sm_totalFees sd).

Definition netProfit (sd : SalesMetrics) (ed : ExpenseMetrics) : Q :=
  Double.sub (netRevenue sd) (em_totalExpenses ed).

Definition profitMargin (sd : SalesMetrics) (ed : ExpenseMetrics)
  : JsValue :=
  if Qlt_bool 0 (netRevenue sd)
  then JString (toFixed2 (Double.mul
                            (Double.div (netProfit sd ed) (netRevenue sd))
                            100))
  else JNumber 0.

(* ================================================================== *)
(** ** [GET /api/dashboard]: breakdowns                                *)
(* ================================================================== *)

(** The [$match] stage shared by [topProducts], [platformPerformance]
    and [salesTrend]. *)
Definition breakdown_match (user : User) (start : Z) (s : Sale) : bool :=
  Nat.eqb (s_user s) (u_id user)
  && Bool.eqb (s_isArchived s) false
  && (start <=? s_saleDate s)%Z.

Record TopProduct : Type := mkTopProduct {
  tp_id           : ObjectId;
  tp_product      : option Product;
  tp_totalSold    : Z;
  tp_totalRevenue : Q
}.

Definition topProducts (user : User) (start : Z) (db : Db)
  : list TopProduct :=
  let grouped :=
    group_by Nat.eqb s_product (0%Z, 0)
      (fun acc s => ((fst acc + s_quantity s)%Z, snd acc + s_salePrice s))
      (filter (breakdown_match user start) (sales db)) in
  let sorted :=
    sort_by (fun a b => (fst (snd b) <=? fst (snd a))%Z) grouped in
  map (fun g =>
         mkTopProduct (fst g)
           (hd_error (filter (fun p => Nat.eqb (p_id p) (fst g))
                             (products db)))
           (fst (snd g)) (snd (snd g)))
      (firstn 5 sorted).

Definition recentSales (user : User) (db : Db)
  : list (Sale * option Product) :=
  let found :=
    filter (fun s => Nat.eqb (s_user s) (u_id user)
                     && Bool.eqb (s_isArchived s) false)
           (sales db) in
  let populated :=
    map (fun s => (s, findProductById (s_product s) (products db))) found in
  firstn 10
    (sort_by (fun a b => (s_saleDate (fst b) <=? s_saleDate (fst a))%Z)
             populated).

Record PlatformRow : Type := mkPlatformRow {
  pr_id      : Platform;
  pr_sales   : Z;
  pr_revenue : Q
}.

Definition platformPerformance (user : User) (start : Z) (db : Db)
  : list PlatformRow :=
  let grouped :=
    group_by Platform_eqb s_platform (0%Z, 0)
      (fun acc s => ((fst acc + 1)%Z, snd acc + s_salePrice s))
      (filter (breakdown_match user start) (sales db)) in
  sort_by (fun a b => Qle_bool (pr_revenue b) (pr_revenue a))
          (map (fun g => mkPlatformRow (fst g) (fst (snd g)) (snd (snd g)))
               grouped).

Record TrendRow : Type := mkTrendRow {
  tr_year    : Z;
  tr_month   : Z;
  tr_day     : Z;
  tr_sales   : Z;
  tr_revenue : Q
}.

Definition day_key (t : Z) : Z * Z * Z :=
  (JsDate.getFullYear t, (JsDate.getMonth t + 1)%Z, JsDate.getDate t).

Definition day_key_eqb (a b : Z * Z * Z) : bool :=
  let '(y1, m1, d1) := a in
  let '(y2, m2, d2) := b in
  (y1 =? y2)%Z && (m1 =? m2)%Z && (d1 =? d2)%Z.

Definition trend_le (a b : TrendRow) : bool :=
  if (tr_year a =? tr_year b)%Z then
    if (tr_month a =? tr_month b)%Z then (tr_day a <=? tr_day b)%Z
    else (tr_month a <? tr_month b)%Z
  else (tr_year a <? tr_year b)%Z.

Definition salesTrend (user : User) (start : Z) (db : Db) : list TrendRow :=
  let grouped :=
    group_by day_key_eqb (fun s => day_key (s_saleDate s)) (0%Z, 0)
      (fun acc s => ((fst acc + 1)%Z, snd acc + s_salePrice s))
      (filter (breakdown_match user start) (sales db)) in
  sort_by trend_le
    (map (fun g => let '(y, m, d) := fst g in
                   mkTrendRow y m d (fst (snd g)) (snd (snd g)))
         grouped).

Record BreakdownRow : Type := mkBreakdownRow {
  br_id     : ExpenseCategory;
  br_amount : Q;
  br_count  : Z
}.

Definition expenseBreakdown (user : User) (start : Z) (db : Db)
  : list BreakdownRow :=
  let grouped :=
    group_by ExpenseCategory_eqb e_category (0, 0%Z)
      (fun acc e => (fst acc + e_amount e, (snd acc + 1)%Z))
      (filter (fun e => Nat.eqb (e_user e) (u_id user)
                        && Bool.eqb (e_isArchived e) false
                        && (start <=? e_date e)%Z)
              (expenses db)) in
  sort_by (fun a b => Qle_bool (br_amount b) (br_amount a))
          (map (fun g => mkBreakdownRow (fst g) (fst (snd g)) (snd (snd g)))
               grouped).

(* ================================================================== *)
(** ** [GET /api/dashboard]: previous period and growth                *)
(* ================================================================== *)

Record PreviousMetrics : Type := mkPreviousMetrics {
  pm_totalRevenue : Q;
  pm_totalSales   : Z
}.

Definition previousSalesMetrics_match (user : User) (start now : Z)
    (currency : Currency) (s : Sale) : bool :=
  Nat.eqb (s_user s) (u_id user)
  && Bool.eqb (s_isArchived s) false
  && ((previousPeriodStart start now <=? s_saleDate s)%Z
      && (s_saleDate s <? start)%Z)
  && Currency_eqb (s_currency s) currency.

Definition previousSalesMetrics (user : User) (start now : Z)
    (currency : Currency) (db : Db) : list PreviousMetrics :=
  group_all
    (mkPreviousMetrics 0 0)
    (fun acc s => mkPreviousMetrics (pm_totalRevenue acc + s_salePrice s)
                                    (pm_totalSales acc + 1))
    (filter (previousSalesMetrics_match user start now currency) (sales db)).

Definition previousData (user : User) (start now : Z) (currency : Currency)
    (db : Db) : PreviousMetrics :=
  first_or (previousSalesMetrics user start now currency db)
           (mkPreviousMetrics 0 0).

Definition revenueGrowth (sd : SalesMetrics) (pd : PreviousMetrics)
  : JsValue :=
  if Qlt_bool 0 (pm_totalRevenue pd)
  then JString (toFixed2 (Double.mul
                            (Double.div
                               (Double.sub (sm_totalRevenue sd)
                                           (pm_totalRevenue pd))
                               (pm_totalRevenue pd))
                            100))
  else if Qlt_bool 0 (sm_totalRevenue sd) then JNumber 100 else JNumber 0.

Definition salesGrowth (sd : SalesMetrics) (pd : PreviousMetrics)
  : JsValue :=
  if (0 <? pm_totalSales pd)%Z
  then JString (toFixed2 (Double.mul
                            (Double.div
                               (Double.sub (inject_Z (sm_totalSales sd))
                                           (inject_Z (pm_totalSales pd)))
                               (inject_Z (pm_totalSales pd)))
                            100))
  else if (0 <? sm_totalSales sd)%Z then JNumber 100 else JNumber 0.

(* ================================================================== *)
(** ** [GET /api/dashboard]: response                                  *)
(* ================================================================== *)

Record PeriodInfo : Type := mkPeriodInfo {
  pi_type      : string;
  pi_startDate : Z;
  pi_endDate   : Z
}.

Record SalesSection : Type := mkSalesSection {
  ss_totalSales        : Z;
  ss_totalRevenue      : Q;
  ss_totalFees         : Q;
  ss_averageOrderValue : Q;
  ss_netRevenue        : Q;
  ss_growth            : Q
}.

Record ProfitSection : Type := mkProfitSection {
  ps_netProfit     : Q;
  ps_profitMargin  : Q;
  ps_revenueGrowth : Q
}.

Record Metrics : Type := mkMetrics {
  m_inventory : InventoryOverview;
  m_sales     : SalesSection;
  m_expenses  : ExpenseMetrics;
  m_profit    : ProfitSection
}.

Record Charts : Type := mkCharts {
  c_salesTrend          : list TrendRow;
  c_platformPerformance : list PlatformRow;
  c_expenseBreakdown    : list BreakdownRow
}.

Record Insights : Type := mkInsights {
  i_topProducts : list TopProduct;
  i_recentSales : list (Sale * option Product)
}.

Record DashboardData : Type := mkDashboardData {
  d_period   : PeriodInfo;
  d_metrics  : Metrics;
  d_charts   : Charts;
  d_insights : Insights
}.

(** The handler body after validation. *)
Definition dashboard_data (user : User) (period : string)
    (currency : Currency) (now : Z) (db : Db) : DashboardData :=
  let start := startDate period now in
  let sd := salesData user start currency db in
  let ed := expenseData user start currency db in
  let pd := previousData user start now currency db in
  mkDashboardData
    (mkPeriodInfo period start now)
    (mkMetrics
       (inventoryData user db)
       (mkSalesSection (sm_totalSales sd) (sm_totalRevenue sd)
          (sm_totalFees sd) (sm_averageOrderValue sd)
          (netRevenue sd) (parseFloat (salesGrowth sd pd)))
       ed
       (mkProfitSection (netProfit sd ed)
          (parseFloat (profitMargin sd ed))
          (parseFloat (revenueGrowth sd pd))))
    (mkCharts (salesTrend user start db)
              (platformPerformance user start db)
              (expenseBreakdown user start db))
    (mkInsights (topProducts user start db)
                (firstn 5 (recentSales user db))).

Record Request : Type := mkRequest {
  req_user     : User;
  req_period   : option string;
  req_currency : option string
}.

Inductive Response (A : Type) : Type :=
  | Json (status : nat) (body : A)
  | ValidationFailed.

Arguments Json {A} status body.
Arguments ValidationFailed {A}.

Definition isIn (s : string) (allowed : list string) : bool :=
  existsb (String.eqb s) allowed.

(** [query(field).optional().isIn(allowed)]. *)
Definition optional_isIn (v : option string) (allowed : list string)
  : bool :=
  match v with
  | None => true
  | Some s => isIn s allowed
  end.

Definition currency_of_string (s : string) : option Currency :=
  if String.eqb s "GBP" then Some GBP
  else if String.eqb s "USD" then Some USD
  else if String.eqb s "EUR" then Some EUR
  else None.

(** [req.query.period || 'month']. *)
Definition period_of (req : Request) : string :=
  match req_period req with
  | Some p => p
  | None => "month"%string
  end.

(** [req.query.currency || req.user.currency]. *)
Definition currency_of (req : Request) : Currency :=
  match req_currency req with
  | Some c => match currency_of_string c with
              | Some c' => c'
              | None => u_currency (req_user req)
              end
  | None => u_currency (req_user req)
  end.

Definition valid_query (req : Request) : bool :=
  optional_isIn (req_period req) ["week"; "month"; "quarter"; "year"]%string
  && optional_isIn (req_currency req) ["GBP"; "USD"; "EUR"]%string.

(** [router.get('/', ...)]: the validation failure when a query
    parameter is outside its list, else status 200 with the payload.
    The collections are values here, so no query throws and the [catch]
    branch is never taken. *)
Definition get_dashboard (req : Request) (now : Z) (db : Db)
  : Response DashboardData :=
  if valid_query req then
    Json 200 (dashboard_data (req_user req) (period_of req)
                             (currency_of req) now db)
  else ValidationFailed.

(* ================================================================== *)
(** ** [GET /api/dashboard/alerts]                                     *)
(* ================================================================== *)

Inductive AlertType : Type :=
  | alert_low_stock | alert_out_of_stock
  | subscription_limit | pending_sales.

Definition AlertType_eqb (a b : AlertType) : bool :=
  match a, b with
  | alert_low_stock, alert_low_stock
  | alert_out_of_stock, alert_out_of_stock
  | subscription_limit, subscription_limit
  | pending_sales, pending_sales => true
  | _, _ => false
  end.

Inductive Severity : Type := warning | error | info.

(** The [select]ed fields of a low-stock product. *)
Record LowStockRef : Type := mkLowStockRef {
  ls_id        : ObjectId;
  ls_name      : string;
  ls_inventory : Inventory
}.

Inductive AlertData : Type :=
  | LowStockList (refs : list LowStockRef)
  | LimitData (currentCount : nat) (limit : nat).

Record Alert : Type := mkAlert {
  a_type           : AlertType;
  a_severity       : Severity;
  a_title          : string;
  a_message        : string;
  a_data           : option AlertData;
  a_actionRequired : bool
}.

(** Decimal digits of a count, as a template literal prints it. *)
Definition show_nat (n : nat) : string :=
  NilZero.string_of_uint (Nat.to_uint n).

Definition lowStockProducts (user : User) (db : Db) : list LowStockRef :=
  map (fun p => mkLowStockRef (p_id p) (p_name p) (p_inventory p))
      (firstn 10
         (filter (fun p => Nat.eqb (p_user p) (u_id user)
                           && Bool.eqb (p_isArchived p) false
                           && ProductStatus_eqb (p_status p) low_stock)
                 (products db))).

Definition outOfStockCount (user : User) (db : Db) : nat :=
  List.length (filter (fun p => Nat.eqb (p_user p) (u_id user)
                           && Bool.eqb (p_isArchived p) false
                           && ProductStatus_eqb (p_status p) out_of_stock)
                 (products db)).

Definition productCount (user : User) (db : Db) : nat :=
  List.length (filter (fun p => Nat.eqb (p_user p) (u_id user)
                           && Bool.eqb (p_isArchived p) false)
                 (products db)).

Definition pendingSalesCount (user : User) (db : Db) : nat :=
  List.length (filter (fun s => Nat.eqb (s_user s) (u_id user)
                           && Bool.eqb (s_isArchived s) false
                           && (SaleStatus_eqb (s_status s) pending
                               || SaleStatus_eqb (s_status s) paid))
                 (sales db)).

Definition low_stock_alerts (user : User) (db : Db) : list Alert :=
  let found := lowStockProducts user db in
  if (0 <? List.length found)%nat then
    [mkAlert alert_low_stock warning "Low Stock Alert"
       (show_nat (List.length found)
        ++ " product(s) are running low on stock")%string
       (Some (LowStockList found)) true]
  else [].

Definition out_of_stock_alerts (user : User) (db : Db) : list Alert :=
  let n := outOfStockCount user db in
  if (0 <? n)%nat then
    [mkAlert alert_out_of_stock error "Out of Stock"
       (show_nat n ++ " product(s) are out of stock")%string None true]
  else [].

Definition subscription_alerts (user : User) (db : Db) : list Alert :=
  match u_subscription user with
  | free =>
      let n := productCount user db in
      if (80 <=? n)%nat then
        [mkAlert subscription_limit info "Approaching Product Limit"
           ("You have " ++ show_nat n
            ++ "/100 products. Upgrade to Pro for unlimited inventory.")%string
           (Some (LimitData n 100)) false]
      else []
  | pro => []
  end.

Definition pending_sales_alerts (user : User) (db : Db) : list Alert :=
  let n := pendingSalesCount user db in
  if (0 <? n)%nat then
    [mkAlert pending_sales info "Pending Sales"
       ("You have " ++ show_nat n ++ " sale(s) that need attention")%string
       None true]
  else [].

(** The [alerts] array after the four [push]es, in order. *)
Definition alerts (user : User) (db : Db) : list Alert :=
  low_stock_alerts user db ++ out_of_stock_alerts user db
  ++ subscription_alerts user db ++ pending_sales_alerts user db.

Record AlertsData : Type := mkAlertsData {
  ad_alerts : list Alert;
  ad_count  : nat
}.

Definition get_alerts (user : User) (db : Db) : Response AlertsData :=
  Json 200 (mkAlertsData (alerts user db) (List.length (alerts user db))).

(* ================================================================== *)
(** ** Auxiliary definitions for the properties                      *)
(* ================================================================== *)

Local Open Scope Z_scope.

Definition sample_product (q t : Z) : Product :=
  mkProduct 1%nat 7%nat "jacket" (25 # 1) (mkInventory q t) active
            (mkAnalytics 0) false.

(** What the store holds for one product. *)
Definition quantity_of (id : ObjectId) (db : Db) : option Z :=
  option_map (fun p => inv_quantity (p_inventory p))
             (findProductById id (products db)).

Definition status_of (id : ObjectId) (db : Db) : option ProductStatus :=
  option_map p_status (findProductById id (products db)).

(** The scenario: a product with five units and threshold two, written
    through [save]; then a completed sale of three units. *)
Definition scenario_db : Db :=
  Product_save (sample_product 5 2) (mkDb [] [] []).

Definition scenario_sale : Sale :=
  mkSale 100%nat 7%nat 1%nat 3 (45 # 1) GBP vinted
         (mkFees 0 0 0 0 0) 0 completed false false.

(** A user, an instant and a week of records used by the examples:
    noon of 2024-05-15 and the days around it. *)
Definition alice : User := mkUser 7%nat GBP free.

Definition noon_2024_05_15 : Z := JsDate.at_time 2024 5 15 12 0 0.

Definition days_before (n : Z) (t : Z) : Z := (t - n * JsDate.msPerDay)%Z.

Definition sale_on (id : ObjectId) (date : Z) (price : Q) (c : Currency)
  : Sale :=
  mkSale id 7%nat 1%nat 1 price c vinted (mkFees 0 0 0 0 0) date
         pending false false.

Definition expense_on (id : ObjectId) (date : Z) (amount : Q)
    (c : Currency) : Expense :=
  mkExpense id 7%nat amount c Packaging date false.

(** The alerts of one type, in order. *)
Definition of_type (t : AlertType) (l : list Alert) : list Alert :=
  filter (fun a => AlertType_eqb (a_type a) t) l.

(** Eighty live products and one archived product of the same user. *)
Definition eighty_products : list Product :=
  mkProduct 999%nat 7%nat "archived" 1 (mkInventory 3 1) active
            (mkAnalytics 0) true
  :: map (fun i => mkProduct i 7%nat "item" 1 (mkInventory 3 1) active
                             (mkAnalytics 0) false)
         (seq 0 80).

Local Open Scope Q_scope.

(** Sum of a list of amounts. *)
Definition Qsum (l : list Q) : Q := fold_right Qplus 0 l.




Definition gbp_only : Db :=
  mkDb []
       [sale_on 1%nat (days_before 1 noon_2024_05_15) 10 GBP]
       [expense_on 1%nat (days_before 1 noon_2024_05_15) 5 GBP].

(** The same records with one more sale and one more expense, both in
    USD. *)
Definition gbp_and_usd : Db :=
  mkDb []
       [sale_on 1%nat (days_before 1 noon_2024_05_15) 10 GBP;
        sale_on 2%nat (days_before 1 noon_2024_05_15) 20 USD]
       [expense_on 1%nat (days_before 1 noon_2024_05_15) 5 GBP;
        expense_on 2%nat (days_before 1 noon_2024_05_15) 7 USD].

Local Open Scope Z_scope.

(** [P] holds at [z], [z+1], ..., [z + fuel - 1]. *)
Fixpoint all_from (fuel : nat) (z : Z) (P : Z -> bool) : bool :=
  match fuel with
  | O => true
  | S k => P z && all_from k (z + 1) P
  end.

(** Year of era, shifted month and day of month of a day of era, as
    [civil_from_days] computes them. *)
Definition doe_parts (doe : Z) : Z * Z * Z :=
  let yoe := (doe - doe / 1460 + doe / 36524 - doe / 146096) / 365 in
  let doy := doe - (365 * yoe + yoe / 4 - yoe / 100) in
  let mp  := (5 * doy + 2) / 153 in
  (yoe, mp, doy - (153 * mp + 2) / 5 + 1).

(** Day of era of a year of era, shifted month and day of month, as
    [days_from_civil] computes it. *)
Definition doe_of (yoe mp d : Z) : Z :=
  yoe * 365 + yoe / 4 - yoe / 100 + ((153 * mp + 2) / 5 + d - 1).

(** The numerator whose quotient by 365 is the year of era. *)
Definition era_count (doe : Z) : Z :=
  doe - doe / 1460 + doe / 36524 - doe / 146096.

(** First day of era of a year of era; [year_start 400] is the length
    of the era. *)
Definition year_start (y : Z) : Z := 365 * y + y / 4 - y / 100 + y / 400.

(** The first and the last day of year [y] are both read as year [y]. *)
Definition year_ends_ok (y : Z) : bool :=
  (era_count (year_start y) / 365 =? y)
  && (era_count (year_start (y + 1) - 1) / 365 =? y).

(* ================================================================== *)
(** ** Virtuals of the models                                          *)
(* ================================================================== *)

Local Open Scope Q_scope.

(** What a getter returns, or the exception it throws. *)
Inductive Outcome (A : Type) : Type :=
  | Returns (v : A)
  | Throws (error : string).

Arguments Returns {A} v.
Arguments Throws {A} error.

(** The path [product] of a sale document as a getter finds it: the
    ObjectId, or after [populate] the product document, which is null
    when no product has the id.  A populated document carries its
    [pricing.purchasePrice], which every [populate] of the sales routes
    selects. *)
Inductive ProductPath : Type :=
  | Unpopulated
  | Populated (doc : option Product).

(** [saleSchema.virtual('totalFees')]. *)
Definition totalFees (s : Sale) : Q :=
  Double.sub
    (Double.add
       (Double.add
          (Double.add (platformFee (s_fees s)) (paymentFee (s_fees s)))
          (shippingFee (s_fees s)))
       (other (s_fees s)))
    (promotionDiscount (s_fees s)).

(** [saleSchema.virtual('netAmount')]. *)
Definition netAmount (s : Sale) : Q :=
  Double.sub (s_salePrice s) (totalFees s).

(** [saleSchema.virtual('profit')].  The condition is
    [this.populated('product') || this.product.pricing]: a populated
    path takes the branch, where reading [pricing] of null throws; an
    ObjectId has no [pricing], so a path that is not populated gives
    0. *)
Definition profit (s : Sale) (product : ProductPath) : Outcome Q :=
  match product with
  | Populated (Some p) =>
      let purchasePrice :=
        Double.mul (p_purchasePrice p) (inject_Z (s_quantity s)) in
      Returns (Double.sub (netAmount s) purchasePrice)
  | Populated None => Throws "TypeError"
  | Unpopulated => Returns 0
  end.

(** [saleSchema.virtual('profitMargin')]: a string of digits, or the
    number 0; [profit] is read only when the net amount is positive. *)
Definition sale_profitMargin (s : Sale) (product : ProductPath)
  : Outcome JsValue :=
  if Qlt_bool 0 (netAmount s)
  then
    match profit s product with
    | Returns pr =>
        Returns (JString (toFixed2 (Double.mul
                                      (Double.div pr (netAmount s)) 100)))
    | Throws e => Throws e
    end
  else Returns (JNumber 0).


(* ================================================================== *)
(** ** [routes/sales.js]                                               *)
(* ================================================================== *)

(** Outcome of a route that writes: the status and data of a success,
    or the status and message of a refusal. *)
Inductive Reply (A : Type) : Type :=
  | Done (status : nat) (data : A)
  | Refused (status : nat) (message : string).

Arguments Done {A} status data.
Arguments Refused {A} status message.

Definition show_Z (z : Z) : string :=
  NilZero.string_of_int (Z.to_int z).

Definition fees_nonneg (f : Fees) : bool :=
  Qle_bool 0 (platformFee f) && Qle_bool 0 (paymentFee f)
  && Qle_bool 0 (shippingFee f) && Qle_bool 0 (promotionDiscount f)
  && Qle_bool 0 (other f).

(** Body of [POST /api/sales].  Absent fields take the schema defaults:
    no fees, [saleDate] now, status pending, not returned, not
    archived, and the user's currency. *)
Record SaleBody : Type := mkSaleBody {
  sb_product    : ObjectId;
  sb_quantity   : Z;
  sb_salePrice  : Q;
  sb_platform   : Platform;
  sb_currency   : option Currency;
  sb_fees       : option Fees;
  sb_saleDate   : option Z;
  sb_status     : option SaleStatus;
  sb_isReturned : option bool;
  sb_isArchived : option bool
}.

Definition or_default {A : Type} (v : option A) (dflt : A) : A :=
  match v with
  | Some a => a
  | None => dflt
  end.

Definition valid_sale_body (b : SaleBody) : bool :=
  (1 <=? sb_quantity b)%Z
  && Qle_bool 0 (sb_salePrice b)
  && match sb_fees b with
     | Some f => fees_nonneg f
     | None => true
     end.

(** The document [new Sale(saleData)] builds; [new_id] is the [_id] it
    is given. *)
Definition new_sale (user : User) (b : SaleBody) (new_id : ObjectId)
    (now : Z) : Sale :=
  mkSale new_id (u_id user) (sb_product b) (sb_quantity b)
         (sb_salePrice b)
         (or_default (sb_currency b) (u_currency user))
         (sb_platform b)
         (or_default (sb_fees b) (mkFees 0 0 0 0 0))
         (or_default (sb_saleDate b) now)
         (or_default (sb_status b) pending)
         (or_default (sb_isReturned b) false)
         (or_default (sb_isArchived b) false).

(** [router.post('/', ...)] of the sales routes.  The insert of a new
    document throws when its [_id] is taken, which the [catch] turns
    into status 500. *)
Definition post_sale (user : User) (b : SaleBody) (new_id : ObjectId)
    (now : Z) (db : Db) : Reply Sale * Db :=
  if negb (valid_sale_body b) then (Refused 400 "Validation failed", db)
  else
    match find (fun p => Nat.eqb (p_id p) (sb_product b)
                         && Nat.eqb (p_user p) (u_id user))
               (products db) with
    | None => (Refused 404 "Product not found", db)
    | Some product =>
        if (inv_quantity (p_inventory product) <? sb_quantity b)%Z then
          (Refused 400
             ("Insufficient inventory. Available: "
              ++ show_Z (inv_quantity (p_inventory product))
              ++ ", Requested: " ++ show_Z (sb_quantity b))%string,
           db)
        else
          let sale := new_sale user b new_id now in
          if existsb (fun s => Nat.eqb (s_id s) new_id) (sales db) then
            (Refused 500 "Server error while recording sale", db)
          else (Done 201 sale, Sale_save sale db)
    end.

(** Body of [PUT /api/sales/:id]: the fields to overwrite. *)
Record SaleUpdate : Type := mkSaleUpdate {
  su_user       : option ObjectId;
  su_product    : option ObjectId;
  su_quantity   : option Z;
  su_salePrice  : option Q;
  su_currency   : option Currency;
  su_platform   : option Platform;
  su_fees       : option Fees;
  su_saleDate   : option Z;
  su_status     : option SaleStatus;
  su_isReturned : option bool;
  su_isArchived : option bool
}.

Definition valid_sale_update (u : SaleUpdate) : bool :=
  match su_quantity u with
  | Some q => (1 <=? q)%Z
  | None => true
  end
  && match su_salePrice u with
     | Some p => Qle_bool 0 p
     | None => true
     end
  && match su_fees u with
     | Some f => fees_nonneg f
     | None => true
     end.

Definition apply_sale_update (u : SaleUpdate) (s : Sale) : Sale :=
  mkSale (s_id s)
         (or_default (su_user u) (s_user s))
         (or_default (su_product u) (s_product s))
         (or_default (su_quantity u) (s_quantity s))
         (or_default (su_salePrice u) (s_salePrice_literal s))
         (or_default (su_currency u) (s_currency s))
         (or_default (su_platform u) (s_platform s))
         (or_default (su_fees u) (s_fees s))
         (or_default (su_saleDate u) (s_saleDate s))
         (or_default (su_status u) (s_status s))
         (or_default (su_isReturned u) (s_isReturned s))
         (or_default (su_isArchived u) (s_isArchived s)).

(** The query part of [Sale.findOneAndUpdate({ _id, user }, update,
    { new: true })]: the first matching document is overwritten and
    returned as updated. *)
Fixpoint Sale_update_first (id user : ObjectId) (u : SaleUpdate)
    (ss : list Sale) : option Sale * list Sale :=
  match ss with
  | [] => (None, [])
  | s :: ss' =>
      if Nat.eqb (s_id s) id && Nat.eqb (s_user s) user then
        (Some (apply_sale_update u s), apply_sale_update u s :: ss')
      else
        let '(doc, rest) := Sale_update_first id user u ss' in
        (doc, s :: rest)
  end.

(** [Sale.findOneAndUpdate] with its post hook. *)
Definition Sale_findOneAndUpdate (id user : ObjectId) (u : SaleUpdate)
    (db : Db) : option Sale * Db :=
  let '(doc, ss) := Sale_update_first id user u (sales db) in
  (doc, Sale_post_findOneAndUpdate doc
          (mkDb (products db) ss (expenses db))).

(** [router.put('/:id', ...)] of the sales routes. *)
Definition put_sale (user : User) (id : ObjectId) (u : SaleUpdate)
    (db : Db) : Reply Sale * Db :=
  if negb (valid_sale_update u) then (Refused 400 "Validation failed", db)
  else
    match Sale_findOneAndUpdate id (u_id user) u db with
    | (None, db') => (Refused 404 "Sale not found", db')
    | (Some sale, db') => (Done 200 sale, db')
    end.

Definition no_update : SaleUpdate :=
  mkSaleUpdate None None None None None None None None None None None.

Definition archive_update : SaleUpdate :=
  mkSaleUpdate None None None None None None None None None None
               (Some true).

(** [router.delete('/:id', ...)] of the sales routes: a soft delete. *)
Definition delete_sale (user : User) (id : ObjectId) (db : Db)
  : Reply unit * Db :=
  match Sale_findOneAndUpdate id (u_id user) archive_update db with
  | (None, db') => (Refused 404 "Sale not found", db')
  | (Some _, db') => (Done 200 tt, db')
  end.

(** One row of [salesWithProfit] in [router.get('/', ...)]. *)
Record SaleWithProfit : Type := mkSaleWithProfit {
  wp_sale         : Sale;
  wp_product      : option Product;
  wp_netAmount    : Q;
  wp_profit       : Q;
  wp_profitMargin : JsValue
}.

Definition with_profit (row : Sale * option Product) : SaleWithProfit :=
  let '(sale, product) := row in
  let purchasePrice := match product with
                       | Some p => p_purchasePrice p
                       | None => 0
                       end in
  let netAmount :=
    Double.sub
      (s_salePrice sale)
      (Double.sub
         (Double.add
            (Double.add
               (Double.add (platformFee (s_fees sale))
                           (paymentFee (s_fees sale)))
               (shippingFee (s_fees sale)))
            (other (s_fees sale)))
         (promotionDiscount (s_fees sale))) in
  let profit :=
    Double.sub netAmount
               (Double.mul purchasePrice (inject_Z (s_quantity sale))) in
  mkSaleWithProfit sale product netAmount profit
    (if Qlt_bool 0 netAmount
     then JString (toFixed2 (Double.mul (Double.div profit netAmount) 100))
     else JNumber 0).

(** Query of [GET /api/sales]. *)
Record SalesQuery : Type := mkSalesQuery {
  sq_page      : option Z;
  sq_limit     : option Z;
  sq_platform  : option Platform;
  sq_status    : option SaleStatus;
  sq_product   : option ObjectId;
  sq_startDate : option Z;
  sq_endDate   : option Z
}.

Definition valid_sales_query (q : SalesQuery) : bool :=
  match sq_page q with
  | Some p => (1 <=? p)%Z
  | None => true
  end
  && match sq_limit q with
     | Some l => (1 <=? l)%Z && (l <=? 100)%Z
     | None => true
     end.

(** The [filter] object built from the query. *)
Definition sales_filter (user : User) (q : SalesQuery) (s : Sale) : bool :=
  Nat.eqb (s_user s) (u_id user)
  && Bool.eqb (s_isArchived s) false
  && match sq_platform q with
     | Some p => Platform_eqb (s_platform s) p
     | None => true
     end
  && match sq_status q with
     | Some st => SaleStatus_eqb (s_status s) st
     | None => true
     end
  && match sq_product q with
     | Some p => Nat.eqb (s_product s) p
     | None => true
     end
  && match sq_startDate q with
     | Some d => (d <=? s_saleDate s)%Z
     | None => true
     end
  && match sq_endDate q with
     | Some d => (s_saleDate s <=? d)%Z
     | None => true
     end.

Record Pagination : Type := mkPagination {
  pg_currentPage  : Z;
  pg_totalPages   : Z;
  pg_totalItems   : Z;
  pg_itemsPerPage : Z
}.

Record SalesPage : Type := mkSalesPage {
  sp_sales      : list SaleWithProfit;
  sp_pagination : Pagination
}.

(** The matching sales in the order of the query: newest first. *)
Definition sales_sorted (user : User) (q : SalesQuery) (db : Db)
  : list Sale :=
  sort_by (fun a b => (s_saleDate b <=? s_saleDate a)%Z)
          (filter (sales_filter user q) (sales db)).

(** [router.get('/', ...)] of the sales routes. *)
Definition get_sales (user : User) (q : SalesQuery) (db : Db)
  : Response SalesPage :=
  if valid_sales_query q then
    let page := or_default (sq_page q) 1%Z in
    let limit := or_default (sq_limit q) 20%Z in
    let skip := ((page - 1) * limit)%Z in
    let total :=
      Z.of_nat (List.length (filter (sales_filter user q) (sales db))) in
    let found :=
      map (fun s => (s, findProductById (s_product s) (products db)))
          (firstn (Z.to_nat limit)
                  (skipn (Z.to_nat skip) (sales_sorted user q db))) in
    Json 200
      (mkSalesPage
         (map with_profit found)
         (mkPagination page
            (Qceiling (inject_Z total / inject_Z limit))
            total limit))
  else ValidationFailed.

(* ================================================================== *)
(** ** [middleware/auth.js] and [routes/inventory.js]                  *)
(* ================================================================== *)

(** The refusal sent by [inventoryLimitMiddleware]. *)
Record LimitRefusal : Type := mkLimitRefusal {
  lr_status          : nat;
  lr_message         : string;
  lr_upgradeRequired : bool;
  lr_currentCount    : nat;
  lr_limit           : nat
}.

(** [inventoryLimitMiddleware]: [None] stands for the call of
    [next()]. *)
Definition inventoryLimitMiddleware (user : User) (db : Db)
  : option LimitRefusal :=
  match u_subscription user with
  | free =>
      let productCount :=
        List.length (filter (fun p => Nat.eqb (p_user p) (u_id user)
                                      && Bool.eqb (p_isArchived p) false)
                            (products db)) in
      if (100 <=? productCount)%nat then
        Some (mkLimitRefusal 403
                "Free tier limited to 100 products. Upgrade to Pro for unlimited inventory."
                true productCount 100)
      else None
  | pro => None
  end.

(** [subscriptionMiddleware(requiredTier)]: [true] stands for the call
    of [next()]. *)
Definition subscriptionMiddleware (requiredTier : string) (user : User)
  : bool :=
  negb (String.eqb requiredTier "pro"
        && match u_subscription user with
           | pro => false
           | free => true
           end).

Definition archive_product (p : Product) : Product :=
  mkProduct (p_id p) (p_user p) (p_name p) (p_purchasePrice_literal p)
            (p_inventory p) (p_status p) (p_analytics p) true.

(** [Product.findOneAndUpdate({ _id, user }, { isArchived: true },
    { new: true })]. *)
Fixpoint Product_archive_first (id user : ObjectId) (ps : list Product)
  : option Product * list Product :=
  match ps with
  | [] => (None, [])
  | p :: ps' =>
      if Nat.eqb (p_id p) id && Nat.eqb (p_user p) user then
        (Some (archive_product p), archive_product p :: ps')
      else
        let '(doc, rest) := Product_archive_first id user ps' in
        (doc, p :: rest)
  end.

(** [router.delete('/:id', ...)] of the inventory routes. *)
Definition delete_product (user : User) (id : ObjectId) (db : Db)
  : Reply unit * Db :=
  match Product_archive_first id (u_id user) (products db) with
  | (None, _) => (Refused 404 "Product not found", db)
  | (Some _, ps) =>
      (Done 200 tt, mkDb ps (sales db) (expenses db))
  end.





Local Open Scope Z_scope.

(** Units of a product on hand and sold, together. *)
Definition units_of (id : ObjectId) (db : Db) : option Z :=
  option_map (fun p => inv_quantity (p_inventory p)
                       + an_totalSales (p_analytics p))
             (findProductById id (products db)).

(** The condition [{ _id, user }] of the sales queries. *)
Definition sale_key (id user : ObjectId) (s : Sale) : bool :=
  Nat.eqb (s_id s) id && Nat.eqb (s_user s) user.

(** The condition [{ _id, user }] of the product queries. *)
Definition product_key (id user : ObjectId) (p : Product) : bool :=
  Nat.eqb (p_id p) id && Nat.eqb (p_user p) user.

(** Whether the restore hook acts on a document. *)
Definition is_reversal (s : Sale) : bool :=
  SaleStatus_eqb (s_status s) cancelled
  || SaleStatus_eqb (s_status s) refunded.

(** An update that only sets the status. *)
Definition set_status_update (st : SaleStatus) : SaleUpdate :=
  mkSaleUpdate None None None None None None None None (Some st) None None.

(** A completed sale of three units of product 1. *)
Definition post_sale_example_body : SaleBody :=
  mkSaleBody 1%nat 3 45 vinted None None None (Some completed) None None.

(** The condition [{ user, isArchived: false }] of the product counts. *)
Definition live (user : ObjectId) (p : Product) : bool :=
  Nat.eqb (p_user p) user && Bool.eqb (p_isArchived p) false.




(** Position of an alert type in the order in which the alerts are
    pushed. *)
Definition alert_rank (t : AlertType) : Z :=
  match t with
  | alert_low_stock => 0
  | alert_out_of_stock => 1
  | subscription_limit => 2
  | pending_sales => 3
  end.

(** The same query for another page. *)
Definition with_page (q : SalesQuery) (p : Z) : SalesQuery :=
  mkSalesQuery (Some p) (sq_limit q) (sq_platform q) (sq_status q)
               (sq_product q) (sq_startDate q) (sq_endDate q).

(** The sales listed on page [p]. *)
Definition page_sales (user : User) (q : SalesQuery) (db : Db) (p : Z)
  : list Sale :=
  match get_sales user (with_page q p) db with
  | Json _ body => map wp_sale (sp_sales body)
  | ValidationFailed => []
  end.

(** Order of the statuses from worst to best stocked. *)
Definition stock_rank (st : ProductStatus) : Z :=
  match st with
  | out_of_stock => 0
  | low_stock => 1
  | active => 2
  | archived => 3
  end.

(** The condition [{ user, isArchived: false }] of the sales queries. *)
Definition live_sale (user : ObjectId) (s : Sale) : bool :=
  Nat.eqb (s_user s) user && Bool.eqb (s_isArchived s) false.

(** A hundred live products of one user. *)
Definition hundred_products : list Product :=
  map (fun i => mkProduct i 7%nat "item" 1 (mkInventory 3 1) active
                          (mkAnalytics 0) false)
      (seq 0 100).

(* ================================================================== *)
(** * Properties                                                       *)
(* ================================================================== *)

Local Open Scope Z_scope.

(** ** Inventory status *)

Lemma deriveStatus_cases (q t : Z) :
  (q = 0 /\ deriveStatus q t = out_of_stock)
  \/ (q <> 0 /\ q <= t /\ deriveStatus q t = low_stock)
  \/ (q <> 0 /\ t < q /\ deriveStatus q t = active).
Proof.
  unfold deriveStatus.
  destruct (Z.eqb_spec q 0) as [E | E]; [now left | right].
  destruct (Z.leb_spec q t); [left | right]; auto.
Qed.

Lemma find_after_upsert (p : Product) (ps : list Product) :
  findProductById (p_id p) (upsert p_id p ps) = Some p.
Proof.
  unfold findProductById.
  induction ps as [| x ps IH]; simpl.
  - now rewrite Nat.eqb_refl.
  - destruct (Nat.eqb (p_id x) (p_id p)) eqn:E; simpl.
    + now rewrite Nat.eqb_refl.
    + rewrite E. exact IH.
Qed.

Lemma Product_validate_iff (p : Product) :
  Product_validate p = true
  <-> 0 <= inv_quantity (p_inventory p)
      /\ 0 <= inv_restockThreshold (p_inventory p).
Proof.
  unfold Product_validate. rewrite andb_true_iff, !Z.leb_le. reflexivity.
Qed.

Lemma status_after_Product_save (p : Product) (db : Db) :
  Product_validate p = true ->
  status_of (p_id p) (Product_save p db)
  = Some (p_status (Product_pre_save p)).
Proof.
  intro V. unfold status_of, Product_save. rewrite V. cbn [products].
  change (p_id p) with (p_id (Product_pre_save p)) at 1.
  now rewrite find_after_upsert.
Qed.

Lemma Product_pre_save_status (p : Product) :
  p_status (Product_pre_save p)
  = deriveStatus (inv_quantity (p_inventory p))
                 (inv_restockThreshold (p_inventory p)).
Proof. reflexivity. Qed.

(** C1: for a product with quantity >= 0 and restockThreshold >= 0, the
    status hook run before a save always produces a status, which is
    the one the save stores, and which is out_of_stock when
    quantity = 0, low_stock when 0 < quantity <= restockThreshold, and
    active when quantity > restockThreshold. *)
Theorem C1_status_hook_total_and_exact (p : Product) (db : Db) :
  let q := inv_quantity (p_inventory p) in
  let t := inv_restockThreshold (p_inventory p) in
  0 <= q -> 0 <= t ->
  (exists s, status_of (p_id p) (Product_save p db) = Some s
             /\ p_status (Product_pre_save p) = s
             /\ (s = out_of_stock \/ s = low_stock \/ s = active))
  /\ (q = 0 -> p_status (Product_pre_save p) = out_of_stock)
  /\ (0 < q <= t -> p_status (Product_pre_save p) = low_stock)
  /\ (q > t -> p_status (Product_pre_save p) = active).
Proof.
  cbv zeta. intros Hq Ht.
  rewrite status_after_Product_save
    by (apply Product_validate_iff; split; assumption).
  rewrite Product_pre_save_status.
  revert Hq Ht.
  generalize (inv_quantity (p_inventory p))
             (inv_restockThreshold (p_inventory p)).
  intros q t Hq Ht.
  destruct (deriveStatus_cases q t) as [[E S] | [[N [L S]] | [N [L S]]]];
    rewrite S;
    (split; [eexists; split; [reflexivity | split; [reflexivity | auto]] |]);
    repeat split; intros; try reflexivity; exfalso; lia.
Qed.

Lemma C1_status_hook_witness :
  p_status (Product_pre_save (sample_product 0 2)) = out_of_stock
  /\ p_status (Product_pre_save (sample_product 2 2)) = low_stock
  /\ p_status (Product_pre_save (sample_product 5 2)) = active.
Proof.
  split; [| split].
  - apply (C1_status_hook_total_and_exact (sample_product 0 2) (mkDb [] [] []));
      simpl; lia.
  - apply (C1_status_hook_total_and_exact (sample_product 2 2) (mkDb [] [] []));
      simpl; lia.
  - apply (C1_status_hook_total_and_exact (sample_product 5 2) (mkDb [] [] []));
      simpl; lia.
Defined.

(** ** Sale hooks and the product they update *)

Lemma find_after_inc (id : ObjectId) (dq ds : Z) (ps : list Product) :
  findProductById id (Product_findByIdAndUpdate_inc id dq ds ps)
  = option_map (inc_product dq ds) (findProductById id ps).
Proof.
  unfold findProductById.
  induction ps as [| p ps IH]; simpl; [reflexivity |].
  destruct (Nat.eqb (p_id p) id) eqn:E; simpl; rewrite E; auto.
Qed.

Lemma Sale_save_products (s : Sale) (db : Db) :
  s_status s = completed -> s_isReturned s = false ->
  products (Sale_save s db)
  = Product_findByIdAndUpdate_inc (s_product s) (- s_quantity s)
      (s_quantity s) (products db).
Proof.
  intros Hs Hr. unfold Sale_save, Sale_post_save.
  rewrite Hs, Hr. reflexivity.
Qed.

Lemma quantity_after_save (s : Sale) (db : Db) :
  s_status s = completed -> s_isReturned s = false ->
  quantity_of (s_product s) (Sale_save s db)
  = option_map (fun q => q - s_quantity s) (quantity_of (s_product s) db).
Proof.
  intros Hs Hr. unfold quantity_of.
  rewrite Sale_save_products, find_after_inc by assumption.
  destruct (findProductById (s_product s) (products db)); simpl;
    [f_equal; lia | reflexivity].
Qed.

Lemma status_after_save (s : Sale) (db : Db) :
  status_of (s_product s) (Sale_save s db) = status_of (s_product s) db.
Proof.
  unfold status_of, Sale_save, Sale_post_save.
  destruct (SaleStatus_eqb (s_status s) completed && negb (s_isReturned s));
    simpl; [| reflexivity].
  rewrite find_after_inc.
  now destruct (findProductById (s_product s) (products db)).
Qed.

(** C2: after the completed sale of 3 units is saved, the product that
    had quantity 5 and threshold 2 holds quantity 2, yet its stored
    status is still active, while the status hook maps (2, 2) to
    low_stock: the sale hook's update does not pass through the hook,
    and no save of a sale ever changes a stored status. *)
Theorem C2_sale_completion_leaves_stale_status :
  status_of 1%nat scenario_db = Some active
  /\ quantity_of 1%nat (Sale_save scenario_sale scenario_db) = Some 2
  /\ status_of 1%nat (Sale_save scenario_sale scenario_db) = Some active
  /\ deriveStatus 2 2 = low_stock
  /\ (forall s db,
        status_of (s_product s) (Sale_save s db)
        = status_of (s_product s) db).
Proof.
  split; [reflexivity |]. split; [reflexivity |].
  split; [reflexivity |]. split; [reflexivity |].
  exact status_after_save.
Qed.

(** C3, as stated, fails: saving the same completed sale a second time
    takes the product from 7 units to 4. *)
Lemma C3_second_save_decrements_again :
  let db0 := Product_save (sample_product 10 2) (mkDb [] [] []) in
  let db1 := Sale_save scenario_sale db0 in
  let db2 := Sale_save scenario_sale db1 in
  quantity_of 1%nat db1 = Some 7
  /\ quantity_of 1%nat db2 = Some 4
  /\ quantity_of 1%nat db2 <> quantity_of 1%nat db1.
Proof. repeat split. discriminate. Qed.

(** C3 (amended): every save of a completed, non-returned sale whose
    product exists lowers that product's quantity by the sale's
    quantity; two saves of the same sale lower it by twice that. *)
Theorem C3_each_save_decrements (s : Sale) (db : Db) (q0 : Z) :
  s_status s = completed -> s_isReturned s = false ->
  quantity_of (s_product s) db = Some q0 ->
  quantity_of (s_product s) (Sale_save s db) = Some (q0 - s_quantity s)
  /\ quantity_of (s_product s) (Sale_save s (Sale_save s db))
     = Some (q0 - 2 * s_quantity s).
Proof.
  intros Hs Hr Hq.
  rewrite !quantity_after_save, Hq by assumption. cbn [option_map].
  split; [reflexivity | f_equal; lia].
Qed.

Lemma C3_each_save_witness :
  quantity_of 1%nat (Sale_save scenario_sale scenario_db) = Some (5 - 3)
  /\ quantity_of 1%nat
       (Sale_save scenario_sale (Sale_save scenario_sale scenario_db))
     = Some (5 - 2 * 3).
Proof.
  apply (C3_each_save_decrements scenario_sale scenario_db 5);
    reflexivity.
Defined.

(** ** Rounding to the nearest double *)

Local Open Scope Q_scope.

Lemma pow2_pos (k : Z) : 0 < Double.pow2 k.
Proof. apply Qpower_0_lt. reflexivity. Qed.

Lemma pow2_plus (a b : Z) :
  Double.pow2 (a + b) == Double.pow2 a * Double.pow2 b.
Proof. apply Qpower_plus. discriminate. Qed.

Lemma pow2_le (a b : Z) : (a <= b)%Z -> Double.pow2 a <= Double.pow2 b.
Proof. intro H. apply Qpower_le_compat_l; [exact H | discriminate]. Qed.

Lemma pow2_lt (a b : Z) : (a < b)%Z -> Double.pow2 a < Double.pow2 b.
Proof. intro H. apply Qpower_lt_compat_l; [exact H | reflexivity]. Qed.

Lemma pow2_lt_inv (a b : Z) : Double.pow2 a < Double.pow2 b -> (a < b)%Z.
Proof.
  intro H. destruct (Z.lt_ge_cases a b) as [L | L]; [exact L |].
  apply pow2_le in L. lra.
Qed.

Lemma pow2_Z (n : Z) : (0 <= n)%Z -> Double.pow2 n == inject_Z (2 ^ n).
Proof. intro H. unfold Double.pow2. rewrite Zpower_Qpower by exact H. reflexivity. Qed.

Lemma pow2_succ (a : Z) : Double.pow2 (a + 1) == 2 * Double.pow2 a.
Proof. rewrite pow2_plus. change (Double.pow2 1) with 2. ring. Qed.

Lemma Qmake_times_den (n : Z) (d : positive) :
  (n # d) * inject_Z (Zpos d) == inject_Z n.
Proof. unfold Qeq. simpl. lia. Qed.

Lemma ilog2_spec (x : Q) :
  0 < x ->
  Double.pow2 (Double.ilog2 x) <= x < Double.pow2 (Double.ilog2 x + 1).
Proof.
  intro H. destruct x as [n d].
  assert (Hn : (0 < n)%Z) by (unfold Qlt in H; simpl in H; lia).
  unfold Double.ilog2. cbn [Qnum Qden].
  set (a := Z.log2 n). set (b := Z.log2 (Zpos d)).
  destruct (Z.log2_spec n Hn) as [A1 A2]. fold a in A1, A2.
  destruct (Z.log2_spec (Zpos d) eq_refl) as [B1 B2]. fold b in B1, B2.
  pose proof (Z.log2_nonneg n) as Na. fold a in Na.
  pose proof (Z.log2_nonneg (Zpos d)) as Nb. fold b in Nb.
  rewrite Zle_Qle, <- pow2_Z in A1 by exact Na.
  rewrite Zle_Qle, <- pow2_Z in B1 by exact Nb.
  change (Z.succ a) with (a + 1)%Z in A2.
  change (Z.succ b) with (b + 1)%Z in B2.
  rewrite Zlt_Qlt, <- pow2_Z in A2 by lia.
  rewrite Zlt_Qlt, <- pow2_Z in B2 by lia.
  pose proof (Qmake_times_den n d) as X.
  set (x := n # d) in *. set (D := inject_Z (Zpos d)) in *.
  set (N := inject_Z n) in *.
  assert (HD : 0 < D) by reflexivity.
  assert (U : x < Double.pow2 (a - b + 1)).
  { pose proof (pow2_plus (a - b + 1) b) as E.
    replace (a - b + 1 + b)%Z with (a + 1)%Z in E by lia.
    pose proof (pow2_pos (a - b + 1)) as Pp.
    set (p := Double.pow2 (a - b + 1)) in *.
    set (pb := Double.pow2 b) in *.
    rewrite E in A2. apply Qnot_le_lt. intro C. nra. }
  assert (L : Double.pow2 (a - b - 1) < x).
  { pose proof (pow2_plus (a - b - 1) (b + 1)) as E.
    replace (a - b - 1 + (b + 1))%Z with a in E by lia.
    pose proof (pow2_pos (a - b - 1)) as Pp.
    set (p := Double.pow2 (a - b - 1)) in *.
    set (pb := Double.pow2 (b + 1)) in *.
    rewrite E in A1. apply Qnot_le_lt. intro C. nra. }
  destruct (Qle_bool (Double.pow2 (a - b)) x) eqn:T.
  - apply Qle_bool_iff in T. split; assumption.
  - replace (a - b - 1 + 1)%Z with (a - b)%Z by lia.
    split; [apply Qlt_le_weak; exact L |].
    apply Qnot_le_lt. intro C. apply Qle_bool_iff in C. congruence.
Qed.

Lemma ilog2_unique (x : Q) (e : Z) :
  Double.pow2 e <= x < Double.pow2 (e + 1) -> Double.ilog2 x = e.
Proof.
  intros [L U].
  assert (P : 0 < x) by (pose proof (pow2_pos e); lra).
  destruct (ilog2_spec x P) as [L' U'].
  assert (A : (Double.ilog2 x < e + 1)%Z) by (apply pow2_lt_inv; lra).
  assert (B : (e < Double.ilog2 x + 1)%Z) by (apply pow2_lt_inv; lra).
  lia.
Qed.

Lemma ilog2_comp (x y : Q) : 0 < x -> x == y -> Double.ilog2 x = Double.ilog2 y.
Proof.
  intros P E. symmetry. apply ilog2_unique. rewrite <- E. now apply ilog2_spec.
Qed.

Lemma nearest_even_comp (x y : Q) :
  x == y -> Double.nearest_even x = Double.nearest_even y.
Proof.
  intro E. unfold Double.nearest_even.
  rewrite (Qfloor_comp x y E).
  assert (C : (x - inject_Z (Qfloor y) ?= 1 # 2)
              = (y - inject_Z (Qfloor y) ?= 1 # 2))
    by (apply Qcompare_comp; [rewrite E |]; reflexivity).
  rewrite C. reflexivity.
Qed.

Lemma nearest_even_Z (n : Z) : Double.nearest_even (inject_Z n) = n.
Proof.
  unfold Double.nearest_even. rewrite Qfloor_Z.
  assert (C : (inject_Z n - inject_Z n ?= 1 # 2) = Lt).
  { apply Qlt_alt. setoid_replace (inject_Z n - inject_Z n) with 0 by ring.
    reflexivity. }
  rewrite C. reflexivity.
Qed.


Lemma nearest_even_mono (x y : Q) :
  x <= y -> (Double.nearest_even x <= Double.nearest_even y)%Z.
Proof.
  intro H. unfold Double.nearest_even.
  pose proof (Qfloor_resp_le x y H) as F.
  pose proof (Qfloor_le x) as Lx. pose proof (Qlt_floor x) as Hx.
  pose proof (Qfloor_le y) as Ly. pose proof (Qlt_floor y) as Hy.
  rewrite inject_Z_plus in Hx, Hy. change (inject_Z 1) with 1 in Hx, Hy.
  set (f := Qfloor x) in *. set (g := Qfloor y) in *.
  destruct (Z.eq_dec f g) as [E | N].
  - rewrite <- E in *.
    destruct (Qcompare_spec (x - inject_Z f) (1 # 2)) as [Ex | Lx' | Gx];
      destruct (Qcompare_spec (y - inject_Z f) (1 # 2)) as [Ey | Ly' | Gy];
      try (exfalso; lra); try destruct (Z.even f); lia.
  - assert (S : (f + 1 <= g)%Z) by lia.
    destruct (Qcompare_spec (x - inject_Z f) (1 # 2));
      destruct (Qcompare_spec (y - inject_Z g) (1 # 2));
      try destruct (Z.even f); try destruct (Z.even g); lia.
Qed.

Lemma Qeq_bool_false (x y : Q) : ~ x == y -> Qeq_bool x y = false.
Proof.
  intro N. destruct (Qeq_bool x y) eqn:E; [| reflexivity].
  apply Qeq_bool_iff in E. contradiction.
Qed.

Lemma round_zero (x : Q) : x == 0 -> Double.round x = 0.
Proof.
  intro E. unfold Double.round. apply Qeq_bool_iff in E. now rewrite E.
Qed.

Lemma round_value (x : Q) :
  ~ x == 0 ->
  Double.round x
  == inject_Z (Double.mantissa x) * Double.pow2 (Double.exponent x).
Proof.
  intro N. unfold Double.round. rewrite (Qeq_bool_false _ _ N).
  apply Qred_correct.
Qed.

Lemma Qabs_pos_nonzero (x : Q) : ~ x == 0 -> 0 < Qabs x.
Proof.
  intro N. apply Qabs_case; intro H.
  - apply Qle_lteq in H. destruct H as [H | H]; [exact H |].
    exfalso. apply N. now symmetry.
  - apply Qle_lteq in H. destruct H as [H | H]; [lra | contradiction].
Qed.

Lemma exponent_comp (x y : Q) :
  ~ x == 0 -> x == y -> Double.exponent x = Double.exponent y.
Proof.
  intros N E. unfold Double.exponent. f_equal.
  apply ilog2_comp; [now apply Qabs_pos_nonzero | now rewrite E].
Qed.

Lemma round_comp (x y : Q) : x == y -> Double.round x = Double.round y.
Proof.
  intro E. unfold Double.round.
  destruct (Qeq_bool x 0) eqn:Z.
  - apply Qeq_bool_iff in Z. rewrite E in Z. apply Qeq_bool_iff in Z.
    now rewrite Z.
  - assert (N : ~ x == 0) by (intro C; apply Qeq_bool_iff in C; congruence).
    assert (N' : ~ y == 0) by (now rewrite <- E).
    rewrite (Qeq_bool_false _ _ N').
    apply Qred_complete.
    assert (M : Double.mantissa x = Double.mantissa y).
    { unfold Double.mantissa.
      rewrite <- (exponent_comp x y N E).
      apply nearest_even_comp. unfold Qdiv.
      apply Qmult_comp; [exact E | reflexivity]. }
    rewrite M, (exponent_comp x y N E). reflexivity.
Qed.

(** The scaled magnitude lies in [2^52, 2^53). *)
Lemma scaled_range (x : Q) :
  ~ x == 0 ->
  Double.pow2 52 * Double.pow2 (Double.exponent x) <= Qabs x
  /\ Qabs x < Double.pow2 53 * Double.pow2 (Double.exponent x).
Proof.
  intro N. destruct (ilog2_spec (Qabs x) (Qabs_pos_nonzero x N)) as [L U].
  unfold Double.exponent. rewrite <- !pow2_plus.
  replace (52 + (Double.ilog2 (Qabs x) - 52))%Z
    with (Double.ilog2 (Qabs x)) by lia.
  replace (53 + (Double.ilog2 (Qabs x) - 52))%Z
    with (Double.ilog2 (Qabs x) + 1)%Z by lia.
  split; assumption.
Qed.

Lemma div_pow2 (x : Q) (u : Z) : x / Double.pow2 u * Double.pow2 u == x.
Proof. pose proof (pow2_pos u). field. lra. Qed.

Lemma le_div_pow2 (a x : Q) (u : Z) :
  a * Double.pow2 u <= x -> a <= x / Double.pow2 u.
Proof.
  intro H. pose proof (pow2_pos u) as P.
  apply Qle_shift_div_l; assumption.
Qed.

Lemma div_pow2_le (a x : Q) (u : Z) :
  x <= a * Double.pow2 u -> x / Double.pow2 u <= a.
Proof.
  intro H. pose proof (pow2_pos u) as P.
  apply Qle_shift_div_r; assumption.
Qed.

Lemma mantissa_pos (x : Q) :
  0 < x -> (2 ^ 52 <= Double.mantissa x <= 2 ^ 53)%Z.
Proof.
  intro P. assert (N : ~ x == 0) by lra.
  destruct (scaled_range x N) as [L U].
  rewrite (Qabs_pos x) in L, U by lra.
  unfold Double.mantissa. split.
  - rewrite <- (nearest_even_Z (2 ^ 52)) at 1.
    apply nearest_even_mono. rewrite <- pow2_Z by lia.
    apply le_div_pow2. exact L.
  - rewrite <- (nearest_even_Z (2 ^ 53)).
    apply nearest_even_mono. rewrite <- pow2_Z by lia.
    apply div_pow2_le. lra.
Qed.

Lemma mantissa_neg (x : Q) :
  x < 0 -> (- 2 ^ 53 <= Double.mantissa x <= - 2 ^ 52)%Z.
Proof.
  intro P. assert (N : ~ x == 0) by lra.
  destruct (scaled_range x N) as [L U].
  rewrite (Qabs_neg x) in L, U by lra.
  unfold Double.mantissa. split.
  - rewrite <- (nearest_even_Z (- 2 ^ 53)) at 1.
    apply nearest_even_mono. rewrite inject_Z_opp, <- pow2_Z by lia.
    apply le_div_pow2. lra.
  - rewrite <- (nearest_even_Z (- 2 ^ 52)).
    apply nearest_even_mono. rewrite inject_Z_opp, <- pow2_Z by lia.
    apply div_pow2_le. lra.
Qed.

Lemma round_pos_bounds (x : Q) :
  0 < x ->
  Double.pow2 52 * Double.pow2 (Double.exponent x) <= Double.round x
  /\ Double.round x <= Double.pow2 53 * Double.pow2 (Double.exponent x).
Proof.
  intro P. rewrite round_value by lra.
  destruct (mantissa_pos x P) as [L U].
  rewrite Zle_Qle in L, U. rewrite <- !pow2_Z in L, U by lia.
  pose proof (pow2_pos (Double.exponent x)).
  split; nra.
Qed.

Lemma round_neg_bounds (x : Q) :
  x < 0 ->
  - (Double.pow2 53 * Double.pow2 (Double.exponent x)) <= Double.round x
  /\ Double.round x <= - (Double.pow2 52 * Double.pow2 (Double.exponent x)).
Proof.
  intro P. rewrite round_value by lra.
  destruct (mantissa_neg x P) as [L U].
  rewrite Zle_Qle in L, U. rewrite !inject_Z_opp in L, U.
  rewrite <- !pow2_Z in L, U by lia.
  pose proof (pow2_pos (Double.exponent x)).
  split; nra.
Qed.

Lemma round_pos (x : Q) : 0 < x -> 0 < Double.round x.
Proof.
  intro P. destruct (round_pos_bounds x P) as [L _].
  pose proof (pow2_pos 52). pose proof (pow2_pos (Double.exponent x)). nra.
Qed.

Lemma round_neg (x : Q) : x < 0 -> Double.round x < 0.
Proof.
  intro P. destruct (round_neg_bounds x P) as [_ U].
  pose proof (pow2_pos 52). pose proof (pow2_pos (Double.exponent x)). nra.
Qed.

Lemma round_nonneg (x : Q) : 0 <= x -> 0 <= Double.round x.
Proof.
  intro P. apply Qle_lteq in P. destruct P as [P | P].
  - apply Qlt_le_weak. now apply round_pos.
  - rewrite (round_zero x) by (now symmetry). apply Qle_refl.
Qed.

Lemma round_nonpos (x : Q) : x <= 0 -> Double.round x <= 0.
Proof.
  intro P. apply Qle_lteq in P. destruct P as [P | P].
  - apply Qlt_le_weak. now apply round_neg.
  - rewrite (round_zero x) by assumption. apply Qle_refl.
Qed.

Lemma exponent_le (x y : Q) :
  ~ x == 0 -> Qabs x <= Qabs y -> (Double.exponent x <= Double.exponent y)%Z.
Proof.
  intros N H.
  assert (Ny : ~ y == 0).
  { intro C. pose proof (Qabs_pos_nonzero x N) as P.
    rewrite C in H. change (Qabs 0) with 0 in H. lra. }
  destruct (scaled_range x N) as [Lx _].
  destruct (scaled_range y Ny) as [_ Uy].
  rewrite <- pow2_plus in Lx, Uy.
  assert (S : (52 + Double.exponent x < 53 + Double.exponent y)%Z)
    by (apply pow2_lt_inv; lra).
  lia.
Qed.

(** Rounding is monotone. *)
Lemma round_mono (x y : Q) : x <= y -> Double.round x <= Double.round y.
Proof.
  intro H.
  destruct (Qlt_le_dec 0 x) as [Px | Nx].
  - (* 0 < x <= y *)
    assert (Py : 0 < y) by lra.
    assert (E : (Double.exponent x <= Double.exponent y)%Z).
    { apply exponent_le; [lra |]. rewrite !Qabs_pos by lra. exact H. }
    destruct (Z.eq_dec (Double.exponent x) (Double.exponent y)) as [Eq | Ne].
    + rewrite !round_value by lra. rewrite <- Eq.
      pose proof (pow2_pos (Double.exponent x)) as Pu.
      assert (M : (Double.mantissa x <= Double.mantissa y)%Z).
      { unfold Double.mantissa. rewrite <- Eq. apply nearest_even_mono.
        apply Qmult_le_compat_r; [exact H |].
        apply Qlt_le_weak. apply Qinv_lt_0_compat. exact Pu. }
      rewrite Zle_Qle in M. nra.
    + destruct (round_pos_bounds x Px) as [_ U].
      destruct (round_pos_bounds y Py) as [L _].
      rewrite <- pow2_plus in U, L.
      assert (S : Double.pow2 (53 + Double.exponent x)
                  <= Double.pow2 (52 + Double.exponent y))
        by (apply pow2_le; lia).
      lra.
  - destruct (Qlt_le_dec y 0) as [Ny | Py].
    + (* x <= y < 0 *)
      assert (Nx' : x < 0) by lra.
      assert (E : (Double.exponent y <= Double.exponent x)%Z).
      { apply exponent_le; [lra |]. rewrite !Qabs_neg by lra. lra. }
      destruct (Z.eq_dec (Double.exponent x) (Double.exponent y)) as [Eq | Ne].
      * rewrite !round_value by lra. rewrite <- Eq.
        pose proof (pow2_pos (Double.exponent x)) as Pu.
        assert (M : (Double.mantissa x <= Double.mantissa y)%Z).
        { unfold Double.mantissa. rewrite <- Eq. apply nearest_even_mono.
          apply Qmult_le_compat_r; [exact H |].
          apply Qlt_le_weak. apply Qinv_lt_0_compat. exact Pu. }
        rewrite Zle_Qle in M. nra.
      * destruct (round_neg_bounds x Nx') as [_ U].
        destruct (round_neg_bounds y Ny) as [L _].
        rewrite <- pow2_plus in U, L.
        assert (S : Double.pow2 (53 + Double.exponent y)
                    <= Double.pow2 (52 + Double.exponent x))
          by (apply pow2_le; lia).
        lra.
    + (* x <= 0 <= y *)
      pose proof (round_nonpos x Nx). pose proof (round_nonneg y Py). lra.
Qed.

Lemma Qabs_mult_pow2 (m : Z) (w : Z) :
  Qabs (inject_Z m * Double.pow2 w) == inject_Z (Z.abs m) * Double.pow2 w.
Proof.
  rewrite Qabs_Qmult. rewrite (Qabs_pos (Double.pow2 w))
    by (apply Qlt_le_weak; apply pow2_pos).
  apply Qmult_comp; [| reflexivity].
  unfold Qabs, inject_Z. reflexivity.
Qed.

(** A double is rounded to itself. *)
Lemma round_representable (x : Q) :
  Double.representable x -> Double.round x == x.
Proof.
  intros (m & w & B & E).
  destruct (Qeq_dec x 0) as [Z | N].
  - rewrite (round_zero x Z). now symmetry.
  - destruct (scaled_range x N) as [L _].
    set (u := Double.exponent x) in *.
    assert (A : Qabs x == inject_Z (Z.abs m) * Double.pow2 w)
      by (rewrite E; apply Qabs_mult_pow2).
    rewrite A in L.
    assert (Bq : inject_Z (Z.abs m) < Double.pow2 53).
    { rewrite pow2_Z by lia. rewrite <- Zlt_Qlt. exact B. }
    pose proof (pow2_pos w) as Pw. pose proof (pow2_pos u) as Pu.
    assert (S : (52 + u < 53 + w)%Z).
    { apply pow2_lt_inv. rewrite !pow2_plus. nra. }
    assert (K : (0 <= w - u)%Z) by lia.
    assert (Y : x / Double.pow2 u == inject_Z (m * 2 ^ (w - u))).
    { rewrite E, inject_Z_mult, <- pow2_Z by exact K.
      pose proof (pow2_plus (w - u) u) as A'.
      replace (w - u + u)%Z with w in A' by lia. rewrite A'.
      field. lra. }
    rewrite round_value by exact N. fold u.
    unfold Double.mantissa. fold u.
    rewrite (nearest_even_comp _ _ Y), nearest_even_Z.
    rewrite <- Y. apply div_pow2.
Qed.

Lemma representable_zero : Double.representable 0.
Proof. exists 0%Z, 0%Z. split; [reflexivity | reflexivity]. Qed.

Lemma representable_comp (x y : Q) :
  x == y -> Double.representable x -> Double.representable y.
Proof. intros E (m & u & B & H). exists m, u. split; [exact B | now rewrite <- E]. Qed.

Lemma representable_opp (x : Q) :
  Double.representable x -> Double.representable (- x).
Proof.
  intros (m & u & B & H). exists (- m)%Z, u. split; [lia |].
  rewrite H, inject_Z_opp. ring.
Qed.

Lemma representable_Z (n : Z) :
  (Z.abs n < 2 ^ 53)%Z -> Double.representable (inject_Z n).
Proof.
  intro B. exists n, 0%Z. split; [exact B |].
  change (Double.pow2 0) with 1. ring.
Qed.

(** The result of rounding is a double. *)
Lemma round_is_representable (x : Q) : Double.representable (Double.round x).
Proof.
  destruct (Qeq_dec x 0) as [Z | N].
  - rewrite (round_zero x Z). apply representable_zero.
  - pose proof (round_value x N) as V.
    set (m := Double.mantissa x) in *. set (u := Double.exponent x) in *.
    assert (B : (- 2 ^ 53 <= m <= 2 ^ 53)%Z).
    { destruct (Qlt_le_dec 0 x) as [P | P].
      - pose proof (mantissa_pos x P). fold m in H. lia.
      - assert (P' : x < 0).
        { apply Qle_lteq in P. destruct P as [P | P]; [exact P | contradiction]. }
        pose proof (mantissa_neg x P'). fold m in H. lia. }
    destruct (Z.eq_dec (Z.abs m) (2 ^ 53)) as [T | T].
    + assert (C : m = (2 ^ 53)%Z \/ m = (- 2 ^ 53)%Z) by lia.
      destruct C as [C | C].
      * exists (2 ^ 52)%Z, (u + 1)%Z. split; [reflexivity |].
        rewrite V, pow2_succ, C.
        assert (G : inject_Z (2 ^ 53) == inject_Z (2 ^ 52) * 2) by reflexivity.
        rewrite G. ring.
      * exists (- 2 ^ 52)%Z, (u + 1)%Z. split; [reflexivity |].
        rewrite V, pow2_succ, C.
        assert (G : inject_Z (- 2 ^ 53) == inject_Z (- 2 ^ 52) * 2)
          by reflexivity.
        rewrite G. ring.
    + exists m, u. split; [lia | exact V].
Qed.

Lemma round_canonical (x : Q) : Qred (Double.round x) = Double.round x.
Proof.
  unfold Double.round. destruct (Qeq_bool x 0); [reflexivity |].
  apply Qred_complete. apply Qred_correct.
Qed.

Lemma round_idempotent (x : Q) :
  Double.round (Double.round x) = Double.round x.
Proof.
  transitivity (Qred (Double.round (Double.round x)));
    [symmetry; apply round_canonical |].
  transitivity (Qred (Double.round x)); [| apply round_canonical].
  apply Qred_complete. apply round_representable, round_is_representable.
Qed.

Lemma round_le_double (x b : Q) :
  Double.representable b -> x <= b -> Double.round x <= b.
Proof.
  intros R H. rewrite <- (round_representable b R). now apply round_mono.
Qed.

Lemma round_ge_double (x b : Q) :
  Double.representable b -> b <= x -> b <= Double.round x.
Proof.
  intros R H. rewrite <- (round_representable b R). now apply round_mono.
Qed.


(** The error of the percentage expressions. *)









(** ** Rounding to two decimals *)

Local Open Scope Q_scope.

Lemma Qlt_bool_iff (x y : Q) : Qlt_bool x y = true <-> x < y.
Proof.
  unfold Qlt_bool. rewrite negb_true_iff.
  split; intro H.
  - apply Qnot_le_lt. intro L. apply Qle_bool_iff in L. congruence.
  - destruct (Qle_bool y x) eqn:E; [| reflexivity].
    apply Qle_bool_iff in E. lra.
Qed.

Lemma Qlt_bool_false_iff (x y : Q) : Qlt_bool x y = false <-> y <= x.
Proof.
  unfold Qlt_bool. rewrite negb_false_iff. apply Qle_bool_iff.
Qed.

Lemma hundredths (n : Z) : n # 100 == inject_Z n * (1 # 100).
Proof. unfold Qeq. simpl. lia. Qed.



(** Below 10^21 the result has at most two fraction digits. *)
Lemma toFixed2_hundredths (x : Q) :
  Qabs x < inject_Z (10 ^ 21) ->
  exists n : Z, toFixed2 x = (n # 100).
Proof.
  intro H. unfold toFixed2.
  destruct (Qle_bool (inject_Z (10 ^ 21)) (Qabs x)) eqn:E.
  - apply Qle_bool_iff in E. lra.
  - destruct (Qlt_bool x 0); eexists; reflexivity.
Qed.


(** ** Net profit and profit margin *)



(** ** Growth against the previous period *)



Lemma Forall_filter {D : Type} (P : D -> Prop) (f : D -> bool)
    (l : list D) :
  Forall P l -> Forall P (filter f l).
Proof.
  induction 1 as [| x l Hx _ IH]; simpl; [constructor |].
  destruct (f x); auto.
Qed.







(** ** A period without records *)

Lemma filter_none {D : Type} (f : D -> bool) (l : list D) :
  (forall x, In x l -> f x = false) -> filter f l = [].
Proof.
  induction l as [| x l IH]; intro H; simpl; [reflexivity |].
  rewrite (H x (or_introl eq_refl)). apply IH.
  intros y Hy. apply H. now right.
Qed.

(** C10: when no sale and no expense passes the filters of the headline
    aggregations, a valid request is answered with status 200 and a
    payload whose totalSales, totalRevenue, totalFees,
    averageOrderValue, totalExpenses, expenseCount, netRevenue,
    netProfit and profitMargin are all the number 0. *)
Theorem C10_empty_period_all_zero (req : Request) (now : Z) (db : Db) :
  valid_query req = true ->
  (forall s, In s (sales db) ->
     salesMetrics_match (req_user req) (startDate (period_of req) now)
                        (currency_of req) s = false) ->
  (forall e, In e (expenses db) ->
     expenseMetrics_match (req_user req) (startDate (period_of req) now)
                          (currency_of req) e = false) ->
  exists dd,
    get_dashboard req now db = Json 200 dd
    /\ ss_totalSales (m_sales (d_metrics dd)) = 0%Z
    /\ ss_totalRevenue (m_sales (d_metrics dd)) = 0
    /\ ss_totalFees (m_sales (d_metrics dd)) = 0
    /\ ss_averageOrderValue (m_sales (d_metrics dd)) = 0
    /\ em_totalExpenses (m_expenses (d_metrics dd)) = 0
    /\ em_expenseCount (m_expenses (d_metrics dd)) = 0%Z
    /\ ss_netRevenue (m_sales (d_metrics dd)) = 0
    /\ ps_netProfit (m_profit (d_metrics dd)) = 0
    /\ ps_profitMargin (m_profit (d_metrics dd)) = 0.
Proof.
  intros V HS HE. unfold get_dashboard. rewrite V.
  eexists. split; [reflexivity |].
  unfold dashboard_data.
  cbn [d_metrics m_sales m_profit m_expenses ss_totalSales ss_totalRevenue
       ss_totalFees ss_averageOrderValue ss_netRevenue ps_netProfit
       ps_profitMargin].
  unfold salesData, salesMetrics, expenseData, expenseMetrics.
  rewrite (filter_none _ _ HS), (filter_none _ _ HE).
  repeat split.
Qed.

Lemma C10_empty_period_witness :
  exists dd,
    get_dashboard (mkRequest alice (Some "quarter"%string) None)
      noon_2024_05_15
      (mkDb [] [sale_on 1%nat (days_before 1 noon_2024_05_15) 4 USD]
               [expense_on 1%nat (days_before 400 noon_2024_05_15) 9 GBP])
    = Json 200 dd
    /\ ss_totalSales (m_sales (d_metrics dd)) = 0%Z
    /\ ss_totalRevenue (m_sales (d_metrics dd)) = 0
    /\ ss_totalFees (m_sales (d_metrics dd)) = 0
    /\ ss_averageOrderValue (m_sales (d_metrics dd)) = 0
    /\ em_totalExpenses (m_expenses (d_metrics dd)) = 0
    /\ em_expenseCount (m_expenses (d_metrics dd)) = 0%Z
    /\ ss_netRevenue (m_sales (d_metrics dd)) = 0
    /\ ps_netProfit (m_profit (d_metrics dd)) = 0
    /\ ps_profitMargin (m_profit (d_metrics dd)) = 0.
Proof.
  apply C10_empty_period_all_zero.
  - reflexivity.
  - intros s [E | []]. subst s. vm_compute. reflexivity.
  - intros e [E | []]. subst e. vm_compute. reflexivity.
Defined.

(** ** Alerts *)

Lemma of_type_app (t : AlertType) (l1 l2 : list Alert) :
  of_type t (l1 ++ l2) = of_type t l1 ++ of_type t l2.
Proof. apply filter_app. Qed.

Lemma no_limit_in_low_stock (user : User) (db : Db) :
  of_type subscription_limit (low_stock_alerts user db) = [].
Proof.
  unfold low_stock_alerts.
  now destruct (0 <? List.length (lowStockProducts user db))%nat.
Qed.

Lemma no_limit_in_out_of_stock (user : User) (db : Db) :
  of_type subscription_limit (out_of_stock_alerts user db) = [].
Proof.
  unfold out_of_stock_alerts.
  now destruct (0 <? outOfStockCount user db)%nat.
Qed.

Lemma no_limit_in_pending (user : User) (db : Db) :
  of_type subscription_limit (pending_sales_alerts user db) = [].
Proof.
  unfold pending_sales_alerts.
  now destruct (0 <? pendingSalesCount user db)%nat.
Qed.

Lemma limit_alerts_only_from_subscription (user : User) (db : Db) :
  of_type subscription_limit (alerts user db)
  = of_type subscription_limit (subscription_alerts user db).
Proof.
  unfold alerts. rewrite !of_type_app.
  rewrite no_limit_in_low_stock, no_limit_in_out_of_stock,
          no_limit_in_pending.
  simpl. apply app_nil_r.
Qed.

(** C9: for a user on the free tier with at least 80 non-archived
    products, the alert list holds exactly one subscription_limit
    alert; its severity is info, actionRequired is false and its data
    carries the number of that user's non-archived products against
    the cap 100.  For a user on the pro tier the alert list holds
    none. *)
Theorem C9_subscription_limit_alert (user : User) (db : Db) :
  let owned :=
    filter (fun p => Nat.eqb (p_user p) (u_id user)
                     && negb (p_isArchived p))
           (products db) in
  (u_subscription user = free ->
   (80 <= List.length owned)%nat ->
   exists a,
     of_type subscription_limit (alerts user db) = [a]
     /\ a_severity a = info
     /\ a_actionRequired a = false
     /\ a_data a = Some (LimitData (List.length owned) 100))
  /\ (u_subscription user = pro ->
      of_type subscription_limit (alerts user db) = []).
Proof.
  cbv zeta.
  assert (O : filter (fun p => Nat.eqb (p_user p) (u_id user)
                               && negb (p_isArchived p))
                     (products db)
              = filter (fun p => Nat.eqb (p_user p) (u_id user)
                                 && Bool.eqb (p_isArchived p) false)
                       (products db)).
  { apply filter_ext. intro p. now destruct (p_isArchived p). }
  rewrite O. fold (productCount user db).
  rewrite limit_alerts_only_from_subscription.
  unfold subscription_alerts. split; intro T; rewrite T.
  - intro H. apply Nat.leb_le in H. rewrite H.
    eexists. split; [reflexivity |]. repeat split.
  - reflexivity.
Qed.

Lemma C9_subscription_limit_witness :
  exists a,
    of_type subscription_limit (alerts alice (mkDb eighty_products [] []))
    = [a]
    /\ a_severity a = info
    /\ a_actionRequired a = false
    /\ a_data a = Some (LimitData 80 100).
Proof.
  apply (proj1 (C9_subscription_limit_alert alice
                  (mkDb eighty_products [] []))).
  - reflexivity.
  - vm_compute. repeat constructor.
Defined.

(** ** Headline sales metrics *)



Lemma fold_sales_step (docs : list Sale) (acc : SalesAcc) :
  let r := fold_left sales_step docs acc in
  sa_count r = (sa_count acc + Z.of_nat (List.length docs))%Z
  /\ sa_revenue r == sa_revenue acc + Qsum (map s_salePrice docs)
  /\ sa_fees r == sa_fees acc + Qsum (map fees_expr docs)
  /\ sa_avg_sum r == sa_avg_sum acc + Qsum (map s_salePrice docs)
  /\ sa_avg_n r = (sa_avg_n acc + Z.of_nat (List.length docs))%Z.
Proof.
  revert acc. induction docs as [| s docs IH]; intro acc.
  - simpl. repeat split; try lia; ring.
  - cbn [fold_left]. cbv zeta in IH |- *.
    destruct (IH (sales_step acc s)) as (C & R & F & A & N).
    rewrite C, R, F, A, N. cbn [sales_step sa_count sa_revenue sa_fees
      sa_avg_sum sa_avg_n map Qsum fold_right List.length].
    repeat split; try lia; fold (Qsum (map s_salePrice docs));
      fold (Qsum (map fees_expr docs)); ring.
Qed.

Lemma Currency_eqb_eq (a b : Currency) : Currency_eqb a b = true <-> a = b.
Proof. destruct a, b; simpl; split; congruence. Qed.





(** ** Currency filter of the breakdowns *)

(** C4: with the currency filter GBP, adding a USD sale of 20 and a USD
    expense of 7 leaves the headline totals at 10 and 5, but moves the
    revenue of top products, platform performance and the daily trend
    from 10 to 30 and the expense breakdown from 5 to 12: these four
    aggregations add amounts of different currencies. *)
Theorem C4_breakdowns_mix_currencies :
  let d1 := dashboard_data alice "week" GBP noon_2024_05_15 gbp_only in
  let d2 := dashboard_data alice "week" GBP noon_2024_05_15 gbp_and_usd in
  (ss_totalRevenue (m_sales (d_metrics d1)) = 10
   /\ ss_totalRevenue (m_sales (d_metrics d2)) = 10)
  /\ (em_totalExpenses (m_expenses (d_metrics d1)) = 5
      /\ em_totalExpenses (m_expenses (d_metrics d2)) = 5)
  /\ (map tp_totalRevenue (i_topProducts (d_insights d1)) = [10]
      /\ map tp_totalRevenue (i_topProducts (d_insights d2)) = [30])
  /\ (map pr_revenue (c_platformPerformance (d_charts d1)) = [10]
      /\ map pr_revenue (c_platformPerformance (d_charts d2)) = [30])
  /\ (map tr_revenue (c_salesTrend (d_charts d1)) = [10]
      /\ map tr_revenue (c_salesTrend (d_charts d2)) = [30])
  /\ (map br_amount (c_expenseBreakdown (d_charts d1)) = [5]
      /\ map br_amount (c_expenseBreakdown (d_charts d2)) = [12]).
Proof. vm_compute. repeat split. Qed.

(** ** Calendar facts *)

Local Open Scope Z_scope.

Lemma all_from_spec (fuel : nat) (z : Z) (P : Z -> bool) :
  all_from fuel z P = true ->
  forall i, z <= i < z + Z.of_nat fuel -> P i = true.
Proof.
  revert z. induction fuel as [| k IH]; intros z H i Hi.
  - simpl in Hi. lia.
  - cbn [all_from] in H. apply andb_true_iff in H as [Hz Hk].
    destruct (Z.eq_dec i z) as [-> | N]; [exact Hz |].
    apply (IH (z + 1) Hk). lia.
Qed.

Lemma every_year_ends_ok : all_from 400 0 year_ends_ok = true.
Proof. vm_compute. reflexivity. Qed.

Lemma era_count_mono (a b : Z) :
  0 <= a <= b -> b < JsDate.daysPerEra -> era_count a <= era_count b.
Proof.
  unfold era_count, JsDate.daysPerEra. intros. Z.div_mod_to_equations. lia.
Qed.

Lemma year_start_step (y : Z) :
  0 <= y < 400 -> 365 <= year_start (y + 1) - year_start y <= 366.
Proof. unfold year_start. intros. Z.div_mod_to_equations. lia. Qed.

Lemma year_start_bounds (y : Z) :
  0 <= y <= 400 -> 0 <= year_start y <= JsDate.daysPerEra.
Proof.
  unfold year_start, JsDate.daysPerEra. intros. Z.div_mod_to_equations. lia.
Qed.

(** Every day of the era falls in one of its 400 years. *)
Lemma year_of_day (doe : Z) :
  0 <= doe < JsDate.daysPerEra ->
  exists y, 0 <= y < 400 /\ year_start y <= doe < year_start (y + 1).
Proof.
  intros [Lo Hi]. revert Hi. pattern doe. apply natlike_ind; [| | exact Lo].
  - intros _. exists 0. split; [lia |]. vm_compute.
    split; [discriminate | reflexivity].
  - intros x Hx IH Hi. destruct IH as (y & Hy & Hin); [lia |].
    destruct (Z_lt_le_dec (Z.succ x) (year_start (y + 1))) as [L | L].
    + exists y. split; [exact Hy | lia].
    + assert (y <> 399).
      { intros ->. change (year_start (399 + 1)) with 146097 in L.
        unfold JsDate.daysPerEra in Hi. lia. }
      exists (y + 1). split; [lia |].
      pose proof (year_start_step (y + 1)). lia.
Qed.

Lemma doe_parts_range (doe : Z) :
  0 <= doe < JsDate.daysPerEra ->
  let '(yoe, mp, d) := doe_parts doe in
  0 <= yoe <= 399 /\ 0 <= mp <= 11 /\ 1 <= d <= 31
  /\ year_start yoe <= doe < year_start (yoe + 1).
Proof.
  intro H. destruct (year_of_day doe H) as (y & Hy & Hin).
  assert (E : era_count doe / 365 = y).
  { assert (R : year_ends_ok y = true).
    { apply (all_from_spec _ 0 _ every_year_ends_ok). simpl. lia. }
    unfold year_ends_ok in R.
    apply andb_true_iff in R as [R1 R2]. apply Z.eqb_eq in R1, R2.
    pose proof (year_start_bounds y) as B0.
    pose proof (year_start_bounds (y + 1)) as B1.
    assert (L1 : era_count (year_start y) <= era_count doe)
      by (apply era_count_mono; lia).
    assert (L2 : era_count doe <= era_count (year_start (y + 1) - 1))
      by (apply era_count_mono; lia).
    apply (Z.div_le_mono _ _ 365) in L1; [| lia].
    apply (Z.div_le_mono _ _ 365) in L2; [| lia].
    lia. }
  unfold doe_parts. fold (era_count doe). rewrite E. cbv zeta.
  pose proof (year_start_step y Hy) as S.
  assert (Y : year_start y = 365 * y + y / 4 - y / 100).
  { unfold year_start. rewrite (Z.div_small y 400) by lia. lia. }
  rewrite <- Y.
  set (doy := doe - year_start y) in *.
  assert (D : 0 <= doy <= 365) by (unfold doy; lia).
  split; [lia |]. split; [| split]; [| | lia].
  - Z.div_mod_to_equations. lia.
  - Z.div_mod_to_equations. lia.
Qed.

Lemma doe_parts_first_of_month (yoe mp : Z) :
  0 <= yoe < 400 -> 0 <= mp < 12 ->
  0 <= doe_of yoe mp 1 < JsDate.daysPerEra
  /\ doe_parts (doe_of yoe mp 1) = (yoe, mp, 1).
Proof.
  intros Hy Hm.
  pose proof (year_start_step yoe Hy) as S.
  pose proof (year_start_bounds yoe) as B0.
  pose proof (year_start_bounds (yoe + 1)) as B1.
  assert (Y : year_start yoe = 365 * yoe + yoe / 4 - yoe / 100).
  { unfold year_start. rewrite (Z.div_small yoe 400) by lia. lia. }
  assert (M : 0 <= (153 * mp + 2) / 5 <= 337)
    by (Z.div_mod_to_equations; lia).
  assert (E : doe_of yoe mp 1 = year_start yoe + (153 * mp + 2) / 5)
    by (unfold doe_of; lia).
  assert (R : 0 <= doe_of yoe mp 1 < JsDate.daysPerEra) by lia.
  split; [exact R |].
  pose proof (doe_parts_range _ R) as P.
  unfold doe_parts in *. cbv zeta in *.
  set (y' := (doe_of yoe mp 1 - doe_of yoe mp 1 / 1460
              + doe_of yoe mp 1 / 36524 - doe_of yoe mp 1 / 146096) / 365)
    in *.
  destruct P as (Py & _ & _ & Pin).
  assert (y' = yoe).
  { destruct (Z_lt_le_dec y' yoe) as [L | L].
    - assert (year_start (y' + 1) <= year_start yoe).
      { clear - L Py. unfold year_start. Z.div_mod_to_equations. lia. }
      lia.
    - destruct (Z_lt_le_dec yoe y') as [G | G]; [| lia].
      assert (year_start (yoe + 1) <= year_start y').
      { clear - G Hy Py. unfold year_start. Z.div_mod_to_equations. lia. }
      lia. }
  subst y'. rewrite H. rewrite <- Y.
  replace (doe_of yoe mp 1 - year_start yoe) with ((153 * mp + 2) / 5) by lia.
  assert (Q : (5 * ((153 * mp + 2) / 5) + 2) / 153 = mp)
    by (Z.div_mod_to_equations; lia).
  rewrite Q. f_equal. lia.
Qed.

Lemma civil_from_days_parts (z : Z) :
  JsDate.civil_from_days z
  = let z' := z + 719468 in
    let era := z' / JsDate.daysPerEra in
    let '(yoe, mp, d) := doe_parts (z' - era * JsDate.daysPerEra) in
    let m := if mp <? 10 then mp + 3 else mp - 9 in
    (if m <=? 2 then yoe + era * 400 + 1 else yoe + era * 400, m, d).
Proof. reflexivity. Qed.

Lemma days_from_civil_parts (y m d : Z) :
  JsDate.days_from_civil y m d
  = let y' := if m <=? 2 then y - 1 else y in
    let era := y' / 400 in
    era * JsDate.daysPerEra
    + doe_of (y' - era * 400) (if 2 <? m then m - 3 else m + 9) d
    - 719468.
Proof. unfold JsDate.days_from_civil, doe_of. cbv zeta. lia. Qed.

(** The first day of a month is read back as written. *)
Lemma civil_of_first_of_month (y m : Z) :
  1 <= m <= 12 ->
  JsDate.civil_from_days (JsDate.days_from_civil y m 1) = (y, m, 1).
Proof.
  intro Hm.
  rewrite days_from_civil_parts, civil_from_days_parts. cbv zeta.
  set (y' := if m <=? 2 then y - 1 else y).
  set (era := y' / 400).
  set (yoe := y' - era * 400).
  set (mp := if 2 <? m then m - 3 else m + 9).
  assert (Hyoe : 0 <= yoe < 400).
  { unfold yoe, era. pose proof (Z.mod_pos_bound y' 400 eq_refl) as B.
    rewrite Z.mod_eq in B by lia. lia. }
  assert (Hmp : 0 <= mp < 12).
  { unfold mp. destruct (Z.ltb_spec 2 m); lia. }
  destruct (doe_parts_first_of_month yoe mp Hyoe Hmp) as [Hdoe Hparts].
  set (doe := doe_of yoe mp 1) in *.
  replace (era * JsDate.daysPerEra + doe - 719468 + 719468)
    with (doe + era * JsDate.daysPerEra) by lia.
  rewrite Z.div_add by (unfold JsDate.daysPerEra; lia).
  rewrite (Z.div_small doe) by lia.
  replace (doe + era * JsDate.daysPerEra - (0 + era) * JsDate.daysPerEra)
    with doe by lia.
  rewrite Hparts.
  unfold mp, yoe, y'.
  destruct (Z.ltb_spec 2 m) as [L | L].
  - destruct (Z.ltb_spec (m - 3) 10) as [_ | C]; [| lia].
    replace (m - 3 + 3) with m by lia.
    destruct (Z.leb_spec m 2) as [C | _]; [lia |].
    f_equal. f_equal. lia.
  - destruct (Z.ltb_spec (m + 9) 10) as [C | _]; [lia |].
    replace (m + 9 - 9) with m by lia.
    destruct (Z.leb_spec m 2) as [_ | C]; [| lia].
    f_equal. f_equal. lia.
Qed.

(** Every instant has a month index in 0..11 and a day in 1..31. *)
Lemma civil_ranges (z : Z) :
  let '(y, m, d) := JsDate.civil_from_days z in
  1 <= m <= 12 /\ 1 <= d <= 31
  /\ (z + 719468) / JsDate.daysPerEra * 400 <= y.
Proof.
  rewrite civil_from_days_parts. cbv zeta.
  set (z' := z + 719468). set (era := z' / JsDate.daysPerEra).
  assert (Hdoe : 0 <= z' - era * JsDate.daysPerEra < JsDate.daysPerEra).
  { unfold era. pose proof (Z.mod_pos_bound z' JsDate.daysPerEra eq_refl) as B.
    rewrite Z.mod_eq in B by (unfold JsDate.daysPerEra; lia). lia. }
  pose proof (doe_parts_range _ Hdoe) as R.
  destruct (doe_parts (z' - era * JsDate.daysPerEra)) as [[yoe mp] d].
  destruct R as (Hy & Hm & Hd & _).
  destruct (Z.ltb_spec mp 10);
    match goal with |- context [?a <=? 2] => destruct (Z.leb_spec a 2) end;
    lia.
Qed.

Lemma getMonth_range (t : Z) : 0 <= JsDate.getMonth t <= 11.
Proof.
  unfold JsDate.getMonth.
  pose proof (civil_ranges (JsDate.Day t)) as R.
  destruct (JsDate.civil_from_days (JsDate.Day t)) as [[y m] d]. lia.
Qed.

(** An instant at or after the epoch has a four-digit year. *)
Lemma getFullYear_since_epoch (t : Z) :
  0 <= t -> 1600 <= JsDate.getFullYear t.
Proof.
  intro H. unfold JsDate.getFullYear.
  pose proof (civil_ranges (JsDate.Day t)) as R.
  destruct (JsDate.civil_from_days (JsDate.Day t)) as [[y m] d].
  destruct R as (_ & _ & Hy).
  assert (D : 0 <= JsDate.Day t)
    by (apply Z.div_pos; [exact H | reflexivity]).
  assert (E : 4 <= (JsDate.Day t + 719468) / JsDate.daysPerEra).
  { apply Z.div_le_lower_bound; unfold JsDate.daysPerEra; lia. }
  lia.
Qed.

(** Reading back [new Date(year, monthIndex, 1)]. *)
Lemma fields_of_newDate (year mi : Z) :
  100 <= year -> 0 <= mi <= 11 ->
  JsDate.getFullYear (JsDate.newDate year mi 1) = year
  /\ JsDate.getMonth (JsDate.newDate year mi 1) = mi
  /\ JsDate.getDate (JsDate.newDate year mi 1) = 1
  /\ JsDate.newDate year mi 1 mod JsDate.msPerDay = 0.
Proof.
  intros Hy Hm.
  unfold JsDate.newDate, JsDate.getFullYear, JsDate.getMonth,
         JsDate.getDate, JsDate.Day.
  replace ((0 <=? year) && (year <=? 99)) with false
    by (symmetry; apply andb_false_iff; right; apply Z.leb_gt; lia).
  rewrite (Z.div_small mi 12), (Z.mod_small mi 12) by lia.
  rewrite Z.add_0_r.
  replace (JsDate.days_from_civil year (mi + 1) 1 + 1 - 1)
    with (JsDate.days_from_civil year (mi + 1) 1) by lia.
  rewrite Z.div_mul, Z.mod_mul by (unfold JsDate.msPerDay; lia).
  rewrite civil_of_first_of_month by lia.
  repeat split; lia.
Qed.

(** A day number is rebuilt from its civil date. *)
Lemma days_of_civil (z : Z) :
  let '(y, m, d) := JsDate.civil_from_days z in
  JsDate.days_from_civil y m d = z.
Proof.
  rewrite civil_from_days_parts. cbv zeta.
  set (z' := z + 719468). set (era := z' / JsDate.daysPerEra).
  assert (Hdoe : 0 <= z' - era * JsDate.daysPerEra < JsDate.daysPerEra).
  { unfold era. pose proof (Z.mod_pos_bound z' JsDate.daysPerEra eq_refl) as B.
    rewrite Z.mod_eq in B by (unfold JsDate.daysPerEra; lia). lia. }
  pose proof (doe_parts_range _ Hdoe) as R.
  assert (I : let '(yoe, mp, d) := doe_parts (z' - era * JsDate.daysPerEra) in
              doe_of yoe mp d = z' - era * JsDate.daysPerEra).
  { unfold doe_parts, doe_of. cbv zeta. lia. }
  destruct (doe_parts (z' - era * JsDate.daysPerEra)) as [[yoe mp] d].
  destruct R as (Hy & Hm & Hd & _).
  rewrite days_from_civil_parts. cbv zeta.
  assert (Q : (yoe + era * 400) / 400 = era).
  { rewrite Z.div_add by lia. rewrite Z.div_small by lia. lia. }
  destruct (Z.ltb_spec mp 10) as [L | L].
  - destruct (Z.leb_spec (mp + 3) 2) as [C | _]; [lia |].
    destruct (Z.ltb_spec 2 (mp + 3)) as [_ | C]; [| lia].
    rewrite Q.
    replace (yoe + era * 400 - era * 400) with yoe by lia.
    replace (mp + 3 - 3) with mp by lia. rewrite I. unfold z'. lia.
  - destruct (Z.leb_spec (mp - 9) 2) as [_ | C]; [| lia].
    destruct (Z.ltb_spec 2 (mp - 9)) as [C | _]; [lia |].
    replace (yoe + era * 400 + 1 - 1) with (yoe + era * 400) by lia.
    rewrite Q.
    replace (yoe + era * 400 - era * 400) with yoe by lia.
    replace (mp - 9 + 9) with mp by lia. rewrite I. unfold z'. lia.
Qed.

(** Within one calendar year, day numbers grow with the month. *)
Lemma days_from_civil_mono (y m0 m d : Z) :
  1 <= m0 <= m -> m <= 12 -> 1 <= d ->
  JsDate.days_from_civil y m0 1 <= JsDate.days_from_civil y m d.
Proof.
  intros H0 H1 Hd. unfold JsDate.days_from_civil, JsDate.daysPerEra.
  cbv zeta.
  destruct (Z.leb_spec m0 2), (Z.leb_spec m 2),
           (Z.ltb_spec 2 m0), (Z.ltb_spec 2 m); try lia;
    Z.div_mod_to_equations; lia.
Qed.

Lemma startDate_quarter (now : Z) :
  startDate "quarter" now
  = JsDate.newDate (JsDate.getFullYear now)
                   (JsDate.getMonth now / 3 * 3) 1.
Proof. reflexivity. Qed.

(** The start of the quarter is not after [now]. *)
Lemma quarter_start_le_now (now : Z) :
  0 <= now -> startDate "quarter" now <= now.
Proof.
  intro H.
  pose proof (getFullYear_since_epoch now H) as HY.
  pose proof (getMonth_range now) as HM.
  rewrite startDate_quarter.
  unfold JsDate.newDate.
  replace ((0 <=? JsDate.getFullYear now) && (JsDate.getFullYear now <=? 99))
    with false
    by (symmetry; apply andb_false_iff; right; apply Z.leb_gt; lia).
  assert (HQ : 0 <= JsDate.getMonth now / 3 * 3 <= JsDate.getMonth now)
    by (Z.div_mod_to_equations; lia).
  rewrite (Z.div_small (_ / 3 * 3) 12), (Z.mod_small (_ / 3 * 3) 12) by lia.
  rewrite Z.add_0_r.
  pose proof (days_of_civil (JsDate.Day now)) as I.
  pose proof (civil_ranges (JsDate.Day now)) as R.
  unfold JsDate.getFullYear, JsDate.getMonth in *.
  destruct (JsDate.civil_from_days (JsDate.Day now)) as [[y m] d].
  destruct R as (Rm & Rd & _).
  pose proof (days_from_civil_mono y ((m - 1) / 3 * 3 + 1) m d) as Mo.
  assert (Dn : JsDate.Day now * JsDate.msPerDay <= now).
  { unfold JsDate.Day. pose proof (Z.mul_div_le now JsDate.msPerDay eq_refl).
    lia. }
  unfold JsDate.msPerDay in *. lia.
Qed.

(** ** Period *)

Lemma previous_match_iff (user : User) (start now : Z)
    (currency : Currency) (s : Sale) :
  previousSalesMetrics_match user start now currency s = true
  <-> s_user s = u_id user /\ s_isArchived s = false
      /\ s_currency s = currency
      /\ start - (now - start) <= s_saleDate s < start.
Proof.
  unfold previousSalesMetrics_match, previousPeriodStart, periodLength,
         JsDate.getTime.
  rewrite !andb_true_iff, Nat.eqb_eq, Z.leb_le, Z.ltb_lt, Currency_eqb_eq.
  destruct (s_isArchived s); simpl; intuition congruence.
Qed.

Lemma fold_previous_step (docs : list Sale) (acc : PreviousMetrics) :
  let r := fold_left
             (fun a s => mkPreviousMetrics (pm_totalRevenue a + s_salePrice s)
                                           (pm_totalSales a + 1))
             docs acc in
  (pm_totalRevenue r == pm_totalRevenue acc + Qsum (map s_salePrice docs))%Q
  /\ pm_totalSales r = pm_totalSales acc + Z.of_nat (List.length docs).
Proof.
  revert acc. induction docs as [| s docs IH]; intro acc.
  - simpl. split; [ring | lia].
  - cbn [fold_left]. cbv zeta in IH |- *.
    destruct (IH (mkPreviousMetrics (pm_totalRevenue acc + s_salePrice s)
                                    (pm_totalSales acc + 1))) as (R & C).
    rewrite R, C.
    cbn [pm_totalRevenue pm_totalSales map Qsum fold_right List.length].
    split; [fold (Qsum (map s_salePrice docs)); ring | lia].
Qed.

Lemma previousData_sums (user : User) (start now : Z)
    (currency : Currency) (db : Db) :
  let M := filter (previousSalesMetrics_match user start now currency)
                  (sales db) in
  (pm_totalRevenue (previousData user start now currency db)
   == Qsum (map s_salePrice M))%Q
  /\ pm_totalSales (previousData user start now currency db)
     = Z.of_nat (List.length M).
Proof.
  cbv zeta. unfold previousData, previousSalesMetrics, group_all.
  destruct (filter _ (sales db)) as [| s l] eqn:E.
  - simpl. split; reflexivity.
  - rewrite <- E. cbn [first_or].
    destruct (fold_previous_step
                (filter (previousSalesMetrics_match user start now currency)
                        (sales db))
                (mkPreviousMetrics 0 0)) as (R & C).
    cbv zeta in R, C. rewrite R, C.
    cbn [pm_totalRevenue pm_totalSales]. split; [ring | lia].
Qed.

Lemma Qlt_bool_comp (x y y' : Q) :
  (y == y')%Q -> Qlt_bool x y = Qlt_bool x y'.
Proof.
  intro E. destruct (Qlt_bool x y') eqn:B.
  - apply Qlt_bool_iff. apply Qlt_bool_iff in B. now rewrite E.
  - apply Qlt_bool_false_iff. apply Qlt_bool_false_iff in B. now rewrite E.
Qed.

(** The growth figures depend on the previous totals only through
    their values. *)
Lemma growth_of_equal_totals (sd : SalesMetrics) (pd pd' : PreviousMetrics) :
  (pm_totalRevenue pd == pm_totalRevenue pd')%Q ->
  pm_totalSales pd = pm_totalSales pd' ->
  revenueGrowth sd pd = revenueGrowth sd pd'
  /\ salesGrowth sd pd = salesGrowth sd pd'.
Proof.
  intros R C. unfold revenueGrowth, salesGrowth. rewrite C.
  split; [| reflexivity].
  rewrite (Qlt_bool_comp 0 _ _ R).
  unfold Double.sub, Double.div, Double.mul.
  rewrite (round_comp _ _ R). reflexivity.
Qed.

(** C8: for every instant [now] of the clock (at or after the epoch),
    period = quarter gives a start that is midnight of day 1 of month
    floor(monthIndex / 3) * 3 of now's year, the month block of three
    that contains now's month, not after now, and the end is now; and
    for every period, the previous period used for growth is exactly
    [start - (end - start), start): the previous totals are the sum of
    the sale prices and the number of the user's non-archived sales in
    the requested currency dated in that window, and the payload's
    revenueGrowth and sales growth are the growth rule applied to the
    current totals and these. *)
Theorem C8_quarter_and_previous_period (now : Z) :
  0 <= now ->
  let start := startDate "quarter" now in
  (JsDate.getFullYear start = JsDate.getFullYear now
   /\ JsDate.getMonth start = JsDate.getMonth now / 3 * 3
   /\ JsDate.getDate start = 1
   /\ start mod JsDate.msPerDay = 0
   /\ JsDate.getMonth start <= JsDate.getMonth now
      <= JsDate.getMonth start + 2
   /\ start <= now)
  /\ (forall user currency db,
        let dd := dashboard_data user "quarter" currency now db in
        pi_startDate (d_period dd) = start
        /\ pi_endDate (d_period dd) = now)
  /\ (forall period user currency s,
        let st := startDate period now in
        previousSalesMetrics_match user st now currency s = true
        <-> s_user s = u_id user /\ s_isArchived s = false
            /\ s_currency s = currency
            /\ st - (now - st) <= s_saleDate s < st)
  /\ (forall period user currency db,
        let st := startDate period now in
        let window :=
          filter (fun s => Nat.eqb (s_user s) (u_id user)
                           && negb (s_isArchived s)
                           && Currency_eqb (s_currency s) currency
                           && (st - (now - st) <=? s_saleDate s)
                           && (s_saleDate s <? st))
                 (sales db) in
        let previous :=
          mkPreviousMetrics (Qsum (map s_salePrice window))
                            (Z.of_nat (List.length window)) in
        let cur := salesData user st currency db in
        let dd := dashboard_data user period currency now db in
        (pm_totalRevenue (previousData user st now currency db)
         == Qsum (map s_salePrice window))%Q
        /\ pm_totalSales (previousData user st now currency db)
           = Z.of_nat (List.length window)
        /\ ps_revenueGrowth (m_profit (d_metrics dd))
           = parseFloat (revenueGrowth cur previous)
        /\ ss_growth (m_sales (d_metrics dd))
           = parseFloat (salesGrowth cur previous)).
Proof.
  intro H. cbv zeta.
  split; [| split; [| split]].
  - pose proof (getFullYear_since_epoch now H) as HY.
    pose proof (getMonth_range now) as HM.
    pose proof (quarter_start_le_now now H) as LE.
    rewrite startDate_quarter in *.
    assert (HQ : JsDate.getMonth now / 3 * 3 <= JsDate.getMonth now
                 <= JsDate.getMonth now / 3 * 3 + 2)
      by (Z.div_mod_to_equations; lia).
    destruct (fields_of_newDate (JsDate.getFullYear now)
                (JsDate.getMonth now / 3 * 3)) as (FY & FM & FD & F0);
      [lia | lia |].
    rewrite FY, FM, FD, F0. repeat split; lia.
  - intros user currency db. split; reflexivity.
  - intros period user currency s. apply previous_match_iff.
  - intros period user currency db.
    set (st := startDate period now).
    assert (W : filter (fun s => Nat.eqb (s_user s) (u_id user)
                                 && negb (s_isArchived s)
                                 && Currency_eqb (s_currency s) currency
                                 && (st - (now - st) <=? s_saleDate s)
                                 && (s_saleDate s <? st))
                       (sales db)
                = filter (previousSalesMetrics_match user st now currency)
                         (sales db)).
    { apply filter_ext. intro s.
      unfold previousSalesMetrics_match, previousPeriodStart, periodLength,
             JsDate.getTime.
      destruct (Nat.eqb (s_user s) (u_id user)), (s_isArchived s),
               (Currency_eqb (s_currency s) currency),
               (st - (now - st) <=? s_saleDate s), (s_saleDate s <? st);
        reflexivity. }
    rewrite W.
    destruct (previousData_sums user st now currency db) as (R & C).
    cbv zeta in R, C.
    split; [exact R | split; [exact C |]].
    destruct (growth_of_equal_totals (salesData user st currency db)
                (previousData user st now currency db)
                (mkPreviousMetrics
                   (Qsum (map s_salePrice
                      (filter (previousSalesMetrics_match user st now currency)
                              (sales db))))
                   (Z.of_nat (List.length
                      (filter (previousSalesMetrics_match user st now currency)
                              (sales db))))) R C) as (G1 & G2).
    unfold dashboard_data.
    cbn [d_metrics m_sales m_profit ss_growth ps_revenueGrowth].
    fold st. rewrite G1, G2. split; reflexivity.
Qed.

Lemma C8_quarter_witness :
  let start := startDate "quarter" (JsDate.at_time 2024 5 15 12 0 0) in
  JsDate.getFullYear start = 2024
  /\ JsDate.getMonth start = 3
  /\ JsDate.getDate start = 1
  /\ start mod JsDate.msPerDay = 0.
Proof.
  cbv zeta.
  destruct (C8_quarter_and_previous_period
              (JsDate.at_time 2024 5 15 12 0 0))
    as [(FY & FM & FD & F0 & _) _].
  { vm_compute. discriminate. }
  assert (Y : JsDate.getFullYear (JsDate.at_time 2024 5 15 12 0 0) = 2024)
    by (vm_compute; reflexivity).
  assert (M : JsDate.getMonth (JsDate.at_time 2024 5 15 12 0 0) / 3 * 3 = 3)
    by (vm_compute; reflexivity).
  rewrite Y in FY. rewrite M in FM.
  exact (conj FY (conj FM (conj FD F0))).
Defined.

(** ** Sale hooks: what they leave alone *)

Local Open Scope Z_scope.

Lemma find_other_after_inc (id id' : ObjectId) (dq ds : Z)
    (ps : list Product) :
  id' <> id ->
  findProductById id' (Product_findByIdAndUpdate_inc id dq ds ps)
  = findProductById id' ps.
Proof.
  intro N. unfold findProductById.
  induction ps as [| p ps IH]; simpl; [reflexivity |].
  destruct (Nat.eqb (p_id p) id) eqn:E; simpl.
  - apply Nat.eqb_eq in E.
    destruct (Nat.eqb (p_id p) id') eqn:E'; [| reflexivity].
    apply Nat.eqb_eq in E'. congruence.
  - destruct (Nat.eqb (p_id p) id'); [reflexivity | exact IH].
Qed.

Lemma ids_after_inc (id : ObjectId) (dq ds : Z) (ps : list Product) :
  map p_id (Product_findByIdAndUpdate_inc id dq ds ps) = map p_id ps.
Proof.
  induction ps as [| p ps IH]; simpl; [reflexivity |].
  destruct (Nat.eqb (p_id p) id); simpl; [reflexivity | now rewrite IH].
Qed.

Lemma inc_missing (id : ObjectId) (dq ds : Z) (ps : list Product) :
  findProductById id ps = None ->
  Product_findByIdAndUpdate_inc id dq ds ps = ps.
Proof.
  unfold findProductById.
  induction ps as [| p ps IH]; simpl; [reflexivity |].
  destruct (Nat.eqb (p_id p) id); [discriminate |].
  intro H. now rewrite IH.
Qed.

Lemma inc_product_back (n : Z) (p : Product) :
  inc_product n (- n) (inc_product (- n) n p) = p.
Proof.
  destruct p as [i u nm pp [q t] st [ts] ar]. unfold inc_product. simpl.
  f_equal; f_equal; lia.
Qed.

Lemma inc_then_back (id : ObjectId) (n : Z) (ps : list Product) :
  Product_findByIdAndUpdate_inc id n (- n)
    (Product_findByIdAndUpdate_inc id (- n) n ps) = ps.
Proof.
  induction ps as [| p ps IH]; simpl; [reflexivity |].
  destruct (Nat.eqb (p_id p) id) eqn:E; simpl.
  - change (p_id (inc_product (- n) n p)) with (p_id p). rewrite E.
    now rewrite inc_product_back.
  - rewrite E. now rewrite IH.
Qed.

(** The products after either hook, by cases on what the hook tests. *)
Lemma products_after_post_save (s : Sale) (db : Db) :
  products (Sale_post_save s db)
  = if SaleStatus_eqb (s_status s) completed && negb (s_isReturned s)
    then Product_findByIdAndUpdate_inc (s_product s) (- s_quantity s)
           (s_quantity s) (products db)
    else products db.
Proof.
  unfold Sale_post_save.
  now destruct (SaleStatus_eqb (s_status s) completed
                && negb (s_isReturned s)).
Qed.

Lemma products_after_post_update (s : Sale) (db : Db) :
  products (Sale_post_findOneAndUpdate (Some s) db)
  = if SaleStatus_eqb (s_status s) cancelled
       || SaleStatus_eqb (s_status s) refunded
    then Product_findByIdAndUpdate_inc (s_product s) (s_quantity s)
           (- s_quantity s) (products db)
    else products db.
Proof.
  unfold Sale_post_findOneAndUpdate.
  now destruct (SaleStatus_eqb (s_status s) cancelled
                || SaleStatus_eqb (s_status s) refunded).
Qed.

(** X1: neither hook touches a product other than the one the sale
    refers to, neither adds, removes or reorders products, and neither
    touches the expenses. *)
Theorem sale_hooks_touch_one_product (s : Sale) (db : Db) (id : ObjectId) :
  id <> s_product s ->
  (findProductById id (products (Sale_post_save s db))
   = findProductById id (products db)
   /\ findProductById id (products (Sale_post_findOneAndUpdate (Some s) db))
      = findProductById id (products db))
  /\ (map p_id (products (Sale_post_save s db)) = map p_id (products db)
      /\ map p_id (products (Sale_post_findOneAndUpdate (Some s) db))
         = map p_id (products db))
  /\ (expenses (Sale_post_save s db) = expenses db
      /\ expenses (Sale_post_findOneAndUpdate (Some s) db) = expenses db
      /\ sales (Sale_post_save s db) = sales db
      /\ sales (Sale_post_findOneAndUpdate (Some s) db) = sales db).
Proof.
  intro N.
  rewrite products_after_post_save, products_after_post_update.
  unfold Sale_post_save, Sale_post_findOneAndUpdate.
  destruct (SaleStatus_eqb (s_status s) completed && negb (s_isReturned s)),
           (SaleStatus_eqb (s_status s) cancelled
            || SaleStatus_eqb (s_status s) refunded);
    cbn [expenses sales];
    rewrite ?find_other_after_inc, ?ids_after_inc by exact N;
    repeat split.
Qed.

Lemma sale_hooks_touch_one_product_witness :
  findProductById 2%nat
    (products (Sale_post_save scenario_sale
       (mkDb [sample_product 5 2;
              mkProduct 2%nat 7%nat "scarf" 4 (mkInventory 9 1) active
                        (mkAnalytics 0) false] [] [])))
  = Some (mkProduct 2%nat 7%nat "scarf" 4 (mkInventory 9 1) active
                    (mkAnalytics 0) false).
Proof.
  refine (proj1 (proj1 (sale_hooks_touch_one_product scenario_sale
    (mkDb [sample_product 5 2;
           mkProduct 2%nat 7%nat "scarf" 4 (mkInventory 9 1) active
                     (mkAnalytics 0) false] [] []) 2%nat _))).
  discriminate.
Defined.

(** X2: when the product a sale refers to is not in the collection,
    both hooks leave the store exactly as it is; nothing is raised. *)
Theorem sale_hooks_ignore_missing_product (s : Sale) (db : Db) :
  findProductById (s_product s) (products db) = None ->
  products (Sale_post_save s db) = products db
  /\ products (Sale_post_findOneAndUpdate (Some s) db) = products db.
Proof.
  intro H.
  rewrite products_after_post_save, products_after_post_update.
  rewrite !inc_missing by exact H.
  split.
  - now destruct (SaleStatus_eqb (s_status s) completed
                  && negb (s_isReturned s)).
  - now destruct (SaleStatus_eqb (s_status s) cancelled
                  || SaleStatus_eqb (s_status s) refunded).
Qed.

Lemma sale_hooks_ignore_missing_product_witness :
  products (Sale_post_save scenario_sale (mkDb [] [] [])) = [].
Proof.
  apply (sale_hooks_ignore_missing_product scenario_sale (mkDb [] [] [])).
  reflexivity.
Defined.

(** X3: both hooks move units between [inventory.quantity] and
    [analytics.totalSales]: for every product their sum is the same
    before and after. *)
Theorem sale_hooks_conserve_units (s : Sale) (db : Db) (id : ObjectId) :
  units_of id (Sale_post_save s db) = units_of id db
  /\ units_of id (Sale_post_findOneAndUpdate (Some s) db) = units_of id db.
Proof.
  unfold units_of.
  rewrite products_after_post_save, products_after_post_update.
  assert (I : forall dq,
    option_map (fun p => inv_quantity (p_inventory p)
                         + an_totalSales (p_analytics p))
      (findProductById id
         (Product_findByIdAndUpdate_inc (s_product s) dq (- dq)
            (products db)))
    = option_map (fun p => inv_quantity (p_inventory p)
                           + an_totalSales (p_analytics p))
        (findProductById id (products db))).
  { intro dq. destruct (Nat.eq_dec id (s_product s)) as [-> | N].
    - rewrite find_after_inc.
      destruct (findProductById (s_product s) (products db)); simpl;
        [f_equal; lia | reflexivity].
    - now rewrite find_other_after_inc. }
  split.
  - destruct (SaleStatus_eqb (s_status s) completed
              && negb (s_isReturned s)); [| reflexivity].
    pose proof (I (- s_quantity s)) as I'.
    now rewrite Z.opp_involutive in I'.
  - destruct (SaleStatus_eqb (s_status s) cancelled
              || SaleStatus_eqb (s_status s) refunded); [| reflexivity].
    apply I.
Qed.

(** ** Sales routes *)

Lemma Db_eta (db : Db) : mkDb (products db) (sales db) (expenses db) = db.
Proof. now destruct db. Qed.

Lemma Sale_update_first_doc (id user : ObjectId) (u : SaleUpdate)
    (ss : list Sale) :
  fst (Sale_update_first id user u ss)
  = option_map (apply_sale_update u) (find (sale_key id user) ss).
Proof.
  unfold sale_key.
  induction ss as [| s ss IH]; simpl; [reflexivity |].
  destruct (Nat.eqb (s_id s) id && Nat.eqb (s_user s) user);
    [reflexivity |].
  destruct (Sale_update_first id user u ss). exact IH.
Qed.

Lemma Sale_update_first_none (id user : ObjectId) (u : SaleUpdate)
    (ss : list Sale) :
  find (sale_key id user) ss = None ->
  Sale_update_first id user u ss = (None, ss).
Proof.
  unfold sale_key.
  induction ss as [| s ss IH]; simpl; [reflexivity |].
  destruct (Nat.eqb (s_id s) id && Nat.eqb (s_user s) user);
    [discriminate |].
  intro H. now rewrite (IH H).
Qed.

(** What [Sale.findOneAndUpdate] returns and what it does to the
    products. *)
Lemma Sale_findOneAndUpdate_cases (id user : ObjectId) (u : SaleUpdate)
    (db : Db) :
  match find (sale_key id user) (sales db) with
  | None => Sale_findOneAndUpdate id user u db = (None, db)
  | Some s0 =>
      let d := apply_sale_update u s0 in
      fst (Sale_findOneAndUpdate id user u db) = Some d
      /\ products (snd (Sale_findOneAndUpdate id user u db))
         = (if is_reversal d
            then Product_findByIdAndUpdate_inc (s_product d)
                   (s_quantity d) (- s_quantity d) (products db)
            else products db)
      /\ expenses (snd (Sale_findOneAndUpdate id user u db)) = expenses db
  end.
Proof.
  unfold Sale_findOneAndUpdate.
  destruct (find (sale_key id user) (sales db)) as [s0 |] eqn:F.
  - pose proof (Sale_update_first_doc id user u (sales db)) as D.
    rewrite F in D. simpl in D.
    destruct (Sale_update_first id user u (sales db)) as [doc ss].
    simpl in D. subst doc. cbv zeta. cbn [fst snd].
    split; [reflexivity |].
    unfold is_reversal, Sale_post_findOneAndUpdate.
    destruct (SaleStatus_eqb (s_status (apply_sale_update u s0)) cancelled
              || SaleStatus_eqb (s_status (apply_sale_update u s0))
                   refunded); split; reflexivity.
  - rewrite (Sale_update_first_none _ _ _ _ F). simpl. now rewrite Db_eta.
Qed.

(** X4: a successful [PUT /api/sales/:id] changes the products only
    when the updated sale is cancelled or refunded, and then it adds
    the sale's quantity to the product's stock whatever the status was
    before; in particular a PUT that sets the status to completed
    takes nothing from the stock. *)
Theorem put_sale_inventory_effect (user : User) (id : ObjectId)
    (u : SaleUpdate) (db db' : Db) (d : Sale) :
  put_sale user id u db = (Done 200 d, db') ->
  (is_reversal d = false -> products db' = products db)
  /\ (is_reversal d = true ->
      quantity_of (s_product d) db'
      = option_map (fun q => q + s_quantity d)
                   (quantity_of (s_product d) db)).
Proof.
  unfold put_sale.
  destruct (valid_sale_update u); cbn [negb]; [| discriminate].
  pose proof (Sale_findOneAndUpdate_cases id (u_id user) u db) as C.
  destruct (find (sale_key id (u_id user)) (sales db)) as [s0 |].
  - cbv zeta in C. destruct C as (D & P & _).
    destruct (Sale_findOneAndUpdate id (u_id user) u db) as [doc db1].
    cbn [fst snd] in D, P. subst doc. intro H. inversion H; subst.
    unfold quantity_of. rewrite P.
    split; intro R; rewrite R; [reflexivity |].
    rewrite find_after_inc.
    now destruct (findProductById (s_product (apply_sale_update u s0))
                    (products db)).
  - rewrite C. discriminate.
Qed.

Lemma put_sale_inventory_effect_witness :
  let db := Sale_save (sale_on 3%nat 0 45 GBP) scenario_db in
  quantity_of 1%nat
    (snd (put_sale alice 3%nat (set_status_update cancelled) db))
  = option_map (fun q => q + 1) (quantity_of 1%nat db).
Proof.
  cbv zeta.
  refine (proj2 (put_sale_inventory_effect alice 3%nat
    (set_status_update cancelled)
    (Sale_save (sale_on 3%nat 0 45 GBP) scenario_db)
    (snd (put_sale alice 3%nat (set_status_update cancelled)
            (Sale_save (sale_on 3%nat 0 45 GBP) scenario_db)))
    (apply_sale_update (set_status_update cancelled)
       (sale_on 3%nat 0 45 GBP))
    _) _); reflexivity.
Defined.

Lemma find_key_by_id (id user : ObjectId) (ps : list Product) (p : Product) :
  NoDup (map p_id ps) ->
  find (product_key id user) ps = Some p ->
  findProductById id ps = Some p.
Proof.
  unfold product_key, findProductById.
  induction ps as [| x ps IH]; simpl; [discriminate |].
  intros ND F. inversion ND as [| ? ? Hx ND']; subst.
  destruct (Nat.eqb (p_id x) id) eqn:E; simpl in F.
  - destruct (Nat.eqb (p_user x) user); [exact F |].
    exfalso. apply Hx. apply Nat.eqb_eq in E. rewrite E.
    apply find_some in F. destruct F as [Hin Hk].
    apply andb_true_iff in Hk as [Hk _]. apply Nat.eqb_eq in Hk.
    rewrite <- Hk. now apply in_map.
  - now apply IH.
Qed.

Lemma find_upsert_fresh (s : Sale) (ss : list Sale) :
  existsb (fun x => Nat.eqb (s_id x) (s_id s)) ss = false ->
  find (sale_key (s_id s) (s_user s)) (upsert s_id s ss) = Some s.
Proof.
  unfold sale_key.
  induction ss as [| x ss IH]; simpl.
  - intros _. now rewrite !Nat.eqb_refl.
  - intro H. apply orb_false_iff in H as [Hx Hss].
    rewrite Hx. simpl. rewrite Hx. simpl. now apply IH.
Qed.

(** What an accepted [POST /api/sales] has checked and written. *)
Lemma post_sale_accepted (user : User) (b : SaleBody) (new_id : ObjectId)
    (now : Z) (db db' : Db) (sale : Sale) (st : nat) :
  post_sale user b new_id now db = (Done st sale, db') ->
  valid_sale_body b = true
  /\ (exists product,
        find (product_key (sb_product b) (u_id user)) (products db)
        = Some product
        /\ sb_quantity b <= inv_quantity (p_inventory product))
  /\ existsb (fun s => Nat.eqb (s_id s) new_id) (sales db) = false
  /\ st = 201%nat
  /\ sale = new_sale user b new_id now
  /\ db' = Sale_save sale db.
Proof.
  unfold post_sale.
  destruct (valid_sale_body b); cbn [negb]; [| discriminate].
  fold (product_key (sb_product b) (u_id user)).
  destruct (find (product_key (sb_product b) (u_id user)) (products db))
    as [product |]; [| discriminate].
  destruct (Z.ltb_spec (inv_quantity (p_inventory product)) (sb_quantity b))
    as [L | L]; [discriminate |].
  destruct (existsb _ (sales db)); [discriminate |].
  intro H. inversion H; subst.
  repeat split; try reflexivity. exists product. split; [reflexivity | lia].
Qed.

(** X5: a sale is accepted by [POST /api/sales] only for a product of
    the requesting user that holds at least the requested quantity,
    and after the write that product holds a non-negative quantity:
    the old one less the sale's quantity when the sale is posted as
    completed and not returned, the old one otherwise. *)
Theorem post_sale_keeps_stock_nonnegative (user : User) (b : SaleBody)
    (new_id : ObjectId) (now : Z) (db db' : Db) (sale : Sale) :
  NoDup (map p_id (products db)) ->
  post_sale user b new_id now db = (Done 201 sale, db') ->
  exists p,
    findProductById (sb_product b) (products db) = Some p
    /\ p_user p = u_id user
    /\ sb_quantity b <= inv_quantity (p_inventory p)
    /\ quantity_of (sb_product b) db'
       = Some (if SaleStatus_eqb (s_status sale) completed
                  && negb (s_isReturned sale)
               then inv_quantity (p_inventory p) - sb_quantity b
               else inv_quantity (p_inventory p))
    /\ (forall q, quantity_of (sb_product b) db' = Some q -> 0 <= q).
Proof.
  intros ND H.
  destruct (post_sale_accepted _ _ _ _ _ _ _ _ H)
    as (V & (p & F & Q) & _ & _ & -> & ->).
  pose proof (find_key_by_id _ _ _ _ ND F) as F'.
  apply find_some in F as [_ K]. unfold product_key in K.
  apply andb_true_iff in K as [_ K]. apply Nat.eqb_eq in K.
  assert (P1 : 1 <= sb_quantity b).
  { unfold valid_sale_body in V. rewrite !andb_true_iff in V.
    destruct V as [[V _] _]. now apply Z.leb_le. }
  assert (E : quantity_of (sb_product b)
                (Sale_save (new_sale user b new_id now) db)
              = Some (if SaleStatus_eqb
                           (s_status (new_sale user b new_id now)) completed
                         && negb (s_isReturned (new_sale user b new_id now))
                      then inv_quantity (p_inventory p) - sb_quantity b
                      else inv_quantity (p_inventory p))).
  { unfold quantity_of, Sale_save.
    rewrite products_after_post_save. cbn [products].
    change (s_product (new_sale user b new_id now)) with (sb_product b).
    change (s_quantity (new_sale user b new_id now)) with (sb_quantity b).
    destruct (SaleStatus_eqb (s_status (new_sale user b new_id now)) completed
              && negb (s_isReturned (new_sale user b new_id now))).
    - rewrite find_after_inc, F'. reflexivity.
    - now rewrite F'. }
  exists p. repeat split; try assumption.
  intros q Hq. rewrite E in Hq. inversion Hq; subst.
  destruct (SaleStatus_eqb _ completed && negb _); lia.
Qed.

Lemma post_sale_keeps_stock_nonnegative_witness :
  exists p,
    findProductById 1%nat (products scenario_db) = Some p
    /\ p_user p = 7%nat
    /\ 3 <= inv_quantity (p_inventory p)
    /\ quantity_of 1%nat
         (snd (post_sale alice post_sale_example_body 50%nat 0 scenario_db))
       = Some (inv_quantity (p_inventory p) - 3)
    /\ (forall q,
          quantity_of 1%nat
            (snd (post_sale alice post_sale_example_body 50%nat 0
                    scenario_db)) = Some q -> 0 <= q).
Proof.
  apply (post_sale_keeps_stock_nonnegative alice post_sale_example_body
           50%nat 0 scenario_db
           (snd (post_sale alice post_sale_example_body 50%nat 0
                   scenario_db))
           (new_sale alice post_sale_example_body 50%nat 0)).
  - repeat constructor. simpl. tauto.
  - reflexivity.
Defined.

(** X6: a sale posted as completed and then cancelled or refunded
    through [PUT /api/sales/:id] leaves every product exactly as it
    was before the sale. *)
Theorem complete_then_cancel_restores_products (user : User) (b : SaleBody)
    (new_id : ObjectId) (now : Z) (db db1 : Db) (sale : Sale)
    (st : SaleStatus) :
  post_sale user b new_id now db = (Done 201 sale, db1) ->
  s_status sale = completed -> s_isReturned sale = false ->
  st = cancelled \/ st = refunded ->
  exists sale' db2,
    put_sale user new_id (set_status_update st) db1 = (Done 200 sale', db2)
    /\ s_status sale' = st
    /\ products db2 = products db.
Proof.
  intros H Hc Hr Hst.
  destruct (post_sale_accepted _ _ _ _ _ _ _ _ H)
    as (_ & _ & Fresh & _ & E & ->).
  assert (F : find (sale_key new_id (u_id user)) (sales (Sale_save sale db))
              = Some sale).
  { unfold Sale_save, Sale_post_save. rewrite Hc, Hr. cbn [sales].
    subst sale. apply (find_upsert_fresh (new_sale user b new_id now)).
    exact Fresh. }
  unfold put_sale. cbn [valid_sale_update set_status_update su_quantity
    su_salePrice su_fees andb negb].
  pose proof (Sale_findOneAndUpdate_cases new_id (u_id user)
                (set_status_update st) (Sale_save sale db)) as C.
  rewrite F in C. cbv zeta in C. destruct C as (D & P & _).
  destruct (Sale_findOneAndUpdate new_id (u_id user) (set_status_update st)
              (Sale_save sale db)) as [doc db2].
  cbn [fst snd] in D, P. subst doc.
  eexists. eexists. split; [reflexivity |]. split; [reflexivity |].
  rewrite P.
  assert (R : is_reversal (apply_sale_update (set_status_update st) sale)
              = true).
  { unfold is_reversal. cbn. destruct Hst; subst st; reflexivity. }
  rewrite R. cbn [apply_sale_update set_status_update or_default
    su_product su_quantity s_product s_quantity].
  rewrite Sale_save_products by assumption.
  apply inc_then_back.
Qed.

Lemma complete_then_cancel_restores_products_witness :
  exists sale' db2,
    put_sale alice 50%nat (set_status_update cancelled)
      (snd (post_sale alice post_sale_example_body 50%nat 0 scenario_db))
    = (Done 200 sale', db2)
    /\ s_status sale' = cancelled
    /\ products db2 = products scenario_db.
Proof.
  apply (complete_then_cancel_restores_products alice
           post_sale_example_body 50%nat 0 scenario_db
           (snd (post_sale alice post_sale_example_body 50%nat 0
                   scenario_db))
           (new_sale alice post_sale_example_body 50%nat 0) cancelled).
  - reflexivity.
  - reflexivity.
  - reflexivity.
  - left. reflexivity.
Defined.

Lemma Sale_update_first_stored (id user : ObjectId) (u : SaleUpdate)
    (ss : list Sale) :
  su_user u = None ->
  find (sale_key id user) (snd (Sale_update_first id user u ss))
  = option_map (apply_sale_update u) (find (sale_key id user) ss).
Proof.
  intro Hu. unfold sale_key.
  induction ss as [| s ss IH]; simpl; [reflexivity |].
  destruct (Nat.eqb (s_id s) id && Nat.eqb (s_user s) user) eqn:E.
  - cbn [snd find apply_sale_update s_id s_user]. rewrite Hu.
    cbn [or_default]. now rewrite E.
  - destruct (Sale_update_first id user u ss) as [doc rest].
    cbn [snd find] in *. now rewrite E.
Qed.

(** X7: [DELETE /api/sales/:id] answers 200 only for a sale of the
    requesting user, which it stores as archived, so that no dashboard
    query matches it any more; the restore hook runs on this write
    too, so archiving a cancelled or refunded sale adds its quantity
    to the stock once more, while archiving any other sale leaves the
    products alone. *)
Theorem delete_sale_effect (user : User) (id : ObjectId) (db db' : Db) :
  delete_sale user id db = (Done 200 tt, db') ->
  exists s0 d,
    find (sale_key id (u_id user)) (sales db) = Some s0
    /\ d = apply_sale_update archive_update s0
    /\ find (sale_key id (u_id user)) (sales db') = Some d
    /\ s_isArchived d = true
    /\ (forall who start now c,
          salesMetrics_match who start c d = false
          /\ breakdown_match who start d = false
          /\ previousSalesMetrics_match who start now c d = false)
    /\ (is_reversal s0 = false -> products db' = products db)
    /\ (is_reversal s0 = true ->
        quantity_of (s_product s0) db'
        = option_map (fun q => q + s_quantity s0)
                     (quantity_of (s_product s0) db)).
Proof.
  unfold delete_sale.
  pose proof (Sale_findOneAndUpdate_cases id (u_id user) archive_update db)
    as C.
  pose proof (Sale_update_first_stored id (u_id user) archive_update
                (sales db) eq_refl) as S.
  destruct (find (sale_key id (u_id user)) (sales db)) as [s0 |] eqn:F.
  - cbv zeta in C. destruct C as (D & P & _).
    assert (SL : sales (snd (Sale_findOneAndUpdate id (u_id user)
                               archive_update db))
                 = snd (Sale_update_first id (u_id user) archive_update
                          (sales db))).
    { unfold Sale_findOneAndUpdate.
      destruct (Sale_update_first id (u_id user) archive_update (sales db))
        as [doc ss]. cbn [snd].
      unfold Sale_post_findOneAndUpdate.
      destruct doc as [x |]; [| reflexivity].
      now destruct (SaleStatus_eqb (s_status x) cancelled
                    || SaleStatus_eqb (s_status x) refunded). }
    destruct (Sale_findOneAndUpdate id (u_id user) archive_update db)
      as [doc db1].
    cbn [fst snd] in D, P, SL. subst doc. intro H. inversion H; subst.
    exists s0, (apply_sale_update archive_update s0).
    split; [reflexivity |]. split; [reflexivity |].
    split; [rewrite SL; exact S |].
    split; [reflexivity |].
    split.
    { intros who start now c.
      unfold salesMetrics_match, breakdown_match,
             previousSalesMetrics_match.
      cbn [apply_sale_update archive_update or_default su_isArchived
           s_isArchived Bool.eqb].
      rewrite !andb_false_r. cbn [andb]. repeat split. }
    unfold quantity_of. rewrite P.
    change (is_reversal (apply_sale_update archive_update s0))
      with (is_reversal s0).
    split; intro R; rewrite R; [reflexivity |].
    change (s_product (apply_sale_update archive_update s0))
      with (s_product s0).
    change (s_quantity (apply_sale_update archive_update s0))
      with (s_quantity s0).
    rewrite find_after_inc.
    now destruct (findProductById (s_product s0) (products db)).
  - rewrite C. discriminate.
Qed.

Lemma delete_sale_effect_witness :
  exists s0 d,
    find (sale_key 100%nat 7%nat)
         (sales (Sale_save scenario_sale scenario_db)) = Some s0
    /\ d = apply_sale_update archive_update s0
    /\ find (sale_key 100%nat 7%nat)
         (sales (snd (delete_sale alice 100%nat
                        (Sale_save scenario_sale scenario_db)))) = Some d
    /\ s_isArchived d = true
    /\ (forall who start now c,
          salesMetrics_match who start c d = false
          /\ breakdown_match who start d = false
          /\ previousSalesMetrics_match who start now c d = false)
    /\ (is_reversal s0 = false ->
        products (snd (delete_sale alice 100%nat
                         (Sale_save scenario_sale scenario_db)))
        = products (Sale_save scenario_sale scenario_db))
    /\ (is_reversal s0 = true ->
        quantity_of (s_product s0)
          (snd (delete_sale alice 100%nat
                  (Sale_save scenario_sale scenario_db)))
        = option_map (fun q => q + s_quantity s0)
            (quantity_of (s_product s0)
               (Sale_save scenario_sale scenario_db))).
Proof.
  apply (delete_sale_effect alice 100%nat
           (Sale_save scenario_sale scenario_db)).
  reflexivity.
Defined.

(** X8: a refusal writes nothing: whenever [POST /api/sales],
    [PUT /api/sales/:id], [DELETE /api/sales/:id] or
    [DELETE /api/inventory/:id] answers with an error status, the store
    is the one it was called with. *)
Theorem refused_writes_change_nothing :
  (forall user b new_id now db st msg db',
     post_sale user b new_id now db = (Refused st msg, db') -> db' = db)
  /\ (forall user id u db st msg db',
        put_sale user id u db = (Refused st msg, db') -> db' = db)
  /\ (forall user id db st msg db',
        delete_sale user id db = (Refused st msg, db') -> db' = db)
  /\ (forall user id db st msg db',
        delete_product user id db = (Refused st msg, db') -> db' = db).
Proof.
  split; [| split; [| split]].
  - intros user b new_id now db st msg db'. unfold post_sale.
    destruct (negb (valid_sale_body b)); [now inversion 1 |].
    destruct (find _ (products db)) as [p |]; [| now inversion 1].
    destruct (inv_quantity (p_inventory p) <? sb_quantity b);
      [now inversion 1 |].
    destruct (existsb _ (sales db)); [now inversion 1 | discriminate].
  - intros user id u db st msg db'. unfold put_sale.
    destruct (negb (valid_sale_update u)); [now inversion 1 |].
    pose proof (Sale_findOneAndUpdate_cases id (u_id user) u db) as C.
    destruct (find (sale_key id (u_id user)) (sales db)).
    + cbv zeta in C. destruct C as (D & _).
      destruct (Sale_findOneAndUpdate id (u_id user) u db) as [doc db1].
      cbn [fst] in D. subst doc. discriminate.
    + rewrite C. now inversion 1.
  - intros user id db st msg db'. unfold delete_sale.
    pose proof (Sale_findOneAndUpdate_cases id (u_id user) archive_update db)
      as C.
    destruct (find (sale_key id (u_id user)) (sales db)).
    + cbv zeta in C. destruct C as (D & _).
      destruct (Sale_findOneAndUpdate id (u_id user) archive_update db)
        as [doc db1].
      cbn [fst] in D. subst doc. discriminate.
    + rewrite C. now inversion 1.
  - intros user id db st msg db'. unfold delete_product.
    destruct (Product_archive_first id (u_id user) (products db))
      as [[p |] ps]; [discriminate | now inversion 1].
Qed.

(** ** Inventory limit and archiving *)

Lemma productCount_live (user : User) (db : Db) :
  productCount user db
  = List.length (filter (live (u_id user)) (products db)).
Proof. reflexivity. Qed.

Lemma archive_first_cases (id user : ObjectId) (ps : list Product) :
  match find (product_key id user) ps with
  | None => Product_archive_first id user ps = (None, ps)
  | Some p =>
      fst (Product_archive_first id user ps) = Some (archive_product p)
      /\ forall who,
           List.length (filter (live who)
                          (snd (Product_archive_first id user ps)))
           + (if live who p then 1 else 0)
           = List.length (filter (live who) ps)
  end%nat.
Proof.
  unfold product_key.
  induction ps as [| x ps IH]; simpl; [reflexivity |].
  destruct (Nat.eqb (p_id x) id && Nat.eqb (p_user x) user) eqn:E.
  - cbn [fst snd]. split; [reflexivity |]. intro who. cbn [filter].
    assert (A : live who (archive_product x) = false).
    { unfold live. cbn. apply andb_false_r. }
    rewrite A. destruct (live who x); simpl; lia.
  - destruct (find _ ps) as [p |].
    + destruct IH as [D L].
      destruct (Product_archive_first id user ps) as [doc rest].
      cbn [fst snd] in *. split; [exact D |]. intro who. cbn [filter].
      specialize (L who). destruct (live who x); simpl; lia.
    + rewrite IH. reflexivity.
Qed.

Lemma archive_first_again (id user : ObjectId) (ps : list Product) :
  snd (Product_archive_first id user
         (snd (Product_archive_first id user ps)))
  = snd (Product_archive_first id user ps).
Proof.
  induction ps as [| x ps IH]; simpl; [reflexivity |].
  destruct (Nat.eqb (p_id x) id && Nat.eqb (p_user x) user) eqn:E.
  - cbn [snd Product_archive_first archive_product p_id p_user].
    now rewrite E.
  - destruct (Product_archive_first id user ps) as [doc rest] eqn:R.
    cbn [snd Product_archive_first] in *. rewrite E.
    destruct (Product_archive_first id user rest) as [doc' rest'].
    cbn [snd] in *. now rewrite IH.
Qed.

(** X9: [DELETE /api/inventory/:id] answers 200 only for a product of
    the requesting user; it lowers that user's count of non-archived
    products by one when the product was not archived yet and by
    nothing otherwise, leaves every other user's count, the sales and
    the expenses as they were, and doing it a second time changes
    nothing more. *)
Theorem delete_product_effect (user : User) (id : ObjectId) (db db' : Db) :
  delete_product user id db = (Done 200 tt, db') ->
  exists p,
    find (product_key id (u_id user)) (products db) = Some p
    /\ (productCount user db' + (if p_isArchived p then 0 else 1)
        = productCount user db)%nat
    /\ (forall other,
          u_id other <> u_id user ->
          productCount other db' = productCount other db)
    /\ sales db' = sales db /\ expenses db' = expenses db
    /\ snd (delete_product user id db') = db'.
Proof.
  unfold delete_product.
  pose proof (archive_first_cases id (u_id user) (products db)) as C.
  pose proof (archive_first_again id (u_id user) (products db)) as A.
  destruct (find (product_key id (u_id user)) (products db)) as [p |] eqn:F.
  - destruct C as [D L].
    destruct (Product_archive_first id (u_id user) (products db))
      as [doc ps] eqn:R.
    cbn [fst snd] in D, L, A. subst doc. intro H. inversion H; subst.
    exists p. split; [reflexivity |].
    apply find_some in F as [_ K]. unfold product_key in K.
    apply andb_true_iff in K as [_ K]. apply Nat.eqb_eq in K.
    rewrite !productCount_live. cbn [products sales expenses].
    split.
    { specialize (L (u_id user)). unfold live at 2 in L.
      rewrite K, Nat.eqb_refl in L. cbn [andb] in L.
      destruct (p_isArchived p); exact L. }
    split.
    { intros other N. rewrite !productCount_live. cbn [products].
      specialize (L (u_id other)). unfold live at 2 in L.
      rewrite K in L.
      assert (E : Nat.eqb (u_id user) (u_id other) = false)
        by (apply Nat.eqb_neq; congruence).
      rewrite E in L. cbn [andb] in L. lia. }
    split; [reflexivity |]. split; [reflexivity |].
    destruct (Product_archive_first id (u_id user) ps) as [[q |] ps'] eqn:R2;
      cbn [snd] in *; [now rewrite A | reflexivity].
  - rewrite C. discriminate.
Qed.

Lemma delete_product_effect_witness :
  exists p,
    find (product_key 1%nat 7%nat) (products scenario_db) = Some p
    /\ (productCount alice (snd (delete_product alice 1%nat scenario_db))
        + (if p_isArchived p then 0 else 1)
        = productCount alice scenario_db)%nat
    /\ (forall other,
          u_id other <> u_id alice ->
          productCount other (snd (delete_product alice 1%nat scenario_db))
          = productCount other scenario_db)
    /\ sales (snd (delete_product alice 1%nat scenario_db))
       = sales scenario_db
    /\ expenses (snd (delete_product alice 1%nat scenario_db))
       = expenses scenario_db
    /\ snd (delete_product alice 1%nat
              (snd (delete_product alice 1%nat scenario_db)))
       = snd (delete_product alice 1%nat scenario_db).
Proof.
  apply (delete_product_effect alice 1%nat scenario_db).
  reflexivity.
Defined.

(** X10: [inventoryLimitMiddleware] refuses exactly the users on the
    free tier who hold 100 or more non-archived products; the refusal
    has status 403 and carries that count and the limit 100, and
    whenever it is sent the alerts of the same user hold the
    subscription_limit alert with the same count and limit. *)
Theorem inventory_limit_refusal (user : User) (db : Db) :
  (forall r,
     inventoryLimitMiddleware user db = Some r ->
     u_subscription user = free
     /\ (100 <= productCount user db)%nat
     /\ lr_status r = 403%nat
     /\ lr_currentCount r = productCount user db
     /\ lr_limit r = 100%nat
     /\ exists a,
          of_type subscription_limit (alerts user db) = [a]
          /\ a_data a = Some (LimitData (lr_currentCount r) (lr_limit r)))
  /\ (inventoryLimitMiddleware user db = None ->
      u_subscription user = pro \/ (productCount user db < 100)%nat).
Proof.
  unfold inventoryLimitMiddleware. fold (productCount user db).
  rewrite limit_alerts_only_from_subscription. unfold subscription_alerts.
  destruct (u_subscription user).
  - destruct (Nat.leb_spec 100 (productCount user db)) as [L | L].
    + split; [| discriminate]. intros r H. inversion H; subst.
      cbn [lr_status lr_currentCount lr_limit].
      repeat split; try assumption.
      assert (E : (80 <=? productCount user db)%nat = true)
        by (apply Nat.leb_le; lia).
      rewrite E. eexists. split; reflexivity.
    + split; [discriminate |]. intros _. now right.
  - split; [discriminate |]. intros _. now left.
Qed.


(** ** Pipeline stages: grouping *)

Section Grouping.

Context {D K A : Type}.
Variable eqb : K -> K -> bool.
Hypothesis eqb_eq : forall a b, eqb a b = true <-> a = b.
Variable key : D -> K.
Variable init : A.
Variable step : A -> D -> A.






End Grouping.

(** ** Pipeline stages: sorting and sums *)

Section Sorting.

Context {D : Type}.
Variable le : D -> D -> bool.
Hypothesis le_total : forall a b, le a b = true \/ le b a = true.
Hypothesis le_trans :
  forall a b c, le a b = true -> le b c = true -> le a c = true.

Lemma insert_by_perm (x : D) (l : list D) :
  Permutation (insert_by le x l) (x :: l).
Proof.
  induction l as [| y l IH]; simpl; [reflexivity |].
  destruct (le x y); [reflexivity |].
  rewrite IH. apply perm_swap.
Qed.

Lemma sort_by_perm (l : list D) : Permutation (sort_by le l) l.
Proof.
  induction l as [| x l IH]; simpl; [reflexivity |].
  unfold sort_by in *. simpl. rewrite insert_by_perm. now constructor.
Qed.

Lemma insert_by_sorted (x : D) (l : list D) :
  StronglySorted (fun a b => le a b = true) l ->
  StronglySorted (fun a b => le a b = true) (insert_by le x l).
Proof.
  induction 1 as [| y l S IH F]; simpl.
  - constructor; constructor.
  - destruct (le x y) eqn:E.
    + constructor; [now constructor |].
      constructor; [exact E |].
      eapply Forall_impl; [| exact F]. intros z Hz.
      now apply (le_trans x y z).
    + constructor; [exact IH |].
      assert (Lyx : le y x = true)
        by (destruct (le_total x y); congruence).
      rewrite (insert_by_perm x l). now constructor.
Qed.

Lemma sort_by_sorted (l : list D) :
  StronglySorted (fun a b => le a b = true) (sort_by le l).
Proof.
  induction l as [| x l IH]; [constructor |].
  unfold sort_by in *. simpl. now apply insert_by_sorted.
Qed.

End Sorting.

Lemma StronglySorted_firstn {D : Type} (R : D -> D -> Prop) (n : nat)
    (l : list D) :
  StronglySorted R l -> StronglySorted R (firstn n l).
Proof.
  intro S. revert n. induction S as [| x l S IH F]; intro n.
  - rewrite firstn_nil. constructor.
  - destruct n; simpl; [constructor |].
    constructor; [apply IH |].
    apply Forall_forall. intros y Hy.
    rewrite Forall_forall in F. apply F.
    rewrite <- (firstn_skipn n l). apply in_or_app. now left.
Qed.


Lemma StronglySorted_impl {D : Type} (R R' : D -> D -> Prop) (l : list D) :
  (forall a b, R a b -> R' a b) ->
  StronglySorted R l -> StronglySorted R' l.
Proof.
  intros I. induction 1 as [| x l S IH F]; constructor; [exact IH |].
  eapply Forall_impl; [| exact F]. intros y. apply I.
Qed.








Section GroupTotals.

Context {D K : Type}.
Variable eqb : K -> K -> bool.
Hypothesis eqb_eq : forall a b, eqb a b = true <-> a = b.
Variable key : D -> K.
Variable wz : D -> Z.
Variable wq : D -> Q.

Let step (acc : Z * Q) (d : D) : Z * Q :=
  (fst acc + wz d, (snd acc + wq d)%Q).




End GroupTotals.



Lemma ProductStatus_eqb_eq (a b : ProductStatus) :
  ProductStatus_eqb a b = true <-> a = b.
Proof. destruct a, b; simpl; split; congruence. Qed.




(** ** Breakdowns of the dashboard *)

Local Open Scope Q_scope.


Lemma StronglySorted_app_cross {D : Type} (R : D -> D -> Prop)
    (l1 l2 : list D) (x y : D) :
  StronglySorted R (l1 ++ l2) -> In x l1 -> In y l2 -> R x y.
Proof.
  induction l1 as [| z l1 IH]; simpl; intros S Hx Hy; [contradiction |].
  inversion S as [| ? ? S' F]; subst.
  destruct Hx as [-> | Hx].
  - rewrite Forall_forall in F. apply F. apply in_or_app. now right.
  - now apply IH.
Qed.




Local Open Scope Z_scope.







Section GroupTotalsAmountFirst.

Context {D K : Type}.
Variable eqb : K -> K -> bool.
Hypothesis eqb_eq : forall a b, eqb a b = true <-> a = b.
Variable key : D -> K.
Variable wq : D -> Q.
Variable wz : D -> Z.

Let step (acc : Q * Z) (d : D) : Q * Z :=
  ((fst acc + wq d)%Q, snd acc + wz d).




End GroupTotalsAmountFirst.

Local Open Scope Q_scope.


Lemma fold_expense_step (docs : list Expense) (acc : ExpenseMetrics) :
  let r := fold_left
             (fun acc e => mkExpenseMetrics
                             (em_totalExpenses acc + e_amount e)
                             (em_expenseCount acc + 1))
             docs acc in
  em_totalExpenses r == em_totalExpenses acc + Qsum (map e_amount docs)
  /\ em_expenseCount r
     = (em_expenseCount acc + Z.of_nat (List.length docs))%Z.
Proof.
  revert acc. induction docs as [| e docs IH]; intro acc.
  - simpl. split; [ring | lia].
  - cbn [fold_left]. cbv zeta in IH |- *.
    destruct (IH (mkExpenseMetrics (em_totalExpenses acc + e_amount e)
                                   (em_expenseCount acc + 1))) as [T C].
    rewrite T, C.
    cbn [em_totalExpenses em_expenseCount map Qsum fold_right List.length].
    fold (Qsum (map e_amount docs)).
    split; [ring | lia].
Qed.

Lemma expenseData_sums (user : User) (start : Z) (currency : Currency)
    (db : Db) :
  let M := filter (expenseMetrics_match user start currency) (expenses db) in
  em_totalExpenses (expenseData user start currency db)
  == Qsum (map e_amount M)
  /\ em_expenseCount (expenseData user start currency db)
     = Z.of_nat (List.length M).
Proof.
  cbv zeta. unfold expenseData, expenseMetrics, group_all.
  destruct (filter (expenseMetrics_match user start currency) (expenses db))
    as [| e M] eqn:E.
  - simpl. split; reflexivity.
  - cbn [first_or].
    destruct (fold_expense_step (e :: M) (mkExpenseMetrics 0 0)) as [T C].
    cbv zeta in T, C. rewrite T, C.
    cbn [em_totalExpenses em_expenseCount]. split; [ring | lia].
Qed.


Lemma salesData_sums (user : User) (start : Z) (currency : Currency)
    (db : Db) :
  let M := filter (salesMetrics_match user start currency) (sales db) in
  sm_totalSales (salesData user start currency db)
  = Z.of_nat (List.length M)
  /\ sm_totalRevenue (salesData user start currency db)
     == Qsum (map s_salePrice M).
Proof.
  cbv zeta. unfold salesData, salesMetrics, group_all.
  destruct (filter (salesMetrics_match user start currency) (sales db))
    as [| s M] eqn:E.
  - simpl. split; reflexivity.
  - cbn [map first_or].
    destruct (fold_sales_step (s :: M) (mkSalesAcc 0 0 0 0 0))
      as (C & R & _).
    cbv zeta in C, R. unfold sales_finish.
    cbn [sm_totalSales sm_totalRevenue]. rewrite C, R.
    cbn [sa_count sa_revenue map]. split; [lia | ring].
Qed.






(** ** Inventory overview and alerts *)




Lemma length_pos_filter {D : Type} (f : D -> bool) (l : list D) :
  (0 <? List.length (filter f l))%nat = true
  <-> exists x, In x l /\ f x = true.
Proof.
  rewrite Nat.ltb_lt. split.
  - destruct (filter f l) as [| x l'] eqn:E; simpl; [lia |].
    intros _. exists x. apply filter_In. rewrite E. now left.
  - intros [x [Hin Hf]].
    assert (I : In x (filter f l)) by (apply filter_In; auto).
    destruct (filter f l); [contradiction | simpl; lia].
Qed.

Lemma length_pos_firstn {D : Type} (n : nat) (l : list D) :
  (0 < n)%nat ->
  (0 <? List.length (firstn n l))%nat = (0 <? List.length l)%nat.
Proof.
  intro H. rewrite length_firstn.
  destruct l; simpl; [now rewrite Nat.min_0_r |].
  destruct n; [lia | reflexivity].
Qed.

(** The types of the alerts, in order. *)
Lemma alert_types (user : User) (db : Db) :
  map a_type (alerts user db)
  = (if (0 <? List.length (lowStockProducts user db))%nat
     then [alert_low_stock] else [])
    ++ (if (0 <? outOfStockCount user db)%nat
        then [alert_out_of_stock] else [])
    ++ (match u_subscription user with
        | free => if (80 <=? productCount user db)%nat
                  then [subscription_limit] else []
        | pro => []
        end)
    ++ (if (0 <? pendingSalesCount user db)%nat
        then [pending_sales] else []).
Proof.
  unfold alerts, low_stock_alerts, out_of_stock_alerts,
         subscription_alerts, pending_sales_alerts.
  rewrite !map_app.
  destruct (0 <? List.length (lowStockProducts user db))%nat,
           (0 <? outOfStockCount user db)%nat,
           (u_subscription user),
           (80 <=? productCount user db)%nat,
           (0 <? pendingSalesCount user db)%nat; reflexivity.
Qed.

(** X18: the alert list holds at most four alerts, at most one of each
    type, always in the order low stock, out of stock, subscription
    limit, pending sales, and [count] is its length; the low-stock
    alert is there exactly when the user has a non-archived product
    with status low_stock, the out-of-stock alert exactly when there
    is one with status out_of_stock, and the pending-sales alert
    exactly when the user has a non-archived sale that is pending or
    paid. *)
Theorem alerts_shape (user : User) (db : Db) :
  let types := map a_type (alerts user db) in
  StronglySorted (fun a b => alert_rank a < alert_rank b)%Z types
  /\ (List.length (alerts user db) <= 4)%nat
  /\ get_alerts user db
     = Json 200 (mkAlertsData (alerts user db)
                              (List.length (alerts user db)))
  /\ (In alert_low_stock types
      <-> exists p, In p (products db) /\ live (u_id user) p = true
                    /\ p_status p = low_stock)
  /\ (In alert_out_of_stock types
      <-> exists p, In p (products db) /\ live (u_id user) p = true
                    /\ p_status p = out_of_stock)
  /\ (In pending_sales types
      <-> exists s, In s (sales db) /\ s_user s = u_id user
                    /\ s_isArchived s = false
                    /\ (s_status s = pending \/ s_status s = paid)).
Proof.
  cbv zeta.
  assert (Len : List.length (alerts user db)
                = List.length (map a_type (alerts user db)))
    by (now rewrite length_map).
  assert (Low : (0 <? List.length (lowStockProducts user db))%nat = true
                <-> exists p, In p (products db)
                              /\ live (u_id user) p = true
                              /\ p_status p = low_stock).
  { unfold lowStockProducts.
    rewrite length_map, length_pos_firstn, length_pos_filter by lia.
    split; intros [p [Hin H]]; exists p; (split; [exact Hin |]).
    - apply andb_true_iff in H as [H1 H2].
      split; [exact H1 | now apply ProductStatus_eqb_eq].
    - destruct H as [H1 H2]. unfold live in H1. rewrite H1.
      now apply ProductStatus_eqb_eq. }
  assert (Out : (0 <? outOfStockCount user db)%nat = true
                <-> exists p, In p (products db)
                              /\ live (u_id user) p = true
                              /\ p_status p = out_of_stock).
  { unfold outOfStockCount. rewrite length_pos_filter.
    split; intros [p [Hin H]]; exists p; (split; [exact Hin |]).
    - apply andb_true_iff in H as [H1 H2].
      split; [exact H1 | now apply ProductStatus_eqb_eq].
    - destruct H as [H1 H2]. unfold live in H1. rewrite H1.
      now apply ProductStatus_eqb_eq. }
  assert (Pend : (0 <? pendingSalesCount user db)%nat = true
                 <-> exists s, In s (sales db) /\ s_user s = u_id user
                               /\ s_isArchived s = false
                               /\ (s_status s = pending
                                   \/ s_status s = paid)).
  { unfold pendingSalesCount. rewrite length_pos_filter.
    split; intros [s [Hin H]]; exists s; (split; [exact Hin |]).
    - rewrite !andb_true_iff, orb_true_iff, Nat.eqb_eq in H.
      destruct H as [[U A] S]. repeat split; try assumption.
      + now destruct (s_isArchived s).
      + destruct (s_status s); simpl in S; intuition congruence.
    - destruct H as (U & A & S). rewrite U, A, Nat.eqb_refl. simpl.
      destruct S as [-> | ->]; reflexivity. }
  split; [| split; [rewrite Len | split; [reflexivity |]]];
    rewrite alert_types;
    destruct (0 <? List.length (lowStockProducts user db))%nat eqn:E1,
             (0 <? outOfStockCount user db)%nat eqn:E2,
             (u_subscription user),
             (80 <=? productCount user db)%nat,
             (0 <? pendingSalesCount user db)%nat eqn:E4;
    rewrite <- ?Low, <- ?Out, <- ?Pend.
  all: try (simpl; lia).
  all: try (repeat (first [apply SSorted_nil | apply SSorted_cons
                          | apply Forall_nil | apply Forall_cons]);
            simpl; lia).
  all: simpl; intuition congruence.
Qed.




(** ** The other periods *)

Local Open Scope Z_scope.

Lemma startDate_month (now : Z) :
  startDate "month" now
  = JsDate.newDate (JsDate.getFullYear now) (JsDate.getMonth now) 1.
Proof. reflexivity. Qed.

Lemma startDate_year (now : Z) :
  startDate "year" now = JsDate.newDate (JsDate.getFullYear now) 0 1.
Proof. reflexivity. Qed.

Lemma startDate_week (now : Z) :
  startDate "week" now = now - 604800000.
Proof. reflexivity. Qed.

Lemma newDate_first_day (year mi : Z) :
  100 <= year -> 0 <= mi <= 11 ->
  JsDate.newDate year mi 1
  = JsDate.days_from_civil year (mi + 1) 1 * JsDate.msPerDay.
Proof.
  intros Hy Hm. unfold JsDate.newDate.
  replace ((0 <=? year) && (year <=? 99)) with false
    by (symmetry; apply andb_false_iff; right; apply Z.leb_gt; lia).
  rewrite (Z.div_small mi 12), (Z.mod_small mi 12) by lia.
  rewrite Z.add_0_r. f_equal. lia.
Qed.

(** The first day of a month not after now's month is not after now. *)
Lemma newDate_first_le_now (now mi : Z) :
  0 <= now -> 0 <= mi <= JsDate.getMonth now ->
  JsDate.newDate (JsDate.getFullYear now) mi 1 <= now.
Proof.
  intros H Hm.
  pose proof (getFullYear_since_epoch now H) as HY.
  pose proof (getMonth_range now) as HM.
  rewrite newDate_first_day by lia.
  pose proof (days_of_civil (JsDate.Day now)) as I.
  pose proof (civil_ranges (JsDate.Day now)) as R.
  unfold JsDate.getFullYear, JsDate.getMonth in *.
  destruct (JsDate.civil_from_days (JsDate.Day now)) as [[y m] d].
  destruct R as (Rm & Rd & _).
  pose proof (days_from_civil_mono y (mi + 1) m d) as Mo.
  assert (Dn : JsDate.Day now * JsDate.msPerDay <= now).
  { unfold JsDate.Day. pose proof (Z.mul_div_le now JsDate.msPerDay eq_refl).
    lia. }
  unfold JsDate.msPerDay in *. lia.
Qed.

Lemma newDate_first_mono (year a b : Z) :
  100 <= year -> 0 <= a <= b -> b <= 11 ->
  JsDate.newDate year a 1 <= JsDate.newDate year b 1.
Proof.
  intros Hy Ha Hb. rewrite !newDate_first_day by lia.
  pose proof (days_from_civil_mono year (a + 1) (b + 1) 1) as Mo.
  unfold JsDate.msPerDay. lia.
Qed.

(** X20: for every instant [now] of the clock (at or after the epoch,
    UTC), period = month starts at midnight of day 1 of now's month
    and period = year at midnight of 1 January of now's year; the
    starts are ordered year <= quarter <= month <= now, so each of
    these periods contains the next; and period = week starts exactly
    seven days before now. *)
Theorem month_year_week_start (now : Z) :
  0 <= now ->
  let m := startDate "month" now in
  let q := startDate "quarter" now in
  let y := startDate "year" now in
  (JsDate.getFullYear m = JsDate.getFullYear now
   /\ JsDate.getMonth m = JsDate.getMonth now
   /\ JsDate.getDate m = 1 /\ m mod JsDate.msPerDay = 0)
  /\ (JsDate.getFullYear y = JsDate.getFullYear now
      /\ JsDate.getMonth y = 0
      /\ JsDate.getDate y = 1 /\ y mod JsDate.msPerDay = 0)
  /\ (y <= q /\ q <= m /\ m <= now)
  /\ now - startDate "week" now = 7 * JsDate.msPerDay.
Proof.
  intro H. cbv zeta.
  pose proof (getFullYear_since_epoch now H) as HY.
  pose proof (getMonth_range now) as HM.
  assert (HQ : 0 <= JsDate.getMonth now / 3 * 3 <= JsDate.getMonth now)
    by (Z.div_mod_to_equations; lia).
  rewrite startDate_month, startDate_year, startDate_quarter,
          startDate_week.
  destruct (fields_of_newDate (JsDate.getFullYear now)
              (JsDate.getMonth now)) as (MY & MM & MD & M0); [lia | lia |].
  destruct (fields_of_newDate (JsDate.getFullYear now) 0)
    as (YY & YM & YD & Y0); [lia | lia |].
  split; [repeat split; assumption |].
  split; [repeat split; assumption |].
  split; [| unfold JsDate.msPerDay; lia].
  split; [apply newDate_first_mono; lia |].
  split; [apply newDate_first_mono; lia |].
  apply newDate_first_le_now; lia.
Qed.

Lemma month_year_week_start_witness :
  let now := JsDate.at_time 2024 5 15 12 0 0 in
  startDate "year" now <= startDate "quarter" now
  /\ startDate "quarter" now <= startDate "month" now
  /\ startDate "month" now <= now.
Proof.
  cbv zeta.
  refine (proj1 (proj2 (proj2
    (month_year_week_start (JsDate.at_time 2024 5 15 12 0 0) _)))).
  vm_compute. discriminate.
Defined.

(** X21: for every period and every [now] not before the period start,
    the window of the previous period is as long as [start, now], ends
    where that one starts, and shares no sale with it: a sale counted
    in the current headline is never counted in the previous one. *)
Theorem periods_do_not_overlap (user : User) (period : string)
    (currency : Currency) (now : Z) (s : Sale) :
  let start := startDate period now in
  start - previousPeriodStart start now = now - start
  /\ (salesMetrics_match user start currency s = true ->
      previousSalesMetrics_match user start now currency s = false)
  /\ (previousSalesMetrics_match user start now currency s = true ->
      salesMetrics_match user start currency s = false
      /\ s_saleDate s < start)
  /\ (start <= now ->
      previousSalesMetrics_match user start now currency s = true ->
      s_saleDate s < now).
Proof.
  cbv zeta.
  unfold previousSalesMetrics_match, salesMetrics_match,
         previousPeriodStart, periodLength, JsDate.getTime.
  set (start := startDate period now).
  split; [lia |].
  destruct (Nat.eqb (s_user s) (u_id user)),
           (Bool.eqb (s_isArchived s) false),
           (Currency_eqb (s_currency s) currency),
           (Z.leb_spec start (s_saleDate s)),
           (Z.ltb_spec (s_saleDate s) start),
           (Z.leb_spec (start - (now - start)) (s_saleDate s));
    cbn [andb]; repeat split; intros; try discriminate; try reflexivity;
    lia.
Qed.

(** ** Bounds on the reported percentages *)

Local Open Scope Q_scope.

Lemma Qfloor_ge_int (k : Z) (y : Q) :
  inject_Z k <= y -> (k <= Qfloor y)%Z.
Proof.
  intro H. rewrite <- (Qfloor_Z k). now apply Qfloor_resp_le.
Qed.

Lemma Qfloor_le_int (k : Z) (y : Q) :
  y < inject_Z (k + 1) -> (Qfloor y <= k)%Z.
Proof.
  intro H. pose proof (Qfloor_le y) as L.
  assert (I : inject_Z (Qfloor y) < inject_Z (k + 1)) by lra.
  rewrite <- Zlt_Qlt in I. lia.
Qed.

(** Rounding to two decimals does not cross a whole number. *)
Lemma toFixed2_le_int (x : Q) (k : Z) :
  x <= inject_Z k -> toFixed2 x <= inject_Z k.
Proof.
  intro H. unfold toFixed2.
  destruct (Qle_bool (inject_Z (10 ^ 21)) (Qabs x)); [exact H |].
  destruct (Qlt_bool x 0) eqn:S.
  - apply Qlt_bool_iff in S.
    assert (A : Qabs x == - x) by (apply Qabs_neg; lra).
    assert (N : (- (100 * k) <= Qfloor (Qabs x * 100 + (1 # 2)))%Z).
    { apply Qfloor_ge_int. rewrite A, inject_Z_opp, inject_Z_mult.
      change (inject_Z 100) with 100. lra. }
    set (n := Qfloor (Qabs x * 100 + (1 # 2))) in *.
    assert (E : (- n # 100) == - (inject_Z n * (1 # 100)))
      by (unfold Qeq; simpl; lia).
    rewrite E. rewrite Zle_Qle, inject_Z_opp, inject_Z_mult in N.
    change (inject_Z 100) with 100 in N. lra.
  - apply Qlt_bool_false_iff in S.
    assert (A : Qabs x == x) by (apply Qabs_pos; lra).
    assert (N : (Qfloor (Qabs x * 100 + (1 # 2)) <= 100 * k)%Z).
    { apply Qfloor_le_int. rewrite A, inject_Z_plus, inject_Z_mult.
      change (inject_Z 100) with 100. change (inject_Z 1) with 1. lra. }
    set (n := Qfloor (Qabs x * 100 + (1 # 2))) in *.
    rewrite hundredths. rewrite Zle_Qle, inject_Z_mult in N.
    change (inject_Z 100) with 100 in N. lra.
Qed.

Lemma toFixed2_ge_int (x : Q) (k : Z) :
  inject_Z k <= x -> inject_Z k <= toFixed2 x.
Proof.
  intro H. unfold toFixed2.
  destruct (Qle_bool (inject_Z (10 ^ 21)) (Qabs x)); [exact H |].
  destruct (Qlt_bool x 0) eqn:S.
  - apply Qlt_bool_iff in S.
    assert (A : Qabs x == - x) by (apply Qabs_neg; lra).
    assert (N : (Qfloor (Qabs x * 100 + (1 # 2)) <= - (100 * k))%Z).
    { apply Qfloor_le_int.
      rewrite A, inject_Z_plus, inject_Z_opp, inject_Z_mult.
      change (inject_Z 100) with 100. change (inject_Z 1) with 1. lra. }
    set (n := Qfloor (Qabs x * 100 + (1 # 2))) in *.
    assert (E : (- n # 100) == - (inject_Z n * (1 # 100)))
      by (unfold Qeq; simpl; lia).
    rewrite E. rewrite Zle_Qle, inject_Z_opp, inject_Z_mult in N.
    change (inject_Z 100) with 100 in N. lra.
  - apply Qlt_bool_false_iff in S.
    assert (A : Qabs x == x) by (apply Qabs_pos; lra).
    assert (N : (100 * k <= Qfloor (Qabs x * 100 + (1 # 2)))%Z).
    { apply Qfloor_ge_int. rewrite A, inject_Z_mult.
      change (inject_Z 100) with 100. lra. }
    set (n := Qfloor (Qabs x * 100 + (1 # 2))) in *.
    rewrite hundredths. rewrite Zle_Qle, inject_Z_mult in N.
    change (inject_Z 100) with 100 in N. lra.
Qed.

Lemma Qsum_nonneg {D : Type} (f : D -> Q) (l : list D) :
  Forall (fun d => 0 <= f d) l -> 0 <= Qsum (map f l).
Proof.
  induction 1 as [| d l Hd _ IH]; simpl; [lra |]. lra.
Qed.

(** Relative change from a positive base to a non-negative value, in
    percent and in doubles, is at least -100. *)
Lemma change_ge_minus_100 (cur prev : Q) :
  0 <= cur -> 0 < prev ->
  - (100) <= Double.mul (Double.div (Double.sub cur prev) prev) 100.
Proof.
  intros Hc Hp. unfold Double.mul, Double.div, Double.sub.
  rewrite !round_idempotent. change (Double.round 100) with 100.
  pose proof (round_nonneg cur Hc) as Rc.
  pose proof (round_pos prev Hp) as Rp.
  set (C := Double.round cur) in *. set (P := Double.round prev) in *.
  assert (S : - P <= Double.round (C - P)).
  { apply round_ge_double; [| lra].
    apply representable_opp. apply round_is_representable. }
  set (d := Double.round (C - P)) in *.
  assert (Q1 : - (1) <= Double.round (d / P)).
  { apply round_ge_double; [apply (representable_Z (-1)); reflexivity |].
    apply Qle_shift_div_l; [exact Rp | lra]. }
  set (q := Double.round (d / P)) in *.
  apply round_ge_double; [apply (representable_Z (-100)); reflexivity |].
  lra.
Qed.

Lemma share_le_100 (part whole : Q) :
  part <= whole -> 0 < whole ->
  Double.mul (Double.div part whole) 100 <= 100.
Proof.
  intros Hl Hp. unfold Double.mul, Double.div.
  rewrite round_idempotent. change (Double.round 100) with 100.
  pose proof (round_mono _ _ Hl) as M.
  pose proof (round_pos whole Hp) as Rp.
  set (a := Double.round part) in *. set (b := Double.round whole) in *.
  assert (Q1 : Double.round (a / b) <= 1).
  { apply round_le_double; [apply (representable_Z 1); reflexivity |].
    apply Qle_shift_div_r; [exact Rp | lra]. }
  set (q := Double.round (a / b)) in *.
  apply round_le_double; [apply (representable_Z 100); reflexivity |].
  lra.
Qed.

(** Taking a non-negative number away does not make a double larger. *)
Lemma sub_le_self (x y : Q) :
  0 <= y -> Double.sub x y <= Double.round x.
Proof.
  intro H. unfold Double.sub.
  apply round_le_double; [apply round_is_representable |].
  pose proof (round_nonneg y H). lra.
Qed.

Lemma round_sub (x y : Q) : Double.round (Double.sub x y) = Double.sub x y.
Proof. apply round_idempotent. Qed.

(** X22: when no sale price and no expense amount is negative (which
    the schemas require), the payload's [revenueGrowth] and sales
    [growth] are never below -100 and its [profitMargin] is never
    above 100. *)
Theorem reported_percentages_bounded (user : User) (period : string)
    (currency : Currency) (now : Z) (db : Db) :
  Forall (fun s => 0 <= s_salePrice s) (sales db) ->
  Forall (fun e => 0 <= e_amount e) (expenses db) ->
  let dd := dashboard_data user period currency now db in
  - (100) <= ps_revenueGrowth (m_profit (d_metrics dd))
  /\ - (100) <= ss_growth (m_sales (d_metrics dd))
  /\ ps_profitMargin (m_profit (d_metrics dd)) <= 100.
Proof.
  intros HS HE. cbv zeta. unfold dashboard_data.
  cbn [d_metrics m_sales m_profit ss_growth ps_revenueGrowth
       ps_profitMargin].
  set (start := startDate period now).
  destruct (salesData_sums user start currency db) as [C R].
  destruct (expenseData_sums user start currency db) as [T _].
  cbv zeta in C, R, T.
  assert (R0 : 0 <= sm_totalRevenue (salesData user start currency db)).
  { rewrite R. apply Qsum_nonneg. now apply Forall_filter. }
  assert (C0 : (0 <= sm_totalSales (salesData user start currency db))%Z)
    by (rewrite C; lia).
  assert (T0 : 0 <= em_totalExpenses (expenseData user start currency db)).
  { rewrite T. apply Qsum_nonneg. now apply Forall_filter. }
  set (sd := salesData user start currency db) in *.
  set (ed := expenseData user start currency db) in *.
  set (pd := previousData user start now currency db).
  split; [| split].
  - unfold revenueGrowth.
    destruct (Qlt_bool 0 (pm_totalRevenue pd)) eqn:P.
    + apply Qlt_bool_iff in P. cbn [parseFloat].
      apply (toFixed2_ge_int _ (-100)).
      change (inject_Z (-100)) with (- (100)).
      now apply change_ge_minus_100.
    + destruct (Qlt_bool 0 (sm_totalRevenue sd)); cbn [parseFloat]; lra.
  - unfold salesGrowth.
    destruct (Z.ltb_spec 0 (pm_totalSales pd)) as [P | P].
    + cbn [parseFloat]. apply (toFixed2_ge_int _ (-100)).
      change (inject_Z (-100)) with (- (100)).
      apply change_ge_minus_100.
      * change 0 with (inject_Z 0). now rewrite <- Zle_Qle.
      * change 0 with (inject_Z 0). now rewrite <- Zlt_Qlt.
    + destruct (0 <? sm_totalSales sd)%Z; cbn [parseFloat]; lra.
  - unfold profitMargin.
    destruct (Qlt_bool 0 (netRevenue sd)) eqn:N.
    + apply Qlt_bool_iff in N. cbn [parseFloat].
      apply (toFixed2_le_int _ 100). change (inject_Z 100) with 100.
      apply share_le_100; [| exact N]. unfold netProfit.
      eapply Qle_trans; [apply sub_le_self; exact T0 |].
      unfold netRevenue. rewrite round_sub. apply Qle_refl.
    + cbn [parseFloat]. lra.
Qed.

Lemma reported_percentages_bounded_witness :
  let dd := dashboard_data alice "week" GBP noon_2024_05_15 gbp_and_usd in
  - (100) <= ps_revenueGrowth (m_profit (d_metrics dd))
  /\ - (100) <= ss_growth (m_sales (d_metrics dd))
  /\ ps_profitMargin (m_profit (d_metrics dd)) <= 100.
Proof.
  apply (reported_percentages_bounded alice "week" GBP noon_2024_05_15
           gbp_and_usd).
  - repeat constructor; simpl; discriminate.
  - repeat constructor; simpl; discriminate.
Defined.

(** ** Virtuals of a sale and of a product *)




Lemma mul_zero_l (y : Q) : Double.mul 0 y = 0.
Proof.
  unfold Double.mul. change (Double.round 0) with 0.
  apply round_zero. ring.
Qed.

(** Taking nothing away from a double leaves it. *)
Lemma sub_nothing (x y : Q) :
  Double.round x = x -> Double.sub x (Double.mul 0 y) = x.
Proof.
  intro R. rewrite mul_zero_l. unfold Double.sub. rewrite R.
  change (Double.round 0) with 0.
  rewrite (round_comp (x - 0) x) by ring. exact R.
Qed.

(** A positive double is 100 percent of itself. *)
Lemma percent_of_self (x : Q) :
  0 < x -> Double.mul (Double.div x x) 100 = 100.
Proof.
  intro P. pose proof (round_pos x P) as R.
  unfold Double.mul, Double.div.
  rewrite (round_comp (Double.round x / Double.round x) 1)
    by (field; lra).
  reflexivity.
Qed.



(** X24: a row of the sales list carries the same net amount as the
    sale's [netAmount] virtual, and for a sale whose product is found
    the same profit and profit margin as the [profit] and
    [profitMargin] virtuals return for the populated product; for a
    sale whose product is not found the row prices the product at 0,
    so its profit is the whole net amount and, when that is positive,
    its margin is 100. *)
Theorem list_rows_and_virtuals (s : Sale) (product : option Product) :
  let row := with_profit (s, product) in
  wp_netAmount row = netAmount s
  /\ (forall p, product = Some p ->
        profit s (Populated product) = Returns (wp_profit row)
        /\ sale_profitMargin s (Populated product)
           = Returns (wp_profitMargin row))
  /\ (product = None ->
      wp_profit row == netAmount s
      /\ (netAmount s <= 0 -> wp_profitMargin row = JNumber 0)
      /\ (0 < netAmount s -> parseFloat (wp_profitMargin row) == 100)).
Proof.
  cbv zeta.
  destruct product as [p |];
    cbv beta iota zeta delta [with_profit wp_netAmount wp_profit wp_profitMargin
                         sale_profitMargin profit netAmount totalFees];
    set (na := Double.sub (s_salePrice s) _).
  - split; [reflexivity |]. split; [| discriminate].
    intros p' _. split; [reflexivity |].
    destruct (Qlt_bool 0 na); reflexivity.
  - split; [reflexivity |]. split; [discriminate |]. intros _.
    assert (R : Double.round na = na) by apply round_sub.
    rewrite (sub_nothing na _ R).
    split; [reflexivity |]. split; intro H.
    + apply Qlt_bool_false_iff in H. now rewrite H.
    + pose proof H as H'. apply Qlt_bool_iff in H'. rewrite H'.
      cbn [parseFloat]. rewrite (percent_of_self _ H). reflexivity.
Qed.


(** ** Pages of the sales list *)

Local Open Scope Z_scope.

Lemma firstn_plus {D : Type} (a b : nat) (l : list D) :
  firstn (a + b)%nat l = firstn a l ++ firstn b (skipn a l).
Proof.
  revert l. induction a as [| a IH]; intro l; simpl; [reflexivity |].
  destruct l as [| x l]; simpl.
  - now rewrite firstn_nil.
  - now rewrite IH.
Qed.

Lemma concat_pages {D : Type} (n k : nat) (l : list D) :
  List.concat (map (fun i => firstn n (skipn (i * n)%nat l)) (seq 0 k))
  = firstn (k * n)%nat l.
Proof.
  induction k as [| k IH]; [reflexivity |].
  rewrite seq_S, map_app, concat_app, IH. simpl.
  rewrite app_nil_r, <- firstn_plus. f_equal. lia.
Qed.

(** [Math.ceil(total / limit)] is the least number of pages of [limit]
    items that hold [total] items. *)
Lemma ceil_pages (total limit : Z) :
  1 <= limit ->
  let pages := Qceiling (inject_Z total / inject_Z limit) in
  (pages - 1) * limit < total <= pages * limit.
Proof.
  intros Hl pages.
  assert (Lq : (0 < inject_Z limit)%Q).
  { change 0%Q with (inject_Z 0). rewrite <- Zlt_Qlt. lia. }
  pose proof (Qle_ceiling (inject_Z total / inject_Z limit)) as Up.
  pose proof (Qceiling_lt (inject_Z total / inject_Z limit)) as Lo.
  fold pages in Up, Lo.
  split.
  - assert (E : (inject_Z total
                 == inject_Z total / inject_Z limit * inject_Z limit)%Q)
      by (field; lra).
    assert (M : (inject_Z (pages - 1) * inject_Z limit < inject_Z total)%Q).
    { rewrite E. apply Qmult_lt_compat_r; [exact Lq | exact Lo]. }
    rewrite <- inject_Z_mult in M. now rewrite <- Zlt_Qlt in M.
  - assert (E : (inject_Z total
                 == inject_Z total / inject_Z limit * inject_Z limit)%Q)
      by (field; lra).
    assert (M : (inject_Z total <= inject_Z pages * inject_Z limit)%Q).
    { rewrite E at 1. apply Qmult_le_compat_r; [exact Up | lra]. }
    rewrite <- inject_Z_mult in M. now rewrite <- Zle_Qle in M.
Qed.

Lemma limit_of_valid (q : SalesQuery) :
  valid_sales_query q = true -> 1 <= or_default (sq_limit q) 20 <= 100.
Proof.
  unfold valid_sales_query. intro V. apply andb_true_iff in V as [_ V].
  destruct (sq_limit q) as [l |]; simpl; [| lia].
  apply andb_true_iff in V as [A B]. apply Z.leb_le in A, B. lia.
Qed.

Lemma rows_back {P : Type} (f : Sale -> option P)
    (g : Sale * option P -> SaleWithProfit) (l : list Sale) :
  (forall x, wp_sale (g x) = fst x) ->
  map wp_sale (map g (map (fun s => (s, f s)) l)) = l.
Proof.
  intro H. rewrite !map_map. rewrite <- (map_id l) at 2.
  apply map_ext. intro s. now rewrite H.
Qed.

Lemma wp_sale_with_profit (x : Sale * option Product) :
  wp_sale (with_profit x) = fst x.
Proof. now destruct x. Qed.

(** The sales on page [p] are a slice of the sorted matches. *)
Lemma page_sales_slice (user : User) (q : SalesQuery) (db : Db) (p : Z) :
  valid_sales_query q = true -> 1 <= p ->
  page_sales user q db p
  = firstn (Z.to_nat (or_default (sq_limit q) 20))
           (skipn (Z.to_nat ((p - 1) * or_default (sq_limit q) 20))
                  (sales_sorted user q db)).
Proof.
  intros V Hp. unfold page_sales, get_sales.
  assert (V' : valid_sales_query (with_page q p) = true).
  { unfold valid_sales_query in *. cbn [with_page sq_page sq_limit].
    apply andb_true_iff in V as [_ V]. rewrite V.
    now rewrite (proj2 (Z.leb_le 1 p) Hp). }
  rewrite V'. cbv zeta. cbn [sp_sales with_page sq_page sq_limit or_default].
  rewrite (rows_back _ _ _ wp_sale_with_profit). reflexivity.
Qed.

(** X26: a valid [GET /api/sales] answers with at most [limit] rows;
    [totalItems] is the number of matching sales and [totalPages] the
    least number of pages that hold them; the pages 1..[totalPages],
    one after the other, list every matching sale exactly once, newest
    first, and any later page is empty. *)
Theorem sales_pages_partition (user : User) (q : SalesQuery) (db : Db) :
  valid_sales_query q = true ->
  let limit := or_default (sq_limit q) 20 in
  let all := sales_sorted user q db in
  exists body,
    get_sales user q db = Json 200 body
    /\ (List.length (sp_sales body) <= Z.to_nat limit)%nat
    /\ pg_totalItems (sp_pagination body) = Z.of_nat (List.length all)
    /\ pg_itemsPerPage (sp_pagination body) = limit
    /\ ((pg_totalPages (sp_pagination body) - 1) * limit
        < Z.of_nat (List.length all)
        <= pg_totalPages (sp_pagination body) * limit)
    /\ List.concat
         (map (page_sales user q db)
              (map Z.of_nat
                   (seq 1 (Z.to_nat (pg_totalPages (sp_pagination body))))))
       = all
    /\ (forall p, pg_totalPages (sp_pagination body) < p ->
                  page_sales user q db p = [])
    /\ Permutation all (filter (sales_filter user q) (sales db))
    /\ StronglySorted (fun a b => s_saleDate b <= s_saleDate a) all.
Proof.
  intros V. cbv zeta.
  pose proof (limit_of_valid q V) as HL.
  set (limit := or_default (sq_limit q) 20) in *.
  set (all := sales_sorted user q db).
  assert (P : Permutation all (filter (sales_filter user q) (sales db)))
    by apply sort_by_perm.
  assert (Len : List.length (filter (sales_filter user q) (sales db))
                = List.length all)
    by (symmetry; now apply Permutation_length).
  unfold get_sales. rewrite V. cbv zeta. fold limit.
  eexists. split; [reflexivity |].
  cbn [sp_sales sp_pagination pg_totalItems pg_itemsPerPage pg_totalPages].
  rewrite Len.
  pose proof (ceil_pages (Z.of_nat (List.length all)) limit
                (proj1 HL)) as C. cbv zeta in C.
  set (pages := Qceiling (inject_Z (Z.of_nat (List.length all))
                          / inject_Z limit)) in *.
  assert (P0 : 0 <= pages) by nia.
  split; [rewrite !length_map; apply firstn_le_length |].
  split; [reflexivity |]. split; [reflexivity |]. split; [exact C |].
  split; [| split; [| split; [exact P |]]].
  - rewrite map_map, <- seq_shift, map_map.
    rewrite (map_ext _ (fun i => firstn (Z.to_nat limit)
                                   (skipn (i * Z.to_nat limit)%nat all))).
    + rewrite concat_pages. apply firstn_all2.
      apply Nat2Z.inj_le. rewrite Nat2Z.inj_mul, !Z2Nat.id by lia. lia.
    + intro i. rewrite page_sales_slice by (try exact V; lia).
      fold limit. fold all. f_equal. f_equal.
      rewrite Z2Nat.inj_mul by lia. f_equal. lia.
  - intros p Hp. rewrite page_sales_slice by (try exact V; lia).
    fold limit. fold all. rewrite skipn_all2; [apply firstn_nil |].
    apply Nat2Z.inj_le. rewrite Z2Nat.id by nia. nia.
  - eapply StronglySorted_impl;
      [| apply (sort_by_sorted
                  (fun a b : Sale => s_saleDate b <=? s_saleDate a))].
    + intros a b H. now apply Z.leb_le.
    + intros a b. rewrite !Z.leb_le. lia.
    + intros a b c. rewrite !Z.leb_le. lia.
Qed.

Lemma sales_pages_partition_witness :
  exists body,
    get_sales alice (mkSalesQuery None (Some 1) None None None None None)
      gbp_and_usd = Json 200 body
    /\ pg_totalPages (sp_pagination body) = 2.
Proof.
  destruct (sales_pages_partition alice
              (mkSalesQuery None (Some 1) None None None None None)
              gbp_and_usd eq_refl)
    as (body & E & _ & _ & _ & C & _).
  exists body. split; [exact E |].
  change (List.length (sales_sorted alice
            (mkSalesQuery None (Some 1) None None None None None)
            gbp_and_usd)) with 2%nat in C.
  cbn [or_default sq_limit] in C. lia.
Defined.

(** ** Recent sales *)

Local Open Scope Z_scope.

(** X27: the payload shows at most five recent sales, whatever the
    period and the currency asked for: they are non-archived sales of
    the user, each with the product document of its product id if
    there is one, newest first; no sale of the user left out is newer
    than one shown, and when fewer than five are shown none is left
    out. *)
Theorem recent_sales_shown (user : User) (period : string)
    (currency : Currency) (now : Z) (db : Db) :
  let shown := i_recentSales (d_insights
                 (dashboard_data user period currency now db)) in
  (List.length shown <= 5)%nat
  /\ (forall row, In row shown ->
        In (fst row) (sales db)
        /\ s_user (fst row) = u_id user
        /\ s_isArchived (fst row) = false
        /\ snd row = findProductById (s_product (fst row)) (products db))
  /\ StronglySorted
       (fun a b => s_saleDate (fst b) <= s_saleDate (fst a)) shown
  /\ (forall row s, In row shown -> In s (sales db) ->
        live_sale (u_id user) s = true ->
        ~ In s (map fst shown) ->
        s_saleDate s <= s_saleDate (fst row))
  /\ (forall s, In s (sales db) -> live_sale (u_id user) s = true ->
        (List.length shown < 5)%nat -> In s (map fst shown)).
Proof.
  cbv zeta. unfold dashboard_data. cbn [d_insights i_recentSales].
  unfold recentSales. fold (live_sale (u_id user)).
  set (found := filter (live_sale (u_id user)) (sales db)).
  set (pop := fun s => (s, findProductById (s_product s) (products db))).
  set (le := fun a b : Sale * option Product =>
               s_saleDate (fst b) <=? s_saleDate (fst a)).
  set (sorted := sort_by le (map pop found)).
  rewrite firstn_firstn. change (Init.Nat.min 5 10) with 5%nat.
  pose proof (sort_by_perm le (map pop found)) as P. fold sorted in P.
  assert (SS : StronglySorted (fun a b => le a b = true) sorted).
  { apply sort_by_sorted.
    - intros a b. unfold le. rewrite !Z.leb_le. lia.
    - intros a b c. unfold le. rewrite !Z.leb_le. lia. }
  assert (Rows : forall row, In row sorted ->
            In (fst row) found /\ row = pop (fst row)).
  { intros row H. apply (Permutation_in _ P) in H.
    apply in_map_iff in H as [s [<- Hs]]. now split. }
  assert (Sub : forall row, In row (firstn 5 sorted) -> In row sorted).
  { intros row H. rewrite <- (firstn_skipn 5 sorted).
    apply in_or_app. now left. }
  split; [apply firstn_le_length |].
  split; [| split; [| split]].
  - intros row H. destruct (Rows row (Sub row H)) as [F E].
    apply filter_In in F as [Hin L]. unfold live_sale in L.
    apply andb_true_iff in L as [U A]. apply Nat.eqb_eq in U.
    repeat split; try assumption.
    + now destruct (s_isArchived (fst row)).
    + rewrite E at 1. reflexivity.
  - apply StronglySorted_firstn.
    eapply StronglySorted_impl; [| exact SS].
    intros a b H. unfold le in H. now apply Z.leb_le.
  - intros row s Hrow Hs L Hout.
    assert (Hp : In (pop s) sorted).
    { apply (Permutation_in (l := map pop found)); [now symmetry |].
      apply in_map. apply filter_In. now split. }
    assert (Hskip : In (pop s) (skipn 5 sorted)).
    { rewrite <- (firstn_skipn 5 sorted) in Hp.
      apply in_app_or in Hp as [Hf | Hk]; [| exact Hk].
      exfalso. apply Hout. change s with (fst (pop s)). now apply in_map. }
    rewrite <- (firstn_skipn 5 sorted) in SS.
    pose proof (StronglySorted_app_cross _ _ _ row (pop s) SS Hrow Hskip)
      as C.
    unfold le in C. now apply Z.leb_le in C.
  - intros s Hs L Hlen.
    assert (All : firstn 5 sorted = sorted).
    { apply firstn_all2. rewrite length_firstn in Hlen. lia. }
    rewrite All.
    change s with (fst (pop s)). apply in_map.
    apply (Permutation_in (l := map pop found)); [now symmetry |].
    apply in_map. apply filter_In. now split.
Qed.

(** ** Product status and [save] *)

(** X28: with a fixed threshold, more stock never gives a worse
    status: for quantities 0 <= q <= q' the status of q' is the status
    of q or a better one in the order out_of_stock, low_stock, active;
    with a threshold of 0 or less such a product is never low_stock;
    and the hook never sets the status archived. *)
Theorem status_grows_with_stock (q q' t : Z) :
  0 <= q -> q <= q' ->
  stock_rank (deriveStatus q t) <= stock_rank (deriveStatus q' t)
  /\ (t <= 0 -> deriveStatus q t <> low_stock)
  /\ (deriveStatus q t <> archived).
Proof.
  intros H0 H1. unfold deriveStatus.
  destruct (Z.eqb_spec q 0), (Z.eqb_spec q' 0),
           (Z.leb_spec q t), (Z.leb_spec q' t);
    cbn [stock_rank]; repeat split; intros; try discriminate; lia.
Qed.

Lemma status_grows_with_stock_witness :
  stock_rank (deriveStatus 2 2) <= stock_rank (deriveStatus 5 2).
Proof.
  apply (status_grows_with_stock 2 5 2); lia.
Defined.





(** ** Instances *)

Lemma refused_writes_change_nothing_witness :
  snd (post_sale alice
         (mkSaleBody 1%nat 9 45 vinted None None None None None None)
         50%nat 0 scenario_db) = scenario_db
  /\ snd (put_sale alice 50%nat no_update scenario_db) = scenario_db.
Proof.
  split.
  - eapply (proj1 refused_writes_change_nothing alice
              (mkSaleBody 1%nat 9 45 vinted None None None None None None)
              50%nat 0 scenario_db).
    vm_compute. reflexivity.
  - eapply (proj1 (proj2 refused_writes_change_nothing) alice 50%nat
              no_update scenario_db).
    vm_compute. reflexivity.
Defined.

Lemma inventory_limit_refusal_witness :
  exists r,
    inventoryLimitMiddleware alice (mkDb hundred_products [] []) = Some r
    /\ lr_currentCount r = 100%nat
    /\ exists a,
         of_type subscription_limit
                 (alerts alice (mkDb hundred_products [] [])) = [a]
         /\ a_data a = Some (LimitData 100 100).
Proof.
  eexists. split; [vm_compute; reflexivity |].
  destruct (proj1 (inventory_limit_refusal alice
                     (mkDb hundred_products [] [])) _ eq_refl)
    as (_ & _ & _ & C & _ & A).
  split; [reflexivity | exact A].
Defined.

